(** * NoteEditService: the note-edit pipeline of the Misskey backend

    A shallow embedding of [packages/backend/src/core/NoteEditService.ts]:
  the [NotificationManager] helper class, [NoteEditService.edit] with
  [extractMentionedUsers], the deferred fan-out [postNoteEdited] with
  [renderNoteOrRenoteActivity] and [index], and [checkHibernation].

  Conventions of the embedding
  - a JavaScript string that carries user content (text, cw, tags) is the
    list of its UTF-16 code units; identifiers, host names and the names of
    visibility classes are plain [string]s;
  - [null]/[undefined] is [None];
  - a thrown value is an [Exn]; code that can throw returns a [Result];
  - calls into injected collaborators that have an effect are recorded, in
    program order, as a list of [Call]s (the monad [M]);
  - collaborators that are only read are fields of the record [Services]. *)

From Stdlib Require Import List String Ascii Arith NArith ZArith Bool Lia.
From Stdlib Require Import Permutation.
Import ListNotations.

Set Implicit Arguments.

(* ===================================================================== *)
(** ** JavaScript strings *)
(* ===================================================================== *)

Module Js.

(** A string as the sequence of its UTF-16 code units. *)
Definition JsString := list N.

(** An ASCII literal as a JavaScript string. *)
Definition lit (s : string) : JsString :=
  map N_of_ascii (list_ascii_of_string s).

Definition isHighSurrogate (u : N) : bool :=
  ((55296 <=? u) && (u <=? 56319))%N.        (* 0xD800 .. 0xDBFF *)

Definition isLowSurrogate (u : N) : bool :=
  ((56320 <=? u) && (u <=? 57343))%N.        (* 0xDC00 .. 0xDFFF *)

(** [Array.from(s)]: the string iterator yields one element per code
    point; a high surrogate followed by a low surrogate is one element,
    any other code unit (a lone surrogate too) is one element. *)
Fixpoint Array_from (s : JsString) : list JsString :=
  match s with
  | [] => []
  | u :: rest =>
      match rest with
      | v :: rest' =>
          if isHighSurrogate u && isLowSurrogate v
          then [u; v] :: Array_from rest'
          else [u] :: Array_from rest
      | [] => [[u]]
      end
  end.

(** White space and line terminators removed by [String.prototype.trim]. *)
Definition isWhiteSpace (u : N) : bool :=
  ((9 <=? u) && (u <=? 13)                    (* TAB LF VT FF CR *)
   || (u =? 32) || (u =? 160) || (u =? 5760)
   || ((8192 <=? u) && (u <=? 8202))          (* U+2000 .. U+200A *)
   || (u =? 8232) || (u =? 8233) || (u =? 8239)
   || (u =? 8287) || (u =? 12288) || (u =? 65279))%N.

Fixpoint trimStart (s : JsString) : JsString :=
  match s with
  | u :: rest => if isWhiteSpace u then trimStart rest else s
  | [] => []
  end.

Definition trimEnd (s : JsString) : JsString := rev (trimStart (rev s)).

Definition trim (s : JsString) : JsString := trimEnd (trimStart s).

(** [s.slice(0, n)] for [0 <= n]. *)
Definition slice0 (n : nat) (s : JsString) : JsString := firstn n s.

(** Truthiness of [string | null]: neither null nor empty. *)
Definition truthy (o : option JsString) : bool :=
  match o with
  | Some (_ :: _) => true
  | _ => false
  end.

Definition truthyStr (o : option string) : bool :=
  match o with
  | Some s => negb (s =? EmptyString)%string
  | None => false
  end.

Fixpoint eqb (a b : JsString) : bool :=
  match a, b with
  | [], [] => true
  | x :: a', y :: b' => (x =? y)%N && eqb a' b'
  | _, _ => false
  end.

(** [a === b] on [string | null]. *)
Definition optStrEqb (a b : option string) : bool :=
  match a, b with
  | Some x, Some y => (x =? y)%string
  | None, None => true
  | _, _ => false
  end.

Fixpoint isPrefix (w s : JsString) : bool :=
  match w, s with
  | [], _ => true
  | x :: w', y :: s' => (x =? y)%N && isPrefix w' s'
  | _ :: _, [] => false
  end.

(** [s.includes(w)]. *)
Fixpoint includes (s w : JsString) : bool :=
  isPrefix w s ||
  match s with
  | [] => false
  | _ :: s' => includes s' w
  end.

End Js.

Import Js.

(* ===================================================================== *)
(** ** Entities read from and written to the store *)
(* ===================================================================== *)

Definition Id := string.
(** [MiUser['host']]: [null] for a local user. *)
Definition Host := option string.
(** A [Date] as its time value in milliseconds. *)
Definition Date := Z.

Module MiChannel.
Record t := { id : Id }.
End MiChannel.

Module MiUser.
(** The fields of [MiUser] the service reads; [MinimumUser] and the
    acting-user argument of [edit] are sub-records of it. *)
Record t := {
  id : Id;
  username : string;
  host : Host;
  uri : option string;
  isBot : bool;
  isCat : bool
}.
End MiUser.

Module MiDriveFile.
Record t := { id : Id; type : string }.
End MiDriveFile.

Module IPoll.
Record t := {
  choices : list JsString;
  multiple : bool;
  expiresAt : option Date
}.
End IPoll.

Module MiUserProfile.
Record t := { userId : Id; url : option string }.
End MiUserProfile.

(** One element of [IMentionedRemoteUsers]. *)
Module MentionedRemoteUser.
Record t := {
  uri : option string;
  url : option string;
  username : string;
  host : Host
}.
End MentionedRemoteUser.

Module MiNote.
(** The columns and relations of [MiNote] that the service reads or sets.
    [visibility] is the raw column value: [edit] stores
    [data.visibility as any], whatever string that is. *)
#[warnings="-register-all"] Inductive t : Type := Build {
  id : Id;
  updatedAt : option Date;
  fileIds : list Id;
  replyId : option Id;
  renoteId : option Id;
  channelId : option Id;
  threadId : option Id;
  name : option JsString;
  text : option JsString;
  hasPoll : bool;
  cw : option JsString;
  tags : list JsString;
  emojis : list JsString;
  userId : Id;
  localOnly : bool;
  reactionAcceptance : option string;
  visibility : string;
  visibleUserIds : list Id;
  attachedFileTypes : list string;
  replyUserId : option Id;
  replyUserHost : Host;
  renoteUserId : option Id;
  renoteUserHost : Host;
  userHost : Host;
  uri : option string;
  url : option string;
  mentions : option (list Id);
  mentionedRemoteUsers : option (list MentionedRemoteUser.t);
  reply : option t;                 (* relation *)
  channel : option MiChannel.t      (* relation *)
}.
End MiNote.

(* ===================================================================== *)
(** ** Thrown values and results *)
(* ===================================================================== *)

Inductive Exn : Type :=
| JsError (name message : string)            (* an [Error] with its [name] *)
| ContainsProhibitedWordsError               (* the service's own subclass *)
| EntityNotFoundError (entity : string) (key : Id)   (* [findOneByOrFail] *)
| QueryFailedError (code : string).          (* raised by the store driver *)

(** [new Error(message)]: the name is ["Error"] until reassigned. *)
Definition newError (message : string) : Exn := JsError "Error" message.

Definition exnName (e : Exn) : string :=
  match e with
  | JsError n _ => n
  | ContainsProhibitedWordsError => "Error"
  | EntityNotFoundError _ _ => "EntityNotFoundError"
  | QueryFailedError _ => "QueryFailedError"
  end.

Definition Result (A : Type) : Type := (Exn + A)%type.

Definition ok {A} (a : A) : Result A := inr a.
Definition throw {A} (e : Exn) : Result A := inl e.

Definition rbind {A B} (r : Result A) (f : A -> Result B) : Result B :=
  match r with
  | inl e => inl e
  | inr a => f a
  end.

Declare Scope result_scope.
Delimit Scope result_scope with result.
Notation "x <- r ;; k" := (rbind r (fun x => k))
  (at level 61, r at next level, right associativity) : result_scope.

(** [findOneByOrFail]: a missing row is an [EntityNotFoundError]. *)
Definition orFail {A} (entity : string) (key : Id) (o : option A) : Result A :=
  match o with
  | Some a => ok a
  | None => throw (EntityNotFoundError entity key)
  end.

(** The result with its value mapped; an exception is passed on. *)
Definition rmap {A B} (f : A -> B) (r : Result A) : Result B :=
  match r with
  | inl e => inl e
  | inr a => inr (f a)
  end.

(* ===================================================================== *)
(** ** The edit payload *)
(* ===================================================================== *)

Module Option.
(** [type Option]: every field may be absent. The object is mutated by
    [edit] as it goes; the setters below write one field. *)
Record t := Build {
  createdAt : option Date;
  name : option JsString;
  text : option JsString;
  reply : option MiNote.t;
  renote : option MiNote.t;
  files : option (list MiDriveFile.t);
  poll : option IPoll.t;
  localOnly : option bool;
  reactionAcceptance : option string;
  cw : option JsString;
  visibility : option string;
  visibleUsers : option (list MiUser.t);
  channel : option MiChannel.t;
  apMentions : option (list MiUser.t);
  apHashtags : option (list JsString);
  apEmojis : option (list JsString);
  uri : option string;
  url : option string;
  app : option Id
}.

Definition set_createdAt v (d : t) : t :=
  Build v (name d) (text d) (reply d) (renote d) (files d) (poll d)
    (localOnly d) (reactionAcceptance d) (cw d) (visibility d)
    (visibleUsers d) (channel d) (apMentions d) (apHashtags d) (apEmojis d)
    (uri d) (url d) (app d).
Definition set_name v (d : t) : t :=
  Build (createdAt d) v (text d) (reply d) (renote d) (files d) (poll d)
    (localOnly d) (reactionAcceptance d) (cw d) (visibility d)
    (visibleUsers d) (channel d) (apMentions d) (apHashtags d) (apEmojis d)
    (uri d) (url d) (app d).
Definition set_text v (d : t) : t :=
  Build (createdAt d) (name d) v (reply d) (renote d) (files d) (poll d)
    (localOnly d) (reactionAcceptance d) (cw d) (visibility d)
    (visibleUsers d) (channel d) (apMentions d) (apHashtags d) (apEmojis d)
    (uri d) (url d) (app d).
Definition set_reply v (d : t) : t :=
  Build (createdAt d) (name d) (text d) v (renote d) (files d) (poll d)
    (localOnly d) (reactionAcceptance d) (cw d) (visibility d)
    (visibleUsers d) (channel d) (apMentions d) (apHashtags d) (apEmojis d)
    (uri d) (url d) (app d).
Definition set_renote v (d : t) : t :=
  Build (createdAt d) (name d) (text d) (reply d) v (files d) (poll d)
    (localOnly d) (reactionAcceptance d) (cw d) (visibility d)
    (visibleUsers d) (channel d) (apMentions d) (apHashtags d) (apEmojis d)
    (uri d) (url d) (app d).
Definition set_files v (d : t) : t :=
  Build (createdAt d) (name d) (text d) (reply d) (renote d) v (poll d)
    (localOnly d) (reactionAcceptance d) (cw d) (visibility d)
    (visibleUsers d) (channel d) (apMentions d) (apHashtags d) (apEmojis d)
    (uri d) (url d) (app d).
Definition set_poll v (d : t) : t :=
  Build (createdAt d) (name d) (text d) (reply d) (renote d) (files d) v
    (localOnly d) (reactionAcceptance d) (cw d) (visibility d)
    (visibleUsers d) (channel d) (apMentions d) (apHashtags d) (apEmojis d)
    (uri d) (url d) (app d).
Definition set_localOnly v (d : t) : t :=
  Build (createdAt d) (name d) (text d) (reply d) (renote d) (files d) (poll d)
    v (reactionAcceptance d) (cw d) (visibility d)
    (visibleUsers d) (channel d) (apMentions d) (apHashtags d) (apEmojis d)
    (uri d) (url d) (app d).
Definition set_reactionAcceptance v (d : t) : t :=
  Build (createdAt d) (name d) (text d) (reply d) (renote d) (files d) (poll d)
    (localOnly d) v (cw d) (visibility d)
    (visibleUsers d) (channel d) (apMentions d) (apHashtags d) (apEmojis d)
    (uri d) (url d) (app d).
Definition set_visibility v (d : t) : t :=
  Build (createdAt d) (name d) (text d) (reply d) (renote d) (files d) (poll d)
    (localOnly d) (reactionAcceptance d) (cw d) v
    (visibleUsers d) (channel d) (apMentions d) (apHashtags d) (apEmojis d)
    (uri d) (url d) (app d).
Definition set_visibleUsers v (d : t) : t :=
  Build (createdAt d) (name d) (text d) (reply d) (renote d) (files d) (poll d)
    (localOnly d) (reactionAcceptance d) (cw d) (visibility d)
    v (channel d) (apMentions d) (apHashtags d) (apEmojis d)
    (uri d) (url d) (app d).
Definition set_channel v (d : t) : t :=
  Build (createdAt d) (name d) (text d) (reply d) (renote d) (files d) (poll d)
    (localOnly d) (reactionAcceptance d) (cw d) (visibility d)
    (visibleUsers d) v (apMentions d) (apHashtags d) (apEmojis d)
    (uri d) (url d) (app d).
Definition set_apMentions v (d : t) : t :=
  Build (createdAt d) (name d) (text d) (reply d) (renote d) (files d) (poll d)
    (localOnly d) (reactionAcceptance d) (cw d) (visibility d)
    (visibleUsers d) (channel d) v (apHashtags d) (apEmojis d)
    (uri d) (url d) (app d).
Definition set_apHashtags v (d : t) : t :=
  Build (createdAt d) (name d) (text d) (reply d) (renote d) (files d) (poll d)
    (localOnly d) (reactionAcceptance d) (cw d) (visibility d)
    (visibleUsers d) (channel d) (apMentions d) v (apEmojis d)
    (uri d) (url d) (app d).

(** [data.visibility === v]. *)
Definition visibilityIs (v : string) (d : t) : bool :=
  optStrEqb (visibility d) (Some v).
End Option.

(** [if (c) data = f(data)]. *)
Definition when_ {A} (c : bool) (f : A -> A) (a : A) : A :=
  if c then f a else a.

Definition isNull {A} (o : option A) : bool :=
  match o with Some _ => false | None => true end.

Definition notNull {A} (o : option A) : bool := negb (isNull o).

(* ===================================================================== *)
(** ** Collaborator calls (effects) *)
(* ===================================================================== *)

Inductive NotificationType := reply | renote | quote | mention.

Definition NotificationType_eqb (a b : NotificationType) : bool :=
  match a, b with
  | reply, reply | renote, renote | quote, quote | mention, mention => true
  | _, _ => false
  end.

(** The object built by [ApRendererService] inside
    [renderNoteOrRenoteActivity]. The renderer is only invoked, so an
    activity is the term of renderer calls that builds it. *)
Inductive ApNote := renderNote (note : MiNote.t) (dive isTalk : bool).

Inductive ApContent :=
| renderAnnounce (target : string) (note : MiNote.t)
| renderNoteUpdate (object : ApNote) (note : MiNote.t) (userId : Id).

Inductive Activity := addContext (content : ApContent).

Module MiWebhook.
Record t := { id : Id; userId : Id; on : list string }.
End MiWebhook.

Module MiInstance.
Record t := { id : Id; host : string }.
End MiInstance.

(** The closure handed to [setImmediate(...).then] at the end of [edit]:
    the arguments with which [postNoteEdited] will run. *)
Module PostUpdated.
Record t := {
  noteId : Id;
  user : MiUser.t;
  data : Option.t;
  silent : bool;
  tags : list JsString;
  mentionedUsers : list MiUser.t
}.
End PostUpdated.

Inductive Call : Type :=
(* edit *)
| notesRepository_update (id : Id) (note : MiNote.t)
| console_error (e : Exn)
| setImmediate_postUpdated (job : PostUpdated.t)
| moderationLogService_log (editor : MiUser.t) (noteUser : MiUser.t)
    (note oldNote : MiNote.t)
(* NotificationManager.notify *)
| notificationService_createNotification (target : Id)
    (type : NotificationType) (noteId : Id)
    (targetNoteId : option (option Id)) (notifierId : Id)
(* postNoteEdited *)
| notesChart_update (note : MiNote.t)
| perUserNotesChart_update (user : MiUser.t) (note : MiNote.t)
| instancesRepository_increment (id : Id)
| instanceChart_updateNote (host : string) (note : MiNote.t)
| hashtagService_updateHashtags (user : MiUser.t) (tags : list JsString)
| endedPollNotificationQueue_add (noteId : Id) (delay : Z)
| activeUsersChart_write (user : MiUser.t)
| noteReadService_insertNoteUnread (userId : Id) (note : MiNote.t)
    (isSpecified isMentioned : bool)
| globalEventService_publishNotesStream (noteObj : MiNote.t)
| roleService_addNoteToRoleTimeline (noteObj : MiNote.t)
| queueService_webhookDeliver (webhook : MiWebhook.t) (noteObj : MiNote.t)
| apDeliverManagerService_createDeliverManager (user : MiUser.t)
    (activity : option Activity)
| dm_addDirectRecipe (to : MiUser.t)
| dm_addFollowersRecipe
| relayService_deliverToRelays (user : MiUser.t) (activity : option Activity)
| dm_execute
| channelsRepository_update (id : Id) (lastNotedAt : Date)
| searchService_indexNote (note : MiNote.t).

(** A computation that performs calls and may throw: the calls made so
    far, and the value or the thrown exception. *)
Definition M (A : Type) : Type := (list Call * Result A)%type.

Definition ret {A} (a : A) : M A := ([], ok a).
Definition raise {A} (e : Exn) : M A := ([], throw e).
Definition call (c : Call) : M unit := ([c], ok tt).
Definition lift {A} (r : Result A) : M A := ([], r).

Definition bind {A B} (m : M A) (f : A -> M B) : M B :=
  match m with
  | (cs, inl e) => (cs, inl e)
  | (cs, inr a) => let (cs', r) := f a in (cs ++ cs', r)
  end.

Declare Scope m_scope.
Delimit Scope m_scope with M.
Notation "x <- m ;; k" := (bind m (fun x => k))
  (at level 61, m at next level, right associativity) : m_scope.
Notation "m ;; k" := (bind m (fun _ => k))
  (at level 61, right associativity) : m_scope.

(** [if (c) { m }]. *)
Definition whenM (c : bool) (m : M unit) : M unit :=
  if c then m else ret tt.

(** [for (const x of xs) { body(x) }]. *)
Fixpoint forM_ {A} (xs : list A) (body : A -> M unit) : M unit :=
  match xs with
  | [] => ret tt
  | x :: xs' => bind (body x) (fun _ => forM_ xs' body)
  end.

Definition calls {A} (m : M A) : list Call := fst m.
Definition outcome {A} (m : M A) : Result A := snd m.

(* ===================================================================== *)
(** ** class NotificationManager *)
(* ===================================================================== *)

Module NotificationManager.

Record QueueEntry := { target : Id; reason : NotificationType }.

Record t := {
  notifier : Id;                 (* [notifier.id] *)
  note : MiNote.t;
  queue : list QueueEntry
}.

(** [constructor]: the queue starts empty. *)
Definition new (notifier : Id) (note : MiNote.t) : t :=
  {| notifier := notifier; note := note; queue := [] |}.

(** [exist.reason = reason], where [exist] is the first entry of the queue
    whose target is [notifiee]: the entry is updated in place. *)
Fixpoint setReason (notifiee : Id) (r : NotificationType)
    (q : list QueueEntry) : list QueueEntry :=
  match q with
  | [] => []
  | x :: q' =>
      if (target x =? notifiee)%string
      then {| target := target x; reason := r |} :: q'
      else x :: setReason notifiee r q'
  end.

Definition push (nm : t) (notifiee : Id) (r : NotificationType) : t :=
  if (notifier nm =? notifiee)%string then nm
  else
    match find (fun x => (target x =? notifiee)%string) (queue nm) with
    | Some _ =>
        if negb (NotificationType_eqb r mention)
        then {| notifier := notifier nm; note := note nm;
                queue := setReason notifiee r (queue nm) |}
        else nm
    | None =>
        {| notifier := notifier nm; note := note nm;
           queue := queue nm ++ [ {| target := notifiee; reason := r |} ] |}
    end.

Definition notify (nm : t) : M unit :=
  forM_ (queue nm) (fun x =>
    if NotificationType_eqb (reason x) renote
    then call (notificationService_createNotification (target x) renote
                 (MiNote.id (note nm)) (Some (MiNote.renoteId (note nm)))
                 (notifier nm))
    else call (notificationService_createNotification (target x) (reason x)
                 (MiNote.id (note nm)) None (notifier nm))).

(** A sequence of [push] calls, oldest first. *)
Definition pushAll (nm : t) (ps : list (Id * NotificationType)) : t :=
  fold_left (fun nm p => push nm (fst p) (snd p)) ps nm.

(** The reasons pushed for [t], oldest first. *)
Definition reasonsFor (t : Id) (ps : list (Id * NotificationType))
  : list NotificationType :=
  map snd (filter (fun p => (fst p =? t)%string) ps).

(** What [push] leaves for one target after the reasons [rs] arrived in
    that order: the first reason, replaced by every later reason that is
    not ['mention']. *)
Definition merge (acc : option NotificationType) (r : NotificationType)
  : option NotificationType :=
  match acc with
  | None => Some r
  | Some old => Some (if negb (NotificationType_eqb r mention) then r else old)
  end.

Definition dominant (rs : list NotificationType) : option NotificationType :=
  fold_left merge rs None.

Definition entriesFor (t : Id) (nm : NotificationManager.t)
  : list QueueEntry :=
  filter (fun x => (target x =? t)%string) (queue nm).

End NotificationManager.

(* ===================================================================== *)
(** ** Injected collaborators *)
(* ===================================================================== *)

(** Nodes of the MFM syntax tree. Only the token shape matters here: the
    service hands the nodes to the extractors and never inspects them. *)
Inductive MfmNode :=
| MfmText (text : JsString)
| MfmHashtag (hashtag : JsString)
| MfmEmojiCode (name : JsString)
| MfmMention (username : string) (host : Host).

Module MiMeta.
Record t := {
  sensitiveWords : list JsString;
  prohibitedWords : list JsString;
  silencedHosts : list string;
  enableChartsForRemoteUser : bool;
  enableChartsForFederatedInstances : bool
}.
End MiMeta.

Module RolePolicies.
Record t := { canPublicNote : bool }.
End RolePolicies.

(** The constructor-injected collaborators and imported helpers of
    [NoteEditService] whose code is outside this file, as far as the
    service reads from them. Each field is the result the collaborator
    returns for the given arguments. *)
Record Services := {
  (* configuration and constants *)
  config_url : string;
  DB_MAX_NOTE_TEXT_LENGTH : nat;
  Date_now : Date;
  (* repositories: [None] is "no such row" *)
  notesRepository_findOneBy : Id -> option MiNote.t;
  channelsRepository_findOneBy : Id -> option MiChannel.t;
  pollsRepository_findOneBy : Id -> option IPoll.t;
  driveFilesRepository_findBy : list Id -> list MiDriveFile.t;
  usersRepository_findBy : list Id -> list MiUser.t;
  usersRepository_findOneBy : Id -> option MiUser.t;
  userProfilesRepository_findBy : list Id -> list MiUserProfile.t;
  (* what [notesRepository.update] throws for this record, if anything *)
  notesRepository_update_throws : MiNote.t -> option Exn;
  isDuplicateKeyValueError : Exn -> bool;
  (* services *)
  idService_parse : Id -> Date;
  metaService_fetch : MiMeta.t;
  roleService_getUserPolicies : Id -> RolePolicies.t;
  utilityService_isKeyWordIncluded : JsString -> list JsString -> bool;
  utilityService_isSilencedHost : list string -> Host -> bool;
  userBlockingService_checkBlocked : Id -> Id -> bool;
  remoteUserResolveService_resolveUser : string -> Host -> option MiUser.t;
  federatedInstanceService_fetch : Host -> MiInstance.t;
  webhookService_getActiveWebhooks : list MiWebhook.t;
  (* text analysis *)
  mfm_parse : JsString -> list MfmNode;
  extractHashtags : list MfmNode -> list JsString;
  extractCustomEmojisFromMfm : list MfmNode -> list JsString;
  extractMentions : list MfmNode -> list (string * Host);
  normalizeForSearch : JsString -> JsString
}.

(** Modelled from the spec: [UserEntityService.isLocalUser] and
    [isRemoteUser] are not part of this file's source; the data model says
    "user host - null for local". *)
Definition isLocalUser (u : MiUser.t) : bool := isNull (MiUser.host u).
Definition isRemoteUser (u : MiUser.t) : bool := negb (isLocalUser u).

(* ===================================================================== *)
(** ** class NoteEditService *)
(* ===================================================================== *)

Module NoteEditService.

Import Option.

(** [isQuote]: a renote that carries text, cw, files or a poll. *)
Definition isQuote (note : Option.t) : bool :=
  notNull (renote note) &&
  (truthy (text note) || truthy (cw note)
   || match files note with
      | Some fs => negb (Nat.eqb (List.length fs) 0)
      | None => false
      end
   || notNull (poll note)).

(** [array.some(x => x.id === id)]. *)
Definition someId (id : Id) (us : list MiUser.t) : bool :=
  existsb (fun x => (MiUser.id x =? id)%string) us.

(** [data.cw ?? data.text ?? '']. *)
Definition cwOrText (data : Option.t) : JsString :=
  match cw data with
  | Some c => c
  | None => match text data with
            | Some t => t
            | None => []
            end
  end.

Section WithServices.

Variable sv : Services.
Variable user : MiUser.t.

Local Open Scope result_scope.

Definition findNoteOrFail (id : Id) : Result MiNote.t :=
  orFail "MiNote" id (notesRepository_findOneBy sv id).

Definition findUserOrFail (id : Id) : Result MiUser.t :=
  orFail "MiUser" id (usersRepository_findOneBy sv id).

(** [channelsRepository.findOneBy({ id: data.reply.channelId })]; it is
    reached only where [data.reply.channelId] is truthy. *)
Definition findReplyChannel (r : MiNote.t) : option MiChannel.t :=
  match MiNote.channelId r with
  | Some cid => channelsRepository_findOneBy sv cid
  | None => None
  end.

(** Lines 244-261: the reply and the channel of the edit. *)
Definition resolveReplyChannel (targetNote : MiNote.t) (data : Option.t)
  : Option.t :=
  let data :=
    when_ (isNull (reply data)) (set_reply (MiNote.reply targetNote)) data in
  let data :=
    when_ (isNull (channel data))
      (set_channel (MiNote.channel targetNote)) data in
  (* a reply outside the channel adopts the scope of its target *)
  let data :=
    match reply data, channel data with
    | Some r, Some c =>
        if negb (optStrEqb (MiNote.channelId r) (Some (MiChannel.id c)))
        then
          if truthyStr (MiNote.channelId r)
          then set_channel (findReplyChannel r) data
          else set_channel None data
        else data
    | _, _ => data
    end in
  (* a reply inside a channel adopts the scope of its target *)
  match reply data with
  | Some r =>
      when_ (isNull (channel data) && truthyStr (MiNote.channelId r))
        (set_channel (findReplyChannel r)) data
  | None => data
  end.

(** Lines 263-265: creation date, visibility and locality that the caller
    left out are those of the target note. *)
Definition inheritScalars (targetId : Id) (targetNote : MiNote.t)
    (data : Option.t) : Option.t :=
  let data :=
    when_ (isNull (createdAt data))
      (set_createdAt (Some (idService_parse sv targetId))) data in
  let data :=
    when_ (isNull (visibility data))
      (set_visibility (Some (MiNote.visibility targetNote))) data in
  when_ (isNull (localOnly data))
    (set_localOnly (Some (MiNote.localOnly targetNote))) data.

(** Lines 266-268: the renote target, the reply target and the poll of
    the target note are read from the store; a missing row throws. *)
Definition inheritRelations (targetId : Id) (targetNote : MiNote.t)
    (data : Option.t) : Result Option.t :=
  data <-
    (match MiNote.renoteId targetNote with
     | Some rid =>
         if isNull (renote data) && truthyStr (Some rid)
         then (r <- findNoteOrFail rid ;; ok (set_renote (Some r) data))
         else ok data
     | None => ok data
     end) ;;
  data <-
    (match MiNote.replyId targetNote with
     | Some rid =>
         if isNull (reply data) && truthyStr (Some rid)
         then (r <- findNoteOrFail rid ;; ok (set_reply (Some r) data))
         else ok data
     | None => ok data
     end) ;;
  if isNull (poll data)
  then
    if MiNote.hasPoll targetNote
    then (p <- orFail "MiPoll" targetId
                 (pollsRepository_findOneBy sv targetId) ;;
          ok (set_poll (Some p) data))
    else ok (set_poll None data)
  else ok data.

(** Lines 269-275: files, name, visible users and reaction acceptance of
    the target note; then a channel forces public, no visible users,
    local only. *)
Definition inheritRest (targetNote : MiNote.t) (data : Option.t)
  : Option.t :=
  let data :=
    when_ (isNull (files data))
      (set_files
         (Some (driveFilesRepository_findBy sv (MiNote.fileIds targetNote))))
      data in
  let data :=
    when_ (isNull (name data)) (set_name (MiNote.name targetNote)) data in
  let data :=
    when_ (isNull (visibleUsers data))
      (set_visibleUsers
         (Some (usersRepository_findBy sv (MiNote.visibleUserIds targetNote))))
      data in
  let data :=
    when_ (isNull (reactionAcceptance data))
      (set_reactionAcceptance (MiNote.reactionAcceptance targetNote)) data in
  let data :=
    when_ (notNull (channel data)) (set_visibility (Some "public"%string))
      data in
  let data :=
    when_ (notNull (channel data)) (set_visibleUsers (Some [])) data in
  when_ (notNull (channel data)) (set_localOnly (Some true)) data.

(** Lines 263-275. *)
Definition inheritFromTarget (targetId : Id) (targetNote : MiNote.t)
    (data : Option.t) : Result Option.t :=
  data <- inheritRelations targetId targetNote
            (inheritScalars targetId targetNote data) ;;
  ok (inheritRest targetNote data).

(** Lines 276-295: sensitive words and role policy, prohibited words,
    silenced hosts. *)
Definition applyContentPolicy (data : Option.t) : Result Option.t :=
  let meta := metaService_fetch sv in
  let data :=
    if visibilityIs "public" data && isNull (channel data)
    then
      if utilityService_isKeyWordIncluded sv (cwOrText data)
           (MiMeta.sensitiveWords meta)
      then set_visibility (Some "home"%string) data
      else
        if negb (RolePolicies.canPublicNote
                   (roleService_getUserPolicies sv (MiUser.id user)))
        then set_visibility (Some "home"%string) data
        else data
    else data in
  if utilityService_isKeyWordIncluded sv (cwOrText data)
       (MiMeta.prohibitedWords meta)
  then throw ContainsProhibitedWordsError
  else
    let inSilencedInstance :=
      utilityService_isSilencedHost sv (MiMeta.silencedHosts meta)
        (MiUser.host user) in
    ok (when_ (visibilityIs "public" data && inSilencedInstance
               && notNull (MiUser.host user))
          (set_visibility (Some "home"%string)) data).

(** Lines 297-321: [switch (data.renote.visibility)]. *)
Definition applyRenoteVisibility (data : Option.t) : Result Option.t :=
  match renote data with
  | Some r =>
      let v := MiNote.visibility r in
      if (v =? "public")%string then ok data
      else if (v =? "home")%string then
        ok (when_ (visibilityIs "public" data)
              (set_visibility (Some "home"%string)) data)
      else if (v =? "followers")%string then
        if negb (MiNote.userId r =? MiUser.id user)%string
        then throw (newError "Renote target is not public or home")
        else ok (set_visibility (Some "followers"%string) data)
      else if (v =? "specified")%string then
        throw (newError "Renote target is not public or home")
      else ok data
  | None => ok data
  end.

(** Lines 323-333: a pure renote of a local user who blocks the poster. *)
Definition checkBlocking (data : Option.t) : Result unit :=
  match renote data with
  | Some r =>
      if negb (isQuote data) then
        if isNull (MiNote.userHost r) then
          if negb (MiNote.userId r =? MiUser.id user)%string then
            if userBlockingService_checkBlocked sv (MiNote.userId r)
                 (MiUser.id user)
            then throw (newError "blocked")
            else ok tt
          else ok tt
        else ok tt
      else ok tt
  | None => ok tt
  end.

(** Lines 335-348: a reply to a non-public note is at most home; renoting
    or replying to a local-only note is local only. *)
Definition applyReplyAndLocality (data : Option.t) : Option.t :=
  let data :=
    match reply data with
    | Some r =>
        when_ (negb (MiNote.visibility r =? "public")%string
               && visibilityIs "public" data)
          (set_visibility (Some "home"%string)) data
    | None => data
    end in
  let data :=
    match renote data with
    | Some r =>
        when_ (MiNote.localOnly r && isNull (channel data))
          (set_localOnly (Some true)) data
    | None => data
    end in
  match reply data with
  | Some r =>
      when_ (MiNote.localOnly r && isNull (channel data))
        (set_localOnly (Some true)) data
  | None => data
  end.

(** Lines 350-357: the text is cut to the column size and trimmed; an
    empty text becomes null. *)
Definition normalizeText (data : Option.t) : Option.t :=
  match text data with
  | Some (u :: t') =>
      let t := u :: t' in
      let t :=
        if (DB_MAX_NOTE_TEXT_LENGTH sv <? List.length t)%nat
        then slice0 (DB_MAX_NOTE_TEXT_LENGTH sv) t
        else t in
      set_text (Some (trim t)) data
  | _ => set_text None data
  end.

(** [mentionedUsers.filter((u, i, self) =>
       i === self.findIndex(u2 => u.id === u2.id))]. *)
Fixpoint dropDuplicateUsers (seen : list Id) (us : list MiUser.t)
  : list MiUser.t :=
  match us with
  | [] => []
  | u :: us' =>
      if existsb (String.eqb (MiUser.id u)) seen
      then dropDuplicateUsers seen us'
      else u :: dropDuplicateUsers (MiUser.id u :: seen) us'
  end.

(** [extractMentionedUsers]: a mention that does not resolve is dropped. *)
Definition extractMentionedUsers (tokens : list MfmNode) : list MiUser.t :=
  let mentions := extractMentions sv tokens in
  let mentionedUsers :=
    flat_map
      (fun m : string * Host =>
         let host := match snd m with
                     | Some h => Some h
                     | None => MiUser.host user
                     end in
         match remoteUserResolveService_resolveUser sv (fst m) host with
         | Some u => [u]
         | None => []
         end)
      mentions in
  dropDuplicateUsers [] mentionedUsers.

(** Lines 359-378: hashtags, emojis and mentions, supplied or parsed. *)
Definition analyze (data : Option.t)
  : list JsString * list JsString * list MiUser.t :=
  match apHashtags data, apEmojis data, apMentions data with
  | Some tags, Some emojis, Some mentionedUsers =>
      (tags, emojis, mentionedUsers)
  | _, _, _ =>
      let tokens :=
        match text data with
        | Some (u :: rest) => mfm_parse sv (u :: rest)
        | _ => []
        end in
      let cwTokens :=
        match cw data with
        | Some (u :: rest) => mfm_parse sv (u :: rest)
        | _ => []
        end in
      let choiceTokens :=
        match poll data with
        | Some p => List.concat (map (mfm_parse sv) (IPoll.choices p))
        | None => []
        end in
      let combinedTokens := tokens ++ cwTokens ++ choiceTokens in
      (match apHashtags data with
       | Some tags => tags
       | None => extractHashtags sv combinedTokens
       end,
       match apEmojis data with
       | Some emojis => emojis
       | None => extractCustomEmojisFromMfm sv combinedTokens
       end,
       match apMentions data with
       | Some mentionedUsers => mentionedUsers
       | None => extractMentionedUsers combinedTokens
       end)
  end.

(** Line 380:
    [tags.filter(tag => Array.from(tag).length <= 128).splice(0, 32)];
    [splice] returns the removed elements, the first 32. *)
Definition capTags (tags : list JsString) : list JsString :=
  firstn 32
    (filter (fun tag => (List.length (Array_from tag) <=? 128)%nat) tags).

(** Lines 382-384: the author of the reply target is mentioned. *)
Definition addReplyAuthor (data : Option.t) (mentionedUsers : list MiUser.t)
  : Result (list MiUser.t) :=
  match reply data with
  | Some r =>
      if negb (MiUser.id user =? MiNote.userId r)%string
         && negb (someId (MiNote.userId r) mentionedUsers)
      then (u <- findUserOrFail (MiNote.userId r) ;;
            ok (mentionedUsers ++ [u]))
      else ok mentionedUsers
  | None => ok mentionedUsers
  end.

(** Lines 386-398: with 'specified' visibility the visible users are
    mentioned, and the author of the reply target is made a visible user.
    Both arrays are extended in place. *)
Definition foldVisibleUsers (data : Option.t)
    (mentionedUsers : list MiUser.t)
  : Result (Option.t * list MiUser.t) :=
  if visibilityIs "specified" data then
    match visibleUsers data with
    | None => throw (newError "invalid param")
    | Some vus =>
        let mentionedUsers :=
          fold_left
            (fun ms u =>
               if negb (someId (MiUser.id u) ms) then ms ++ [u] else ms)
            vus mentionedUsers in
        match reply data with
        | Some r =>
            if negb (someId (MiNote.userId r) vus)
            then (u <- findUserOrFail (MiNote.userId r) ;;
                  ok (set_visibleUsers (Some (vus ++ [u])) data,
                      mentionedUsers))
            else ok (data, mentionedUsers)
        | None => ok (data, mentionedUsers)
        end
    end
  else ok (data, mentionedUsers).

(** The remote users among the mentioned ones, with their profile URL
    (the value that is passed to [JSON.stringify]). *)
Definition renderMentionedRemoteUsers (mentionedUsers : list MiUser.t)
  : list MentionedRemoteUser.t :=
  let profiles :=
    userProfilesRepository_findBy sv (map MiUser.id mentionedUsers) in
  map
    (fun u =>
       let profile :=
         find (fun p => (MiUserProfile.userId p =? MiUser.id u)%string)
           profiles in
       let url := match profile with
                  | Some p => MiUserProfile.url p
                  | None => None
                  end in
       {| MentionedRemoteUser.uri := MiUser.uri u;
          MentionedRemoteUser.url := url;
          MentionedRemoteUser.username := MiUser.username u;
          MentionedRemoteUser.host := MiUser.host u |})
    (filter isRemoteUser mentionedUsers).

(** Lines 400-455: [new MiNote({...})], then uri, url and the mentions.
    [data.visibility] and [data.localOnly] were given a value at lines
    264-265; the defaults below stand for the impossible [undefined]. *)
Definition newNote (targetNote : MiNote.t) (data : Option.t)
    (tags emojis : list JsString) (mentionedUsers : list MiUser.t)
  : MiNote.t :=
  {| MiNote.id := MiNote.id targetNote;
     MiNote.updatedAt := Some (Date_now sv);
     MiNote.fileIds :=
       match files data with
       | Some fs => map MiDriveFile.id fs
       | None => []
       end;
     MiNote.replyId := option_map MiNote.id (reply data);
     MiNote.renoteId := option_map MiNote.id (renote data);
     MiNote.channelId := option_map MiChannel.id (channel data);
     MiNote.threadId :=
       match reply data with
       | Some r =>
           if truthyStr (MiNote.threadId r)
           then MiNote.threadId r
           else Some (MiNote.id r)
       | None => None
       end;
     MiNote.name := name data;
     MiNote.text := text data;
     MiNote.hasPoll := notNull (poll data);
     MiNote.cw := cw data;
     MiNote.tags := map (normalizeForSearch sv) tags;
     MiNote.emojis := emojis;
     MiNote.userId := MiUser.id user;
     MiNote.localOnly :=
       match localOnly data with Some b => b | None => false end;
     MiNote.reactionAcceptance := reactionAcceptance data;
     MiNote.visibility :=
       match visibility data with Some v => v | None => EmptyString end;
     MiNote.visibleUserIds :=
       if visibilityIs "specified" data
       then match visibleUsers data with
            | Some vus => map MiUser.id vus
            | None => []
            end
       else [];
     MiNote.attachedFileTypes :=
       match files data with
       | Some fs => map MiDriveFile.type fs
       | None => []
       end;
     MiNote.replyUserId := option_map MiNote.userId (reply data);
     MiNote.replyUserHost :=
       match reply data with Some r => MiNote.userHost r | None => None end;
     MiNote.renoteUserId := option_map MiNote.userId (renote data);
     MiNote.renoteUserHost :=
       match renote data with Some r => MiNote.userHost r | None => None end;
     MiNote.userHost := MiUser.host user;
     MiNote.uri := uri data;
     MiNote.url := url data;
     MiNote.mentions :=
       match mentionedUsers with
       | [] => None
       | _ :: _ => Some (map MiUser.id mentionedUsers)
       end;
     MiNote.mentionedRemoteUsers :=
       match mentionedUsers with
       | [] => None
       | _ :: _ => Some (renderMentionedRemoteUsers mentionedUsers)
       end;
     MiNote.reply := None;
     MiNote.channel := None |}.

(** What [edit] has computed when it reaches the store update. *)
Record Resolved := {
  res_targetNote : MiNote.t;
  res_data : Option.t;                  (* the payload after all updates *)
  res_tags : list JsString;
  res_mentionedUsers : list MiUser.t;
  res_note : MiNote.t
}.

(** Lines 233-455 of [edit]: everything before the store update. No
    collaborator is written to. When [data.apMentions] was supplied,
    [mentionedUsers] is that very array, so the additions show in [data]. *)
Definition resolveEdit (targetId : Id) (data : Option.t) : Result Resolved :=
  targetNote <- findNoteOrFail targetId ;;
  let data := resolveReplyChannel targetNote data in
  data <- inheritFromTarget targetId targetNote data ;;
  data <- applyContentPolicy data ;;
  data <- applyRenoteVisibility data ;;
  _ <- checkBlocking data ;;
  let data := applyReplyAndLocality data in
  let data := normalizeText data in
  let '(tags, emojis, mentionedUsers) := analyze data in
  let tags := capTags tags in
  mentionedUsers <- addReplyAuthor data mentionedUsers ;;
  dm <- foldVisibleUsers data mentionedUsers ;;
  let '(data, mentionedUsers) := dm in
  let data :=
    when_ (notNull (apMentions data))
      (set_apMentions (Some mentionedUsers)) data in
  ok {| res_targetNote := targetNote;
        res_data := data;
        res_tags := tags;
        res_mentionedUsers := mentionedUsers;
        res_note := newNote targetNote data tags emojis mentionedUsers |}.

Local Close Scope result_scope.
Local Open Scope m_scope.

(** [edit]: resolve, update the store, schedule the fan-out, write the
    moderation log when somebody else's note was edited. *)
Definition edit (targetId : Id) (data : Option.t) (silent : bool)
    (editor : option MiUser.t) : M MiNote.t :=
  r <- lift (resolveEdit targetId data) ;;
  call (notesRepository_update (MiNote.id (res_note r)) (res_note r)) ;;
  match notesRepository_update_throws sv (res_note r) with
  | Some e =>
      if isDuplicateKeyValueError sv e
      then raise (JsError "duplicated" "Duplicated note")
      else (call (console_error e) ;; raise e)
  | None => ret tt
  end ;;
  call (setImmediate_postUpdated
          {| PostUpdated.noteId := MiNote.id (res_note r);
             PostUpdated.user := user;
             PostUpdated.data := res_data r;
             PostUpdated.silent := silent;
             PostUpdated.tags := res_tags r;
             PostUpdated.mentionedUsers := res_mentionedUsers r |}) ;;
  match editor with
  | Some ed =>
      if negb (MiNote.userId (res_note r) =? MiUser.id ed)%string
      then (u <- lift (findUserOrFail (MiNote.userId (res_note r))) ;;
            call (moderationLogService_log ed u (res_note r) (res_targetNote r)))
      else ret tt
  | None => ret tt
  end ;;
  ret (res_note r).

(** [renderNoteOrRenoteActivity]: nothing is rendered for a local-only
    edit; a pure renote is an Announce, anything else an Update. *)
Definition renderNoteOrRenoteActivity (data : Option.t) (note : MiNote.t)
    (userId : Id) : option Activity :=
  match localOnly data with
  | Some true => None
  | _ =>
      let content :=
        match renote data with
        | Some r =>
            if negb (isQuote data)
            then renderAnnounce
                   (if truthyStr (MiNote.uri r)
                    then match MiNote.uri r with
                         | Some u => u
                         | None => EmptyString
                         end
                    else (config_url sv ++ "/notes/" ++ MiNote.id r)%string)
                   note
            else renderNoteUpdate (renderNote note false true) note userId
        | None => renderNoteUpdate (renderNote note false true) note userId
        end in
      Some (addContext content)
  end.

(** [index]: a note without text and cw is not indexed. *)
Definition index (note : MiNote.t) : M unit :=
  if isNull (MiNote.text note) && isNull (MiNote.cw note)
  then ret tt
  else call (searchService_indexNote note).

(** [array.includes(v)] on an array of visibility names. *)
Definition includesStr (vs : list string) (v : string) : bool :=
  existsb (String.eqb v) vs.

(** Lines 574-609, the body of the detached delivery task. *)
Definition deliverActivity (note : MiNote.t) (data : Option.t)
    (mentionedUsers : list MiUser.t) : M unit :=
  let noteActivity := renderNoteOrRenoteActivity data note (MiUser.id user) in
  call (apDeliverManagerService_createDeliverManager user noteActivity) ;;
  (* remote users that are mentioned *)
  forM_ (filter isRemoteUser mentionedUsers)
    (fun u => call (dm_addDirectRecipe u)) ;;
  (* the remote author of the reply target *)
  match reply data with
  | Some r =>
      if notNull (MiNote.userHost r) then
        match usersRepository_findOneBy sv (MiNote.userId r) with
        | Some u => whenM (isRemoteUser u) (call (dm_addDirectRecipe u))
        | None => ret tt
        end
      else ret tt
  | None => ret tt
  end ;;
  (* the remote author of the renote target *)
  match renote data with
  | Some r =>
      if notNull (MiNote.userHost r) then
        match usersRepository_findOneBy sv (MiNote.userId r) with
        | Some u => whenM (isRemoteUser u) (call (dm_addDirectRecipe u))
        | None => ret tt
        end
      else ret tt
  | None => ret tt
  end ;;
  (* followers *)
  whenM (includesStr ["public"; "home"; "followers"]%string
           (MiNote.visibility note))
    (call dm_addFollowersRecipe) ;;
  whenM (includesStr ["public"]%string (MiNote.visibility note))
    (call (relayService_deliverToRelays user noteActivity)) ;;
  call dm_execute.

(** [postNoteEdited]. Continuations attached with [.then] and the
    detached delivery task run later; their calls are recorded at the
    place where they are attached, in the order the source lists them. *)
Definition postNoteEdited (note : MiNote.t) (data : Option.t) (silent : bool)
    (tags : list JsString) (mentionedUsers : list MiUser.t) : M unit :=
  let meta := metaService_fetch sv in
  call (notesChart_update note) ;;
  whenM (MiMeta.enableChartsForRemoteUser meta || isNull (MiUser.host user))
    (call (perUserNotesChart_update user note)) ;;
  (* register the host *)
  whenM (isRemoteUser user)
    (let i := federatedInstanceService_fetch sv (MiUser.host user) in
     call (instancesRepository_increment (MiInstance.id i)) ;;
     whenM (MiMeta.enableChartsForFederatedInstances meta)
       (call (instanceChart_updateNote (MiInstance.host i) note))) ;;
  (* hashtags *)
  whenM (visibilityIs "public" data || visibilityIs "home" data)
    (call (hashtagService_updateHashtags user tags)) ;;
  match poll data with
  | Some p =>
      match IPoll.expiresAt p with
      | Some expiresAt =>
          call (endedPollNotificationQueue_add (MiNote.id note)
                  (expiresAt - Date_now sv)%Z)
      | None => ret tt
      end
  | None => ret tt
  end ;;
  (if negb silent then
     whenM (isLocalUser user) (call (activeUsersChart_write user)) ;;
     (* unread markers *)
     (if visibilityIs "specified" data then
        match visibleUsers data with
        | None => raise (newError "invalid param")
        | Some vus =>
            forM_ vus (fun u =>
              if negb (isLocalUser u) then ret tt
              else call (noteReadService_insertNoteUnread (MiUser.id u) note
                           true false))
        end
      else
        forM_ mentionedUsers (fun u =>
          if negb (isLocalUser u) then ret tt
          else call (noteReadService_insertNoteUnread (MiUser.id u) note
                       false true))) ;;
     (* the packed note *)
     let noteObj := note in
     call (globalEventService_publishNotesStream noteObj) ;;
     call (roleService_addNoteToRoleTimeline noteObj) ;;
     forM_ (filter
              (fun x => (MiWebhook.userId x =? MiUser.id user)%string
                        && includesStr (MiWebhook.on x) "note")
              (webhookService_getActiveWebhooks sv))
       (fun webhook => call (queueService_webhookDeliver webhook noteObj)) ;;
     (* AP deliver *)
     whenM (isLocalUser user) (deliverActivity note data mentionedUsers)
   else ret tt) ;;
  match channel data with
  | Some c =>
      call (channelsRepository_update (MiChannel.id c) (Date_now sv))
  | None => ret tt
  end ;;
  (* register to the search database *)
  index note.

End WithServices.
End NoteEditService.

(** The callback given to [setImmediate(...).then]: nothing runs when the
    timer was aborted; otherwise the note is read back from the store
    ([reloaded] is what that lookup finds at that later time) and
    [postNoteEdited] runs with the arguments captured by [edit]. *)
Definition postUpdated (sv : Services) (job : PostUpdated.t)
    (aborted : bool) (reloaded : option MiNote.t) : M unit :=
  if aborted then ret tt
  else
    bind (lift (orFail "MiNote" (PostUpdated.noteId job) reloaded))
      (fun note =>
         NoteEditService.postNoteEdited sv (PostUpdated.user job) note
           (PostUpdated.data job) (PostUpdated.silent job)
           (PostUpdated.tags job) (PostUpdated.mentionedUsers job)).

Definition isCreateNotification (c : Call) : bool :=
  match c with
  | notificationService_createNotification _ _ _ _ _ => true
  | _ => false
  end.

Definition isStoreUpdate (c : Call) : bool :=
  match c with
  | notesRepository_update _ _ => true
  | _ => false
  end.

Definition isFanoutSchedule (c : Call) : bool :=
  match c with
  | setImmediate_postUpdated _ => true
  | _ => false
  end.

(** What [push] leaves as the reason of a target after the reasons [rs]
    arrived for it in that order: the last one that is not ['mention'], or
    else the first one. *)
Definition storedReason (rs : list NotificationType)
  : option NotificationType :=
  match find (fun r => negb (NotificationType_eqb r mention)) (rev rs) with
  | Some r => Some r
  | None => hd_error rs
  end.

(** [small] keeps the order of [big]: it is [big] with elements left out. *)
Inductive Subseq {A : Type} : list A -> list A -> Prop :=
| Subseq_nil : Subseq [] []
| Subseq_keep x small big : Subseq small big -> Subseq (x :: small) (x :: big)
| Subseq_drop x small big : Subseq small big -> Subseq small (x :: big).

(** The number of code points of a tag, [Array.from(tag).length]. *)
Definition codePointLength (tag : JsString) : nat :=
  List.length (Array_from tag).

Definition visibilityNames : list string :=
  ["public"; "home"; "followers"; "specified"]%string.

(** The activity a call hands to the federation transport, if any. *)
Definition activityOf (c : Call) : option Activity :=
  match c with
  | apDeliverManagerService_createDeliverManager _ a => a
  | relayService_deliverToRelays _ a => a
  | _ => None
  end.

(** [if (x == null) x = fromTarget]: the value after the assignment. *)
Definition inherited {A} (given : option A) (fromTarget : A) : option A :=
  match given with Some a => Some a | None => Some fromTarget end.

(** The calls of the delivery task. *)
Definition isDeliveryCall (c : Call) : bool :=
  match c with
  | apDeliverManagerService_createDeliverManager _ _
  | dm_addDirectRecipe _
  | dm_addFollowersRecipe
  | relayService_deliverToRelays _ _
  | dm_execute => true
  | _ => false
  end.

(** Every call made by [m] satisfies [P]. *)
Definition allCalls {A} (P : Call -> bool) (m : M A) : Prop :=
  forallb P (calls m) = true.

(** The payload's visibility as [newNote] stores it. *)
Definition visibilityOf (d : Option.t) : string :=
  match Option.visibility d with Some v => v | None => EmptyString end.

(* ===================================================================== *)
(** ** A concrete instance: services, users and notes *)
(* ===================================================================== *)

Module Sample.

Import Option.

Local Open Scope string_scope.

(** Modelled from the spec: [UtilityService.isKeyWordIncluded] is not part
    of this file's source; the spec speaks of a text that "contains a
    prohibited keyword". Here: some keyword of the list occurs in the
    text. *)
Definition isKeyWordIncluded_model (text : JsString) (keyWords : list JsString)
  : bool :=
  existsb (fun w => includes text w) keyWords.

(** Modelled from the spec: [UtilityService.isSilencedHost] is not part of
    this file's source; "the poster's host is silenced instance-wide". *)
Definition isSilencedHost_model (silencedHosts : list string) (host : Host)
  : bool :=
  match host with
  | Some h => existsb (String.eqb h) silencedHosts
  | None => false
  end.

(** Modelled from the spec: [normalizeForSearch] is not part of this
    file's source; "tags are case/width-normalized before storage"
    (compatibility normalisation of the string, then lower case). The
    model applies the mappings below and keeps every other code unit: it
    does not reproduce the whole tables of the Unicode standard, nor the
    composition of combining marks. A full-width form U+FF01..U+FF5E
    becomes the ASCII character. *)
Definition toHalfWidth (u : N) : N :=
  if ((65281 <=? u) && (u <=? 65374))%N then (u - 65248)%N else u.

(** Modelled from the spec: a Latin ligature U+FB00..U+FB06 is replaced
    by its letters, so normalisation can lengthen a tag. *)
Definition expandLigature (u : N) : JsString :=
  if (u =? 64256)%N then lit "ff"
  else if (u =? 64257)%N then lit "fi"
  else if (u =? 64258)%N then lit "fl"
  else if (u =? 64259)%N then lit "ffi"
  else if (u =? 64260)%N then lit "ffl"
  else if ((u =? 64261) || (u =? 64262))%N then lit "st"
  else [u].

(** Modelled from the spec: an upper-case letter of ASCII, of Latin-1
    (U+00C0..U+00DE but the multiplication sign) or of basic Cyrillic
    (U+0400..U+042F) becomes its lower-case letter. *)
Definition toLowerCase (u : N) : N :=
  if ((65 <=? u) && (u <=? 90))%N then (u + 32)%N
  else if ((192 <=? u) && (u <=? 222) && negb (u =? 215))%N then (u + 32)%N
  else if ((1024 <=? u) && (u <=? 1039))%N then (u + 80)%N
  else if ((1040 <=? u) && (u <=? 1071))%N then (u + 32)%N
  else u.

(** Modelled from the spec: compatibility normalisation, then lower
    case. *)
Definition normalizeForSearch_model (tag : JsString) : JsString :=
  map toLowerCase (flat_map (fun u => expandLigature (toHalfWidth u)) tag).

Definition alice : MiUser.t :=
  {| MiUser.id := "alice"; MiUser.username := "alice"; MiUser.host := None;
     MiUser.uri := None; MiUser.isBot := false; MiUser.isCat := false |}.

Definition bob : MiUser.t :=
  {| MiUser.id := "bob"; MiUser.username := "bob"; MiUser.host := None;
     MiUser.uri := None; MiUser.isBot := false; MiUser.isCat := false |}.

Definition carol : MiUser.t :=
  {| MiUser.id := "carol"; MiUser.username := "carol";
     MiUser.host := Some "remote.example";
     MiUser.uri := Some "https://remote.example/users/carol";
     MiUser.isBot := false; MiUser.isCat := false |}.

Definition users : list MiUser.t := [alice; bob; carol].

(** A stored note with the given author and visibility and nothing else. *)
Definition storedNote (id userId visibility : string) : MiNote.t :=
  {| MiNote.id := id; MiNote.updatedAt := None; MiNote.fileIds := [];
     MiNote.replyId := None; MiNote.renoteId := None;
     MiNote.channelId := None; MiNote.threadId := None;
     MiNote.name := None; MiNote.text := Some (lit "hello");
     MiNote.hasPoll := false; MiNote.cw := None; MiNote.tags := [];
     MiNote.emojis := []; MiNote.userId := userId;
     MiNote.localOnly := false; MiNote.reactionAcceptance := None;
     MiNote.visibility := visibility; MiNote.visibleUserIds := [];
     MiNote.attachedFileTypes := []; MiNote.replyUserId := None;
     MiNote.replyUserHost := None; MiNote.renoteUserId := None;
     MiNote.renoteUserHost := None; MiNote.userHost := None;
     MiNote.uri := None; MiNote.url := None; MiNote.mentions := None;
     MiNote.mentionedRemoteUsers := None; MiNote.reply := None;
     MiNote.channel := None |}.

Definition target := storedNote "n1" "alice" "public".
Definition bobPublic := storedNote "n2" "bob" "public".
Definition bobHome := storedNote "n3" "bob" "home".
Definition aliceFollowers := storedNote "n4" "alice" "followers".
Definition bobFollowers := storedNote "n5" "bob" "followers".
Definition bobSpecified := storedNote "n6" "bob" "specified".

Definition notes : list MiNote.t :=
  [target; bobPublic; bobHome; aliceFollowers; bobFollowers; bobSpecified].

Definition channel1 : MiChannel.t := {| MiChannel.id := "c1" |}.

Definition meta : MiMeta.t :=
  {| MiMeta.sensitiveWords := [lit "nsfw"];
     MiMeta.prohibitedWords := [lit "forbidden"];
     MiMeta.silencedHosts := ["silenced.example"];
     MiMeta.enableChartsForRemoteUser := true;
     MiMeta.enableChartsForFederatedInstances := true |}.

(** Services over the rows above; [updateThrows] is what the store does
    on update. *)
Definition servicesWith (updateThrows : MiNote.t -> option Exn) : Services :=
  {| config_url := "https://misskey.example";
     DB_MAX_NOTE_TEXT_LENGTH := N.to_nat 8192;
     Date_now := 1700000000000%Z;
     notesRepository_findOneBy :=
       fun id => find (fun n => MiNote.id n =? id) notes;
     channelsRepository_findOneBy :=
       fun id => if id =? "c1" then Some channel1 else None;
     pollsRepository_findOneBy := fun _ => None;
     driveFilesRepository_findBy := fun _ => [];
     usersRepository_findBy :=
       fun ids => filter (fun u => existsb (String.eqb (MiUser.id u)) ids)
                    users;
     usersRepository_findOneBy :=
       fun id => find (fun u => MiUser.id u =? id) users;
     userProfilesRepository_findBy := fun _ => [];
     notesRepository_update_throws := updateThrows;
     isDuplicateKeyValueError :=
       fun e => match e with
                | QueryFailedError code => code =? "23505"
                | _ => false
                end;
     idService_parse := fun _ => 1600000000000%Z;
     metaService_fetch := meta;
     roleService_getUserPolicies :=
       fun _ => {| RolePolicies.canPublicNote := true |};
     utilityService_isKeyWordIncluded := isKeyWordIncluded_model;
     utilityService_isSilencedHost := isSilencedHost_model;
     userBlockingService_checkBlocked := fun _ _ => false;
     remoteUserResolveService_resolveUser :=
       fun username host =>
         find (fun u => (MiUser.username u =? username)
                        && optStrEqb (MiUser.host u) host) users;
     federatedInstanceService_fetch :=
       fun host => {| MiInstance.id := "i1";
                      MiInstance.host := match host with
                                         | Some h => h
                                         | None => EmptyString
                                         end |};
     webhookService_getActiveWebhooks := [];
     mfm_parse := fun s => [MfmText s];
     extractHashtags := fun _ => [];
     extractCustomEmojisFromMfm := fun _ => [];
     extractMentions := fun _ => [];
     normalizeForSearch := normalizeForSearch_model |}.

Definition services : Services := servicesWith (fun _ => None).

(** An edit payload that only sets the text. *)
Definition textOnly (text : string) : Option.t :=
  {| createdAt := None; name := None; text := Some (lit text);
     reply := None; renote := None; files := None; poll := None;
     localOnly := None; reactionAcceptance := None; cw := None;
     visibility := None; visibleUsers := None; channel := None;
     apMentions := None; apHashtags := None; apEmojis := None;
     uri := None; url := None; app := None |}.

Definition withCw (cw : string) (d : Option.t) : Option.t :=
  Build (createdAt d) (name d) (text d) (reply d) (renote d) (files d)
    (poll d) (localOnly d) (reactionAcceptance d) (Some (lit cw))
    (visibility d) (visibleUsers d) (channel d) (apMentions d)
    (apHashtags d) (apEmojis d) (uri d) (url d) (app d).

(** An edit of note [n1] by its author [alice]. *)
Definition run (d : Option.t) : M MiNote.t :=
  NoteEditService.edit services alice "n1" d false None.

(** The body text holds a prohibited word. *)
Definition prohibited : Option.t := textOnly "this is forbidden".

(** The same body text behind a harmless content warning. *)
Definition maskedProhibited : Option.t := withCw "spoiler" prohibited.

(** A channel post that renotes a home note. *)
Definition channelRenoteHome : Option.t :=
  set_channel (Some channel1) (set_renote (Some bobHome) (textOnly "hi")).

(** A reply to bob's public note. *)
Definition replyToBob : Option.t :=
  set_reply (Some bobPublic) (textOnly "hi").

(** 'specified' with an empty list of visible users. *)
Definition specifiedNobody : Option.t :=
  set_visibility (Some "specified")
    (set_visibleUsers (Some []) (textOnly "hi")).

(** A visibility that is none of the four names. *)
Definition unknownVisibility : Option.t :=
  set_visibility (Some "direct") (textOnly "hi").

(** A public, local-only payload as [postNoteEdited] receives it. *)
Definition localOnlyPublic : Option.t :=
  set_localOnly (Some true)
    (set_visibility (Some "public") (textOnly "hi")).

(** Forty-one supplied tags, the first of them 129 code points long. *)
Definition manyTags : Option.t :=
  set_apHashtags (Some (repeat 97%N 129 :: repeat (lit "Tag") 40))
    (textOnly "hi").

(** One supplied tag of 128 code points, each of them the ligature
    U+FB01. *)
Definition ligatureTag : Option.t :=
  set_apHashtags (Some [repeat 64257%N 128]) (textOnly "hi").

(** The store rejects every update with a unique violation. *)
Definition duplicateServices : Services :=
  servicesWith (fun _ => Some (QueryFailedError "23505")).

(** The store rejects every update with another error. *)
Definition brokenServices : Services :=
  servicesWith (fun _ => Some (QueryFailedError "57014")).

(** A channel post with nothing else. *)
Definition channelOnly : Option.t :=
  set_channel (Some channel1) (textOnly "hi").

(** Renotes of the stored notes. *)
Definition renoteOf (n : MiNote.t) : Option.t :=
  set_renote (Some n) (textOnly "hi").

(** A 'specified' reply to bob with an empty list of visible users. *)
Definition specifiedReply : Option.t :=
  set_reply (Some bobPublic) specifiedNobody.

(** A local-only edit that mentions the remote user carol. *)
Definition localOnlyEdit : Option.t :=
  set_apMentions (Some [carol]) (set_localOnly (Some true) (textOnly "hi")).

(** The payload after lines 244-275, and after lines 276-295. *)
Definition inheritedOf (d : Option.t) : Option.t :=
  match NoteEditService.inheritFromTarget services "n1" target
          (NoteEditService.resolveReplyChannel services target d) with
  | inr d0 => d0
  | inl _ => d
  end.

Definition policedOf (d : Option.t) : Option.t :=
  match NoteEditService.applyContentPolicy services alice (inheritedOf d) with
  | inr d1 => d1
  | inl _ => d
  end.

(** The store updates among the calls of a run. *)
Definition storedNotes (cs : list Call) : list MiNote.t :=
  flat_map (fun c => match c with
                     | notesRepository_update _ n => [n]
                     | _ => []
                     end) cs.

(** The fan-out jobs scheduled by a run. *)
Definition scheduled (cs : list Call) : list PostUpdated.t :=
  flat_map (fun c => match c with
                     | setImmediate_postUpdated j => [j]
                     | _ => []
                     end) cs.

(** What a run resolves to before the store update. *)
Definition resolvedOf (d : Option.t) : NoteEditService.Resolved :=
  match NoteEditService.resolveEdit services alice "n1" d with
  | inr r => r
  | inl _ =>
      {| NoteEditService.res_targetNote := target;
         NoteEditService.res_data := d;
         NoteEditService.res_tags := [];
         NoteEditService.res_mentionedUsers := [];
         NoteEditService.res_note := target |}
  end.

(** The record a run hands to the store ([target] when there is none). *)
Definition stored (d : Option.t) : MiNote.t :=
  hd target (storedNotes (calls (run d))).

(** The calls of the fan-out that a run schedules, when the timer is not
    aborted and the store returns the record that was written. *)
Definition fanout (d : Option.t) : list Call :=
  flat_map
    (fun job =>
       calls (postUpdated services job false
                (hd_error (storedNotes (calls (run d))))))
    (scheduled (calls (run d))).

End Sample.

(* ===================================================================== *)
(** ** Notions used by the further properties *)
(* ===================================================================== *)

(** The distinct identifiers of a list, in the order of their first
    occurrence. *)
Definition firstSeen (ts : list Id) : list Id :=
  fold_left
    (fun acc t => if existsb (String.eqb t) acc then acc else acc ++ [t])
    ts [].

(** The notification [notify] creates for target [t] after the pushes
    [ps]. *)
Definition notificationFor (notifier0 : Id) (note0 : MiNote.t)
    (ps : list (Id * NotificationType)) (t : Id) : Call :=
  let r := match storedReason (NotificationManager.reasonsFor t ps) with
           | Some r => r
           | None => mention
           end in
  notificationService_createNotification t r (MiNote.id note0)
    (if NotificationType_eqb r renote
     then Some (MiNote.renoteId note0) else None)
    notifier0.

Definition isModerationLog (c : Call) : bool :=
  match c with
  | moderationLogService_log _ _ _ _ => true
  | _ => false
  end.

(** Further instances for the properties below. *)
Module Scenario.

Local Open Scope string_scope.

(** A moderator who is not the author of the note. *)
Definition moderator : MiUser.t :=
  {| MiUser.id := "mod"; MiUser.username := "mod"; MiUser.host := None;
     MiUser.uri := None; MiUser.isBot := false; MiUser.isCat := false |}.

(** An author whose user row is missing from the store. *)
Definition ghost : MiUser.t :=
  {| MiUser.id := "ghost"; MiUser.username := "ghost"; MiUser.host := None;
     MiUser.uri := None; MiUser.isBot := false; MiUser.isCat := false |}.

(** A target note that renotes a note which is no longer stored. *)
Definition danglingRenote : MiNote.t :=
  {| MiNote.id := "n9"; MiNote.updatedAt := None; MiNote.fileIds := [];
     MiNote.replyId := None; MiNote.renoteId := Some "gone";
     MiNote.channelId := None; MiNote.threadId := None;
     MiNote.name := None; MiNote.text := None;
     MiNote.hasPoll := false; MiNote.cw := None; MiNote.tags := [];
     MiNote.emojis := []; MiNote.userId := "alice";
     MiNote.localOnly := false; MiNote.reactionAcceptance := None;
     MiNote.visibility := "public"; MiNote.visibleUserIds := [];
     MiNote.attachedFileTypes := []; MiNote.replyUserId := None;
     MiNote.replyUserHost := None; MiNote.renoteUserId := None;
     MiNote.renoteUserHost := None; MiNote.userHost := None;
     MiNote.uri := None; MiNote.url := None; MiNote.mentions := None;
     MiNote.mentionedRemoteUsers := None; MiNote.reply := None;
     MiNote.channel := None |}.

(** The sample services with other notes, blocking answer and role
    policy. *)
Definition servicesFor (notes : list MiNote.t) (blocked canPublic : bool)
  : Services :=
  let s := Sample.services in
  {| config_url := config_url s;
     DB_MAX_NOTE_TEXT_LENGTH := DB_MAX_NOTE_TEXT_LENGTH s;
     Date_now := Date_now s;
     notesRepository_findOneBy :=
       fun id => find (fun n => MiNote.id n =? id) notes;
     channelsRepository_findOneBy := channelsRepository_findOneBy s;
     pollsRepository_findOneBy := pollsRepository_findOneBy s;
     driveFilesRepository_findBy := driveFilesRepository_findBy s;
     usersRepository_findBy := usersRepository_findBy s;
     usersRepository_findOneBy := usersRepository_findOneBy s;
     userProfilesRepository_findBy := userProfilesRepository_findBy s;
     notesRepository_update_throws := notesRepository_update_throws s;
     isDuplicateKeyValueError := isDuplicateKeyValueError s;
     idService_parse := idService_parse s;
     metaService_fetch := metaService_fetch s;
     roleService_getUserPolicies :=
       fun _ => {| RolePolicies.canPublicNote := canPublic |};
     utilityService_isKeyWordIncluded := utilityService_isKeyWordIncluded s;
     utilityService_isSilencedHost := utilityService_isSilencedHost s;
     userBlockingService_checkBlocked := fun _ _ => blocked;
     remoteUserResolveService_resolveUser :=
       remoteUserResolveService_resolveUser s;
     federatedInstanceService_fetch := federatedInstanceService_fetch s;
     webhookService_getActiveWebhooks := webhookService_getActiveWebhooks s;
     mfm_parse := mfm_parse s;
     extractHashtags := extractHashtags s;
     extractCustomEmojisFromMfm := extractCustomEmojisFromMfm s;
     extractMentions := extractMentions s;
     normalizeForSearch := normalizeForSearch s |}.

(** What an edit resolves to before the store update. *)
Definition resolvedAs (sv : Services) (user : MiUser.t) (targetId : Id)
    (d : Option.t) : NoteEditService.Resolved :=
  match NoteEditService.resolveEdit sv user targetId d with
  | inr r => r
  | inl _ =>
      {| NoteEditService.res_targetNote := Sample.target;
         NoteEditService.res_data := d;
         NoteEditService.res_tags := [];
         NoteEditService.res_mentionedUsers := [];
         NoteEditService.res_note := Sample.target |}
  end.

(** The record an edit hands to the store ([Sample.target] if none). *)
Definition storedBy (sv : Services) (user : MiUser.t) (targetId : Id)
    (d : Option.t) (editor : option MiUser.t) : MiNote.t :=
  hd Sample.target
    (Sample.storedNotes
       (calls (NoteEditService.edit sv user targetId d false editor))).

End Scenario.

(** The visibility an edit starts from: the caller's, else that of the
    target note (line 264). *)
Definition requestedVisibility (data : Option.t) (targetNote : MiNote.t)
  : string :=
  match Option.visibility data with
  | Some v => v
  | None => MiNote.visibility targetNote
  end.

(** The locality an edit starts from (line 265). *)
Definition requestedLocalOnly (data : Option.t) (targetNote : MiNote.t)
  : bool :=
  match Option.localOnly data with
  | Some b => b
  | None => MiNote.localOnly targetNote
  end.

(** The poster is a remote user of a silenced host (lines 291-293). *)
Definition silencedRemote (sv : Services) (user : MiUser.t) : bool :=
  utilityService_isSilencedHost sv
    (MiMeta.silencedHosts (metaService_fetch sv)) (MiUser.host user)
  && notNull (MiUser.host user).

(** Further payloads. *)
Module Payload.

Import Option.
Local Open Scope string_scope.

(** A renote without text, content warning, files or poll. *)
Definition pureRenoteOf (n : MiNote.t) : Option.t :=
  set_files (Some []) (set_text None (Sample.renoteOf n)).

(** A direct note that renotes the author's own followers-only note. *)
Definition directRenoteOfOwnFollowers : Option.t :=
  set_visibility (Some "specified") (Sample.renoteOf Sample.aliceFollowers).

End Payload.

(** The last code unit of a string. *)
Definition lastUnit (s : Js.JsString) : option N := hd_error (rev s).

Module Texts.

Import Option.
Local Open Scope string_scope.

(** A text with white space on both ends. *)
Definition padded : Option.t := Sample.textOnly "  hi there ".

(** A payload without a text: only the content warning is given. *)
Definition cwOnly : Option.t :=
  Sample.withCw "spoiler" (set_text None (Sample.textOnly "hi")).

End Texts.

(** The calls by which the fan-out tells somebody about the edit: the
    active-users chart, unread markers, the notes stream, the role
    timeline, webhooks and the federation delivery. *)
Definition isAnnouncement (c : Call) : bool :=
  match c with
  | activeUsersChart_write _
  | noteReadService_insertNoteUnread _ _ _ _
  | globalEventService_publishNotesStream _
  | roleService_addNoteToRoleTimeline _
  | queueService_webhookDeliver _ _ => true
  | _ => isDeliveryCall c
  end.

(** The users [postNoteEdited] marks the note unread for (lines 534-556):
    the visible users of a 'specified' note, else the mentioned users. *)
Definition unreadAudience (data : Option.t) (mentionedUsers : list MiUser.t)
  : list MiUser.t :=
  if Option.visibilityIs "specified" data
  then match Option.visibleUsers data with
       | Some vus => vus
       | None => []
       end
  else mentionedUsers.

(** The fan-out job a sample run schedules (one that does nothing when the
    run schedules none). *)
Definition jobOf (d : Option.t) : PostUpdated.t :=
  hd {| PostUpdated.noteId := "n1"%string; PostUpdated.user := Sample.alice;
        PostUpdated.data := d; PostUpdated.silent := true;
        PostUpdated.tags := []; PostUpdated.mentionedUsers := [] |}
     (Sample.scheduled (calls (Sample.run d))).

(** [data.reply ?? targetNote.reply] (line 244). *)
Definition requestedReply (data : Option.t) (targetNote : MiNote.t)
  : option MiNote.t :=
  match Option.reply data with
  | Some r => Some r
  | None => MiNote.reply targetNote
  end.

Module Channels.

Import Option.
Local Open Scope string_scope.

(** A note of bob that was posted in channel [c1]. *)
Definition bobInChannel : MiNote.t :=
  {| MiNote.id := "n7"; MiNote.updatedAt := None; MiNote.fileIds := [];
     MiNote.replyId := None; MiNote.renoteId := None;
     MiNote.channelId := Some "c1"; MiNote.threadId := None;
     MiNote.name := None; MiNote.text := None;
     MiNote.hasPoll := false; MiNote.cw := None; MiNote.tags := [];
     MiNote.emojis := []; MiNote.userId := "bob";
     MiNote.localOnly := true; MiNote.reactionAcceptance := None;
     MiNote.visibility := "public"; MiNote.visibleUserIds := [];
     MiNote.attachedFileTypes := []; MiNote.replyUserId := None;
     MiNote.replyUserHost := None; MiNote.renoteUserId := None;
     MiNote.renoteUserHost := None; MiNote.userHost := None;
     MiNote.uri := None; MiNote.url := None; MiNote.mentions := None;
     MiNote.mentionedRemoteUsers := None; MiNote.reply := None;
     MiNote.channel := None |}.

(** A reply to that note, sent without a channel. *)
Definition replyIntoChannel : Option.t :=
  set_reply (Some bobInChannel) (Sample.textOnly "hi").

(** A reply to a note outside any channel, sent with a channel. *)
Definition replyOutOfChannel : Option.t :=
  set_channel (Some Sample.channel1) Sample.replyToBob.

(** Another channel. *)
Definition channel2 : MiChannel.t := {| MiChannel.id := "c2" |}.

(** A note of alice whose row names that note of bob as its reply target,
    read without the reply relation. *)
Definition replyById : MiNote.t :=
  {| MiNote.id := "n8"; MiNote.updatedAt := None; MiNote.fileIds := [];
     MiNote.replyId := Some "n7"; MiNote.renoteId := None;
     MiNote.channelId := None; MiNote.threadId := None;
     MiNote.name := None; MiNote.text := Some (Js.lit "hello");
     MiNote.hasPoll := false; MiNote.cw := None; MiNote.tags := [];
     MiNote.emojis := []; MiNote.userId := "alice";
     MiNote.localOnly := false; MiNote.reactionAcceptance := None;
     MiNote.visibility := "public"; MiNote.visibleUserIds := [];
     MiNote.attachedFileTypes := []; MiNote.replyUserId := None;
     MiNote.replyUserHost := None; MiNote.renoteUserId := None;
     MiNote.renoteUserHost := None; MiNote.userHost := None;
     MiNote.uri := None; MiNote.url := None; MiNote.mentions := None;
     MiNote.mentionedRemoteUsers := None; MiNote.reply := None;
     MiNote.channel := None |}.

(** The sample services over these two notes. *)
Definition services : Services :=
  Scenario.servicesFor [replyById; bobInChannel] false true.

(** An edit sent into the other channel. *)
Definition intoOtherChannel : Option.t :=
  set_channel (Some channel2) (Sample.textOnly "hi").

End Channels.

(* ===================================================================== *)
(** ** checkHibernation *)
(* ===================================================================== *)

Module MiFollowing.
Record t := { id : Id; followerId : Id; followeeId : Id }.
End MiFollowing.

Module Hibernation.

(** What [checkHibernation] reads: the random source, the clock and the
    user rows. [Math_random_index i] is the value of
    [Math.floor(Math.random() * (i + 1))] in the iteration of the shuffle
    with index [i]; as [Math.random()] lies in [0, 1) it is at most [i].
    [usersRepository_find ids before] is the identifiers of the rows that
    [find] returns for [id IN ids] and [lastActiveDate < before]. *)
Record Sources := {
  Math_random_index : nat -> nat;
  Date_now : Date;
  usersRepository_find : list Id -> Date -> list Id
}.

(** The repository calls of [checkHibernation]. *)
Inductive Call :=
| usersRepository_find_call (ids : list Id) (lastActiveBefore : Date)
| usersRepository_update_isHibernated (ids : list Id)
| followingsRepository_update_isFollowerHibernated (followerIds : list Id).

(** [array[i] = v] for an index inside the array. *)
Fixpoint setNth {A} (i : nat) (v : A) (l : list A) : list A :=
  match l, i with
  | [], _ => []
  | _ :: t, 0 => v :: t
  | h :: t, S i' => h :: setNth i' v t
  end.

(** [[array[i], array[j]] = [array[j], array[i]]]: both elements are read,
    then both are written. The indices of the shuffle are inside the
    array; outside it nothing is modelled and the array is left as it is. *)
Definition swap {A} (i j : nat) (array : list A) : list A :=
  match nth_error array i, nth_error array j with
  | Some x, Some y => setNth j x (setNth i y array)
  | _, _ => array
  end.

(** [for (let i = ...; i > 0; i--)] of [shuffle], from index [i] down. *)
Fixpoint shuffleFrom {A} (draw : nat -> nat) (i : nat) (array : list A)
  : list A :=
  match i with
  | 0 => array
  | S i' => shuffleFrom draw i' (swap i (draw i) array)
  end.

Definition shuffle {A} (draw : nat -> nat) (array : list A) : list A :=
  shuffleFrom draw (List.length array - 1) array.

(** Fifty days in milliseconds, [1000 * 60 * 60 * 24 * 50]. *)
Definition fiftyDays : Z := (1000 * 60 * 60 * 24 * 50)%Z.

(** [samples]: at most 1000 followings of the shuffled array. *)
Definition samplesOf (src : Sources) (followings : list MiFollowing.t)
  : list MiFollowing.t :=
  firstn (Nat.min (List.length followings) 1000)
    (shuffle (Math_random_index src) followings).

(** [checkHibernation]: the array as the call leaves it (the shuffle works
    in place) and the repository calls, in order. *)
Definition checkHibernation (src : Sources) (followings : list MiFollowing.t)
  : list MiFollowing.t * list Call :=
  match followings with
  | [] => ([], [])
  | _ :: _ =>
      let samples := samplesOf src followings in
      let ids := map MiFollowing.followerId samples in
      let before := (Date_now src - fiftyDays)%Z in
      let hibernatedUsers := usersRepository_find src ids before in
      (shuffle (Math_random_index src) followings,
       usersRepository_find_call ids before
       :: (if (0 <? List.length hibernatedUsers)%nat
           then [usersRepository_update_isHibernated hibernatedUsers;
                 followingsRepository_update_isFollowerHibernated
                   hibernatedUsers]
           else []))
  end.

(** A run on three followings. *)
Definition follow (k follower : string) : MiFollowing.t :=
  {| MiFollowing.id := k; MiFollowing.followerId := follower;
     MiFollowing.followeeId := "alice"%string |}.

Definition threeFollowings : list MiFollowing.t :=
  [follow "f1" "bob"; follow "f2" "carol"; follow "f3" "dave"]%string.

(** Every draw is 0; bob and dave have been away for long. *)
Definition sources : Sources :=
  {| Math_random_index := fun _ => 0;
     Date_now := 1700000000000%Z;
     usersRepository_find :=
       fun ids _ =>
         filter (fun k => existsb (String.eqb k) ["bob"; "dave"]%string) ids |}.

End Hibernation.

(* ===================================================================== *)
(** ** Quotes among the stored notes *)
(* ===================================================================== *)

(** The test of [isQuote] read on a stored note: a renote that carries
    text, a content warning, files or a poll. *)
Definition isStoredQuote (n : MiNote.t) : bool :=
  notNull (MiNote.renoteId n) &&
  (Js.truthy (MiNote.text n) || Js.truthy (MiNote.cw n)
   || negb (Nat.eqb (List.length (MiNote.fileIds n)) 0)
   || MiNote.hasPoll n).

Module Renotes.

Import Option.
Local Open Scope string_scope.

(** A renote whose text is white space only. *)
Definition blankRenote : Option.t :=
  set_files (Some [])
    (set_renote (Some Sample.bobPublic) (Sample.textOnly "   ")).

End Renotes.

(* ===================================================================== *)
(** * Properties *)
(* ===================================================================== *)

(** ** NotificationManager *)

Section NotificationManagerFacts.

Import NotificationManager.

Lemma setReason_other (t t' : Id) r q :
  (t' =? t)%string = false ->
  filter (fun x => (target x =? t)%string) (setReason t' r q)
  = filter (fun x => (target x =? t)%string) q.
Proof.
  intros Hne. induction q as [|x q IH]; simpl; [reflexivity|].
  destruct (target x =? t')%string eqn:Ex.
  - apply String.eqb_eq in Ex. simpl. rewrite Ex, Hne. reflexivity.
  - simpl. rewrite IH. reflexivity.
Qed.

Lemma setReason_same (t : Id) r q :
  filter (fun x => (target x =? t)%string) (setReason t r q)
  = match filter (fun x => (target x =? t)%string) q with
    | [] => []
    | _ :: es => {| target := t; reason := r |} :: es
    end.
Proof.
  induction q as [|x q IH]; simpl; [reflexivity|].
  destruct (target x =? t)%string eqn:Ex; simpl.
  - rewrite Ex. apply String.eqb_eq in Ex. rewrite Ex. reflexivity.
  - rewrite Ex. exact IH.
Qed.

Lemma find_filter_nil (t : Id) q :
  find (fun x => (target x =? t)%string) q = None <->
  filter (fun x => (target x =? t)%string) q = [].
Proof.
  induction q as [|x q IH]; simpl; [tauto|].
  destruct (target x =? t)%string; [split; discriminate | exact IH].
Qed.

Lemma merge_fold_storedReason rs :
  fold_left merge rs None = storedReason rs.
Proof.
  induction rs as [|r rs IH] using rev_ind; [reflexivity|].
  rewrite fold_left_app. simpl. rewrite IH. unfold storedReason.
  rewrite rev_app_distr. simpl.
  destruct r; simpl;
    try (destruct (find _ (rev rs)); [reflexivity|];
         destruct rs; reflexivity).
Qed.

Lemma reasonsFor_snoc t ps p :
  reasonsFor t (ps ++ [p])
  = reasonsFor t ps ++ (if (fst p =? t)%string then [snd p] else []).
Proof.
  unfold reasonsFor. rewrite filter_app, map_app. destruct p as [t' r].
  cbn. destruct (t' =? t)%string; reflexivity.
Qed.

Lemma notifier_push nm t r : notifier (push nm t r) = notifier nm.
Proof.
  unfold push.
  destruct (notifier nm =? t)%string; [reflexivity|].
  destruct (find _ (queue nm)); [|reflexivity].
  destruct (negb _); reflexivity.
Qed.

Lemma notifier_pushAll nm ps : notifier (pushAll nm ps) = notifier nm.
Proof.
  unfold pushAll. revert nm.
  induction ps as [|p ps IH]; intros nm; simpl; [reflexivity|].
  rewrite IH. apply notifier_push.
Qed.

Lemma pushAll_snoc nm ps p :
  pushAll nm (ps ++ [p]) = push (pushAll nm ps) (fst p) (snd p).
Proof. unfold pushAll. rewrite fold_left_app. reflexivity. Qed.

(** One [push], seen from the entries of a target [t]. *)
Lemma entriesFor_push nm t t' r :
  entriesFor t (push nm t' r)
  = if (notifier nm =? t')%string then entriesFor t nm
    else if (t' =? t)%string then
      match entriesFor t nm with
      | [] => [ {| target := t; reason := r |} ]
      | e :: es =>
          if negb (NotificationType_eqb r mention)
          then {| target := t; reason := r |} :: es
          else e :: es
      end
    else entriesFor t nm.
Proof.
  unfold entriesFor, push.
  destruct (notifier nm =? t')%string; [reflexivity|].
  destruct (t' =? t)%string eqn:Et.
  - apply String.eqb_eq in Et. subst t'.
    destruct (find _ (queue nm)) eqn:Ef.
    + destruct (filter _ (queue nm)) eqn:Efl.
      { apply find_filter_nil in Efl. congruence. }
      destruct (negb _); simpl; [|exact Efl].
      rewrite setReason_same, Efl. reflexivity.
    + apply find_filter_nil in Ef. simpl. rewrite filter_app, Ef. simpl.
      rewrite String.eqb_refl. reflexivity.
  - destruct (find _ (queue nm)).
    + destruct (negb _); simpl; [|reflexivity].
      apply setReason_other. exact Et.
    + simpl. rewrite filter_app. simpl. rewrite Et. apply app_nil_r.
Qed.

(** The entries the queue holds for [t] after any sequence of pushes on a
    fresh manager. *)
Lemma entriesFor_pushAll notifier0 note0 ps t :
  entriesFor t (pushAll (new notifier0 note0) ps)
  = if (notifier0 =? t)%string then []
    else match fold_left merge (reasonsFor t ps) None with
         | Some r => [ {| target := t; reason := r |} ]
         | None => []
         end.
Proof.
  induction ps as [|p ps IH] using rev_ind.
  - simpl. destruct (notifier0 =? t)%string; reflexivity.
  - rewrite pushAll_snoc, entriesFor_push, notifier_pushAll, IH.
    rewrite reasonsFor_snoc, fold_left_app.
    destruct p as [t' r]. cbn [fst snd new notifier].
    destruct (notifier0 =? t')%string eqn:Eself.
    + apply String.eqb_eq in Eself. subst t'.
      destruct (notifier0 =? t)%string; reflexivity.
    + destruct (t' =? t)%string eqn:Et; [|reflexivity].
      apply String.eqb_eq in Et. subst t'. rewrite Eself.
      destruct (fold_left merge (reasonsFor t ps) None); destruct r;
        reflexivity.
Qed.

End NotificationManagerFacts.

(** ** The call-recording monad *)

Section MonadFacts.

Context {A B : Type}.

Lemma calls_bind (m : M A) (f : A -> M B) :
  calls (bind m f)
  = match outcome m with
    | inl _ => calls m
    | inr a => calls m ++ calls (f a)
    end.
Proof.
  destruct m as [cs [e|a]]; simpl; [reflexivity|].
  destruct (f a); reflexivity.
Qed.

Lemma outcome_bind (m : M A) (f : A -> M B) :
  outcome (bind m f)
  = match outcome m with
    | inl e => inl e
    | inr a => outcome (f a)
    end.
Proof.
  destruct m as [cs [e|a]]; simpl; [reflexivity|].
  destruct (f a); reflexivity.
Qed.

Lemma allCalls_bind P (m : M A) (f : A -> M B) :
  allCalls P m -> (forall a, allCalls P (f a)) -> allCalls P (bind m f).
Proof.
  unfold allCalls. intros Hm Hf. rewrite calls_bind.
  destruct (outcome m); [exact Hm|].
  rewrite forallb_app, Hm. apply Hf.
Qed.

Lemma allCalls_ret P (a : A) : allCalls P (ret a).
Proof. reflexivity. Qed.

Lemma allCalls_raise P e : allCalls P (@raise A e).
Proof. reflexivity. Qed.

Lemma allCalls_lift P (r : Result A) : allCalls P (lift r).
Proof. reflexivity. Qed.

End MonadFacts.

Lemma allCalls_call P c : P c = true -> allCalls P (call c).
Proof. unfold allCalls. simpl. intros ->. reflexivity. Qed.

Lemma allCalls_whenM P c m : allCalls P m -> allCalls P (whenM c m).
Proof. destruct c; simpl; [tauto|]. intros _. apply allCalls_ret. Qed.

Lemma allCalls_forM_ {A} P (xs : list A) body :
  (forall x, allCalls P (body x)) -> allCalls P (forM_ xs body).
Proof.
  intros Hb. induction xs as [|x xs IH]; simpl; [apply allCalls_ret|].
  apply allCalls_bind; [apply Hb | intros _; exact IH].
Qed.

(** Every branch of a monadic term keeps [allCalls P]: split binds,
    conditionals and matches, and close each leaf call by computation. *)
Ltac all_calls :=
  repeat first
    [ apply allCalls_ret | apply allCalls_raise | apply allCalls_lift
    | apply allCalls_call; reflexivity
    | apply allCalls_whenM
    | apply allCalls_forM_; intros ?
    | apply allCalls_bind; [|intros ?]
    | match goal with
      | |- allCalls _ (if ?c then _ else _) => destruct c
      | |- allCalls _ (match ?x with _ => _ end) => destruct x
      | |- allCalls _ (let _ := _ in _) => cbv zeta
      end ].

(** A unit computation that does not throw. *)
Lemma outcome_whenM_call c x : outcome (whenM c (call x)) = ok tt.
Proof. destruct c; reflexivity. Qed.

Lemma outcome_forM_ {A} (xs : list A) body :
  (forall x, outcome (body x) = ok tt) -> outcome (forM_ xs body) = ok tt.
Proof.
  intros Hb. induction xs as [|x xs IH]; simpl; [reflexivity|].
  rewrite outcome_bind, Hb. exact IH.
Qed.

Lemma In_calls_bind_l {A B} (m : M A) (f : A -> M B) c :
  In c (calls m) -> In c (calls (bind m f)).
Proof.
  intros H. rewrite calls_bind. destruct (outcome m); [exact H|].
  apply in_or_app. left. exact H.
Qed.

Lemma In_calls_bind_r {A B} (m : M A) (f : A -> M B) a c :
  outcome m = ok a -> In c (calls (f a)) -> In c (calls (bind m f)).
Proof.
  intros Hm H. rewrite calls_bind, Hm. apply in_or_app. right. exact H.
Qed.

(** ** edit: the shape of a run *)

Section EditFacts.

Import NoteEditService Option.

Variable sv : Services.
Variable user : MiUser.t.

(** [edit] by cases: what it calls and returns. *)
Lemma edit_cases targetId data silent editor :
  edit sv user targetId data silent editor
  = match resolveEdit sv user targetId data with
    | inl e => ([], inl e)
    | inr r =>
        let upd := notesRepository_update (MiNote.id (res_note r))
                     (res_note r) in
        let job := setImmediate_postUpdated
                     {| PostUpdated.noteId := MiNote.id (res_note r);
                        PostUpdated.user := user;
                        PostUpdated.data := res_data r;
                        PostUpdated.silent := silent;
                        PostUpdated.tags := res_tags r;
                        PostUpdated.mentionedUsers := res_mentionedUsers r |}
        in
        match notesRepository_update_throws sv (res_note r) with
        | Some e =>
            if isDuplicateKeyValueError sv e
            then ([upd], inl (JsError "duplicated" "Duplicated note"))
            else ([upd; console_error e], inl e)
        | None =>
            match editor with
            | Some ed =>
                if negb (MiNote.userId (res_note r) =? MiUser.id ed)%string
                then
                  match usersRepository_findOneBy sv
                          (MiNote.userId (res_note r)) with
                  | Some u =>
                      ([upd; job;
                        moderationLogService_log ed u (res_note r)
                          (res_targetNote r)],
                       inr (res_note r))
                  | None =>
                      ([upd; job],
                       inl (EntityNotFoundError "MiUser"
                              (MiNote.userId (res_note r))))
                  end
                else ([upd; job], inr (res_note r))
            | None => ([upd; job], inr (res_note r))
            end
        end
    end.
Proof.
  unfold edit. destruct (resolveEdit sv user targetId data) as [e|r];
    [reflexivity|].
  cbn -[resolveEdit].
  destruct (notesRepository_update_throws sv (res_note r)) as [e|].
  - destruct (isDuplicateKeyValueError sv e); reflexivity.
  - destruct editor as [ed|]; [|reflexivity].
    destruct (negb _); [|reflexivity].
    unfold findUserOrFail.
    destruct (usersRepository_findOneBy sv _); reflexivity.
Qed.

(** A store update among the calls of [edit] is the one of the resolved
    note. *)
Lemma edit_update_inv targetId data silent editor id n :
  In (notesRepository_update id n)
     (calls (edit sv user targetId data silent editor)) ->
  exists r, resolveEdit sv user targetId data = inr r /\ n = res_note r.
Proof.
  rewrite edit_cases.
  destruct (resolveEdit sv user targetId data) as [e|r]; [intros []|].
  intros H. exists r. split; [reflexivity|].
  cbv zeta in H.
  destruct (notesRepository_update_throws sv (res_note r)) as [e|].
  - destruct (isDuplicateKeyValueError sv e); simpl in H;
      repeat (destruct H as [H|H]; try congruence; try contradiction).
  - destruct editor as [ed|];
      [destruct (negb _);
         [destruct (usersRepository_findOneBy sv _)|]|];
      simpl in H;
      repeat (destruct H as [H|H]; try congruence; try contradiction).
Qed.

End EditFacts.

(** ** edit: what each block of lines writes *)

Section PhaseFacts.

Import NoteEditService Option.
Variable sv : Services.
Variable user : MiUser.t.

Lemma optStrEqb_true a b : optStrEqb a b = true <-> a = b.
Proof.
  destruct a, b; simpl; try (split; congruence).
  rewrite String.eqb_eq. split; congruence.
Qed.

Lemma visibilityIs_true v d : visibilityIs v d = true <-> visibility d = Some v.
Proof. unfold visibilityIs. apply optStrEqb_true. Qed.

Lemma visibilityIs_false v d :
  visibilityIs v d = false <-> visibility d <> Some v.
Proof.
  rewrite <- visibilityIs_true. destruct (visibilityIs v d); split; congruence.
Qed.

Lemma set_visibility_id d : set_visibility (visibility d) d = d.
Proof. destruct d; reflexivity. Qed.

Lemma set_visibleUsers_id d : set_visibleUsers (visibleUsers d) d = d.
Proof. destruct d; reflexivity. Qed.

Lemma set_renote_id d : set_renote (renote d) d = d.
Proof. destruct d; reflexivity. Qed.

Lemma set_reply_id d : set_reply (reply d) d = d.
Proof. destruct d; reflexivity. Qed.

Lemma set_poll_id d : set_poll (poll d) d = d.
Proof. destruct d; reflexivity. Qed.

(** Lines 244-261 only write [reply] and [channel]. *)
Lemma resolveReplyChannel_shape tn d :
  exists r c, resolveReplyChannel sv tn d = set_channel c (set_reply r d).
Proof.
  unfold resolveReplyChannel, when_.
  destruct d as [? ? ? rp ? ? ? ? ? ? ? ? ch ? ? ? ? ? ?]. cbn.
  destruct rp as [r|]; destruct ch as [c|]; cbn;
    repeat match goal with
           | |- context [if ?c then _ else _] => destruct c; cbn
           | |- context [match MiNote.reply tn with _ => _ end] =>
               destruct (MiNote.reply tn); cbn
           | |- context [match MiNote.channel tn with _ => _ end] =>
               destruct (MiNote.channel tn); cbn
           end;
    do 2 eexists; unfold set_channel, set_reply; cbn; reflexivity.
Qed.

Lemma inheritScalars_shape targetId tn d :
  inheritScalars sv targetId tn d
  = set_localOnly (inherited (localOnly d) (MiNote.localOnly tn))
      (set_visibility (inherited (visibility d) (MiNote.visibility tn))
         (set_createdAt
            (inherited (createdAt d) (idService_parse sv targetId)) d)).
Proof.
  destruct d as [ca ? ? ? ? ? ? lo ? ? vi ? ? ? ? ? ? ? ?].
  destruct ca, lo, vi; reflexivity.
Qed.

Lemma rbind_inr {A B} (m : Result A) (f : A -> Result B) b :
  rbind m f = inr b -> exists a, m = inr a /\ f a = inr b.
Proof. destruct m as [e|a]; simpl; [discriminate|]. eauto. Qed.

Lemma inheritRelations_shape targetId tn d d' :
  inheritRelations sv targetId tn d = inr d' ->
  exists rn rp pl, d' = set_poll pl (set_reply rp (set_renote rn d)).
Proof.
  unfold inheritRelations. intros H.
  apply rbind_inr in H as (d1 & H1 & H).
  apply rbind_inr in H as (d2 & H2 & H).
  assert (E1 : exists rn, d1 = set_renote rn d).
  { destruct (MiNote.renoteId tn) as [rid|];
      [destruct (isNull (renote d) && truthyStr (Some rid));
         [apply rbind_inr in H1 as (n & _ & H1)|]|];
      inversion H1; subst; eexists;
      first [reflexivity | symmetry; apply set_renote_id]. }
  assert (E2 : exists rp, d2 = set_reply rp d1).
  { destruct (MiNote.replyId tn) as [rid|];
      [destruct (isNull (reply d1) && truthyStr (Some rid));
         [apply rbind_inr in H2 as (n & _ & H2)|]|];
      inversion H2; subst; eexists;
      first [reflexivity | symmetry; apply set_reply_id]. }
  assert (E3 : exists pl, d' = set_poll pl d2).
  { destruct (isNull (poll d2));
      [destruct (MiNote.hasPoll tn);
         [apply rbind_inr in H as (n & _ & H)|]|];
      inversion H; subst; eexists;
      first [reflexivity | symmetry; apply set_poll_id]. }
  destruct E1 as [rn ->], E2 as [rp ->], E3 as [pl ->]. eauto.
Qed.

Lemma inheritRest_shape tn d :
  inheritRest sv tn d
  = set_localOnly (if notNull (channel d) then Some true else localOnly d)
      (set_visibleUsers
         (if notNull (channel d) then Some []
          else inherited (visibleUsers d)
                 (usersRepository_findBy sv (MiNote.visibleUserIds tn)))
         (set_visibility
            (if notNull (channel d) then Some "public"%string
             else visibility d)
            (set_reactionAcceptance
               (match reactionAcceptance d with
                | Some a => Some a
                | None => MiNote.reactionAcceptance tn
                end)
               (set_name
                  (match name d with
                   | Some a => Some a
                   | None => MiNote.name tn
                   end)
                  (set_files
                     (inherited (files d)
                        (driveFilesRepository_findBy sv (MiNote.fileIds tn)))
                     d))))).
Proof.
  destruct d as [? nm ? ? ? fl ? ? ra ? ? vu ch ? ? ? ? ? ?].
  destruct nm, fl, ra, vu, ch; reflexivity.
Qed.

(** Lines 263-275, seen from the fields the properties talk about. *)
Lemma inheritFromTarget_ok targetId tn d d0 :
  inheritFromTarget sv targetId tn d = inr d0 ->
  cw d0 = cw d /\ text d0 = text d /\ channel d0 = channel d /\
  apHashtags d0 = apHashtags d /\
  visibility d0
  = (if notNull (channel d) then Some "public"%string
     else inherited (visibility d) (MiNote.visibility tn)) /\
  localOnly d0
  = (if notNull (channel d) then Some true
     else inherited (localOnly d) (MiNote.localOnly tn)) /\
  visibleUsers d0
  = (if notNull (channel d) then Some []
     else inherited (visibleUsers d)
            (usersRepository_findBy sv (MiNote.visibleUserIds tn))).
Proof.
  unfold inheritFromTarget. intros H.
  apply rbind_inr in H as (d1 & H1 & H). inversion H; subst; clear H.
  apply inheritRelations_shape in H1 as (rn & rp & pl & ->).
  rewrite inheritRest_shape, inheritScalars_shape. cbn.
  repeat split; reflexivity.
Qed.

(** Lines 276-295 only write [visibility], and only from public to home. *)
Lemma applyContentPolicy_shape d d' :
  applyContentPolicy sv user d = inr d' ->
  exists v, d' = set_visibility v d /\
    (v = visibility d \/
     (visibility d = Some "public"%string /\ v = Some "home"%string)).
Proof.
  unfold applyContentPolicy, when_. intros H.
  destruct (visibilityIs "public" d) eqn:Ev.
  - apply visibilityIs_true in Ev.
    repeat match type of H with
           | context [if ?c then _ else _] => destruct c; cbn in H
           end;
      try discriminate; inversion H; subst; clear H;
      first [ exists (Some "home"%string); split;
              [unfold set_visibility; reflexivity|]; right; auto
            | match goal with
              | |- exists v, ?x = set_visibility v ?x /\ _ =>
                  exists (visibility x); split;
                  [symmetry; apply set_visibility_id | left; reflexivity]
              end ].
  - cbn in H.
    destruct (utilityService_isKeyWordIncluded sv _ _); [discriminate|].
    rewrite Ev in H. cbn in H. inversion H; subst.
    exists (visibility d'). split;
      [symmetry; apply set_visibility_id | left; reflexivity].
Qed.

(** Line 287: a prohibited word in [cw ?? text ?? ''] is rejected. *)
Lemma applyContentPolicy_prohibited d :
  utilityService_isKeyWordIncluded sv (cwOrText d)
    (MiMeta.prohibitedWords (metaService_fetch sv)) = true ->
  applyContentPolicy sv user d = inl ContainsProhibitedWordsError.
Proof.
  unfold applyContentPolicy. intros H.
  assert (E : forall x, cwOrText x = cwOrText d ->
     utilityService_isKeyWordIncluded sv (cwOrText x)
       (MiMeta.prohibitedWords (metaService_fetch sv)) = true)
    by (intros x ->; exact H).
  cbv zeta.
  rewrite E; [reflexivity|].
  repeat match goal with
         | |- context [if ?c then _ else _] => destruct c
         end; reflexivity.
Qed.

(** Lines 297-321 only write [visibility]. *)
Lemma applyRenoteVisibility_shape d d' :
  applyRenoteVisibility user d = inr d' ->
  exists v, d' = set_visibility v d /\
    (v = visibility d \/
     (visibility d = Some "public"%string /\ v = Some "home"%string) \/
     v = Some "followers"%string).
Proof.
  unfold applyRenoteVisibility, when_. intros H.
  destruct (renote d) as [r|].
  - repeat match type of H with
           | context [if ?c then _ else _] => destruct c eqn:?
           end;
      try discriminate; inversion H; subst; clear H;
      first [ exists (Some "followers"%string); split; [reflexivity|]; auto
            | exists (Some "home"%string); split; [reflexivity|];
              right; left; split; [|reflexivity];
              apply visibilityIs_true; assumption
            | match goal with
              | |- exists v, ?x = set_visibility v ?x /\ _ =>
                  exists (visibility x); split;
                  [symmetry; apply set_visibility_id | left; reflexivity]
              end ].
  - inversion H; subst. exists (visibility d'). split;
      [symmetry; apply set_visibility_id | left; reflexivity].
Qed.

(** Lines 335-348 write [visibility] (public to home) and [localOnly]
    (to true). *)
Lemma applyReplyAndLocality_shape d :
  applyReplyAndLocality d
  = set_localOnly (localOnly (applyReplyAndLocality d))
      (set_visibility (visibility (applyReplyAndLocality d)) d).
Proof.
  unfold applyReplyAndLocality, when_.
  destruct d as [? ? ? rp rn ? ? ? ? ? ? ? ? ? ? ? ? ? ?]. cbn.
  destruct rp, rn; cbn;
    repeat match goal with
           | |- context [if ?c then _ else _] => destruct c; cbn
           end; reflexivity.
Qed.

Lemma applyReplyAndLocality_visibility d :
  visibility (applyReplyAndLocality d) = visibility d \/
  (visibility d = Some "public"%string /\
   visibility (applyReplyAndLocality d) = Some "home"%string).
Proof.
  unfold applyReplyAndLocality, when_.
  destruct d as [? ? ? rp rn ? ? ? ? ? vi ? ? ? ? ? ? ? ?]. cbn.
  destruct rp, rn; cbn;
    repeat match goal with
           | |- context [if ?c then _ else _] => destruct c eqn:?; cbn
           end;
    try (left; reflexivity);
    (right; split; [|reflexivity];
     match goal with
     | H : (_ && visibilityIs _ _)%bool = true |- _ =>
         apply andb_true_iff in H as [_ H];
         apply visibilityIs_true in H; exact H
     end).
Qed.

Lemma applyReplyAndLocality_localOnly d :
  localOnly (applyReplyAndLocality d) = localOnly d \/
  localOnly (applyReplyAndLocality d) = Some true.
Proof.
  unfold applyReplyAndLocality, when_.
  destruct d as [? ? ? rp rn ? ? ? ? ? vi ? ? ? ? ? ? ? ?]. cbn.
  destruct rp, rn; cbn;
    repeat match goal with
           | |- context [if ?c then _ else _] => destruct c eqn:?; cbn
           end; auto.
Qed.

(** Lines 350-357 only write [text]. *)
Lemma normalizeText_shape d :
  normalizeText sv d = set_text (text (normalizeText sv d)) d.
Proof.
  unfold normalizeText. destruct (text d) as [[|u t]|]; reflexivity.
Qed.

(** Lines 386-398 only write [visibleUsers], and only for 'specified'. *)
Lemma foldVisibleUsers_shape d ms d' ms' :
  foldVisibleUsers sv d ms = inr (d', ms') ->
  d' = set_visibleUsers (visibleUsers d') d /\
  (visibilityIs "specified" d = false -> visibleUsers d' = visibleUsers d) /\
  (visibilityIs "specified" d = true ->
   exists vus, visibleUsers d' = Some vus /\ (reply d <> None -> vus <> [])).
Proof.
  unfold foldVisibleUsers. intros H.
  destruct (visibilityIs "specified" d) eqn:Ev.
  - destruct (visibleUsers d) as [vus|] eqn:Evu; [|discriminate].
    destruct (reply d) as [r|] eqn:Er.
    + destruct (negb (someId (MiNote.userId r) vus)) eqn:Es.
      * apply rbind_inr in H as (u & _ & H). inversion H; subst; clear H.
        cbn. split; [reflexivity|]. split; [discriminate|].
        intros _. exists (vus ++ [u]). split; [reflexivity|].
        intros _. destruct vus; discriminate.
      * inversion H; subst; clear H.
        split; [symmetry; apply set_visibleUsers_id|].
        split; [discriminate|]. intros _. exists vus. split; [exact Evu|].
        intros _ ->. discriminate.
    + inversion H; subst; clear H.
      split; [symmetry; apply set_visibleUsers_id|].
      split; [discriminate|]. intros _. exists vus. split; [exact Evu|].
      intros C. congruence.
  - inversion H; subst; clear H.
    split; [symmetry; apply set_visibleUsers_id|].
    split; [reflexivity|discriminate].
Qed.

(** A successful [resolveEdit], block by block. *)
Lemma resolveEdit_inv targetId data r :
  resolveEdit sv user targetId data = inr r ->
  exists tn d0 d1 d2 ms1 d4 ms2,
    notesRepository_findOneBy sv targetId = Some tn /\
    inheritFromTarget sv targetId tn (resolveReplyChannel sv tn data)
      = inr d0 /\
    applyContentPolicy sv user d0 = inr d1 /\
    applyRenoteVisibility user d1 = inr d2 /\
    checkBlocking sv user d2 = inr tt /\
    let d3 := normalizeText sv (applyReplyAndLocality d2) in
    addReplyAuthor sv user d3 (snd (analyze sv user d3)) = inr ms1 /\
    foldVisibleUsers sv d3 ms1 = inr (d4, ms2) /\
    let d5 := when_ (notNull (apMentions d4)) (set_apMentions (Some ms2)) d4 in
    r = {| res_targetNote := tn;
           res_data := d5;
           res_tags := capTags (fst (fst (analyze sv user d3)));
           res_mentionedUsers := ms2;
           res_note := newNote sv user tn d5
                         (capTags (fst (fst (analyze sv user d3))))
                         (snd (fst (analyze sv user d3))) ms2 |}.
Proof.
  unfold resolveEdit. intros H.
  apply rbind_inr in H as (tn & Htn & H).
  apply rbind_inr in H as (d0 & Hd0 & H).
  apply rbind_inr in H as (d1 & Hd1 & H).
  apply rbind_inr in H as (d2 & Hd2 & H).
  apply rbind_inr in H as ([] & Hb & H).
  cbv zeta in H.
  destruct (analyze sv user (normalizeText sv (applyReplyAndLocality d2)))
    as [[tags emojis] ms] eqn:Ea.
  apply rbind_inr in H as (ms1 & Hms1 & H).
  apply rbind_inr in H as ([d4 ms2] & Hf & H).
  inversion H; subst; clear H.
  unfold findNoteOrFail, orFail in Htn.
  destruct (notesRepository_findOneBy sv targetId) as [tn'|] eqn:Efind;
    [|discriminate].
  inversion Htn; subst tn'.
  exists tn, d0, d1, d2, ms1, d4, ms2.
  cbn. rewrite Ea. cbn. repeat split; assumption || reflexivity.
Qed.

(** The fields of the stored note that the properties talk about, in
    terms of the payload after each block. *)
Lemma resolveEdit_fields targetId data r :
  resolveEdit sv user targetId data = inr r ->
  exists tn d0 d1 d2 d4,
    notesRepository_findOneBy sv targetId = Some tn /\
    inheritFromTarget sv targetId tn (resolveReplyChannel sv tn data)
      = inr d0 /\
    applyContentPolicy sv user d0 = inr d1 /\
    applyRenoteVisibility user d1 = inr d2 /\
    let d3 := applyReplyAndLocality d2 in
    (exists ms1 ms2,
       foldVisibleUsers sv (normalizeText sv d3) ms1 = inr (d4, ms2)) /\
    res_targetNote r = tn /\
    visibility (res_data r) = visibility d3 /\
    localOnly (res_data r) = localOnly d3 /\
    channel (res_data r) = channel d0 /\
    reply (res_data r) = reply d0 /\
    renote (res_data r) = renote d0 /\
    visibleUsers (res_data r) = visibleUsers d4 /\
    visibility (normalizeText sv d3) = visibility d3 /\
    reply (normalizeText sv d3) = reply d0 /\
    res_tags r = capTags (fst (fst (analyze sv user (normalizeText sv d3)))) /\
    res_note r
    = newNote sv user tn (res_data r) (res_tags r)
        (snd (fst (analyze sv user (normalizeText sv d3))))
        (res_mentionedUsers r).
Proof.
  intros H.
  apply resolveEdit_inv in H
    as (tn & d0 & d1 & d2 & ms1 & d4 & ms2 & Htn & Hd0 & Hd1 & Hd2 & _ & H).
  cbv zeta in H. destruct H as (_ & Hf & ->).
  exists tn, d0, d1, d2, d4.
  repeat (split; [assumption|]).
  cbv zeta. split; [eauto|]. cbn.
  apply foldVisibleUsers_shape in Hf as (E4 & _).
  apply applyContentPolicy_shape in Hd1 as (v1 & E1 & _).
  apply applyRenoteVisibility_shape in Hd2 as (v2 & E2 & _).
  assert (E5 : forall (P : Option.t -> Prop),
            P d4 -> P (set_apMentions (Some ms2) d4) ->
            P (when_ (notNull (apMentions d4))
                 (set_apMentions (Some ms2)) d4))
    by (intros P; unfold when_; destruct (notNull _); auto).
  repeat split;
    try (rewrite normalizeText_shape, applyReplyAndLocality_shape;
         try rewrite E2, E1; reflexivity);
    try (apply E5; cbn [visibility localOnly channel reply renote
                        visibleUsers set_apMentions];
         rewrite E4, normalizeText_shape, applyReplyAndLocality_shape;
         try rewrite E2, E1; reflexivity).
Qed.

End PhaseFacts.

(** ** Visibility through the blocks *)

Section VisibilityFacts.

Import NoteEditService Option.
Local Open Scope string_scope.
Variable sv : Services.
Variable user : MiUser.t.

(** Blocks 276-348 leave the visibility alone or narrow it to home or
    followers. *)
Lemma visibility_narrowing d0 d1 d2 :
  applyContentPolicy sv user d0 = inr d1 ->
  applyRenoteVisibility user d1 = inr d2 ->
  visibility (applyReplyAndLocality d2) = visibility d0 \/
  visibility (applyReplyAndLocality d2) = Some "home" \/
  visibility (applyReplyAndLocality d2) = Some "followers".
Proof.
  intros H1 H2.
  apply applyContentPolicy_shape in H1 as (v1 & -> & Hv1).
  apply applyRenoteVisibility_shape in H2 as (v2 & -> & Hv2).
  cbn in Hv2.
  destruct (applyReplyAndLocality_visibility
              (set_visibility v2 (set_visibility v1 d0))) as [E|[_ E]];
    rewrite E; cbn; [|auto].
  destruct Hv2 as [->|[[_ ->]| ->]]; auto.
  destruct Hv1 as [->|[_ ->]]; auto.
Qed.

(** With a channel, lines 276-295 can only apply the silenced-host rule. *)
Lemma applyContentPolicy_channel d d' :
  channel d <> None ->
  applyContentPolicy sv user d = inr d' ->
  d' = when_ (visibilityIs "public" d
              && utilityService_isSilencedHost sv
                   (MiMeta.silencedHosts (metaService_fetch sv))
                   (MiUser.host user)
              && notNull (MiUser.host user))
         (set_visibility (Some "home")) d.
Proof.
  unfold applyContentPolicy. intros Hc.
  destruct (channel d) eqn:Ec; [|contradiction].
  cbn [isNull]. rewrite andb_false_r.
  destruct (utilityService_isKeyWordIncluded sv _ _); [discriminate|].
  intros [= <-]. reflexivity.
Qed.

Lemma applyRenoteVisibility_public d :
  (forall rn, renote d = Some rn -> MiNote.visibility rn = "public") ->
  applyRenoteVisibility user d = ok d.
Proof.
  unfold applyRenoteVisibility. intros H.
  destruct (renote d) as [rn|]; [|reflexivity].
  rewrite (H rn eq_refl). reflexivity.
Qed.

Lemma applyReplyAndLocality_public_reply d :
  (forall rp, reply d = Some rp -> MiNote.visibility rp = "public") ->
  visibility (applyReplyAndLocality d) = visibility d.
Proof.
  intros H. rewrite applyReplyAndLocality_shape.
  unfold applyReplyAndLocality, when_.
  destruct d as [? ? ? rp rn ? ? ? ? ? vi ? ? ? ? ? ? ? ?]. cbn in *.
  destruct rp as [r|]; [rewrite (H r eq_refl)|]; cbn;
    destruct rn; cbn;
    repeat match goal with
           | |- context [if ?c then _ else _] => destruct c; cbn
           end; reflexivity.
Qed.

Lemma cwOrText_resolveReplyChannel tn d :
  cwOrText (resolveReplyChannel sv tn d) = cwOrText d.
Proof.
  destruct (resolveReplyChannel_shape sv tn d) as (r & c & ->). reflexivity.
Qed.

End VisibilityFacts.


(** ** The fan-out *)

Section FanoutFacts.

Import NoteEditService Option.
Local Open Scope string_scope.

Lemma postNoteEdited_quiet sv user note data silent tags ms :
  allCalls (fun c => negb (isCreateNotification c))
    (postNoteEdited sv user note data silent tags ms).
Proof.
  unfold postNoteEdited, index. cbv zeta. all_calls.
Qed.

Lemma edit_quiet sv user targetId data silent editor :
  allCalls (fun c => negb (isCreateNotification c))
    (edit sv user targetId data silent editor).
Proof.
  unfold allCalls. rewrite edit_cases.
  destruct (resolveEdit sv user targetId data); [reflexivity|]. cbv zeta.
  destruct (notesRepository_update_throws sv _);
    [destruct (isDuplicateKeyValueError sv _); reflexivity|].
  destruct editor; [destruct (negb _);
                    [destruct (usersRepository_findOneBy sv _)|]|];
    reflexivity.
Qed.

Lemma renderNoteOrRenoteActivity_localOnly sv data note userId :
  localOnly data = Some true ->
  renderNoteOrRenoteActivity sv data note userId = None.
Proof. unfold renderNoteOrRenoteActivity. intros ->. reflexivity. Qed.

Lemma outcome_bind_ok {A B} (m : M A) (f : A -> M B) a b :
  outcome m = ok a -> outcome (f a) = ok b -> outcome (bind m f) = ok b.
Proof. intros Hm Hf. rewrite outcome_bind, Hm. exact Hf. Qed.

Lemma outcome_forM_call {A} (xs : list A) g :
  outcome (forM_ xs (fun x => call (g x))) = ok tt.
Proof. apply outcome_forM_. reflexivity. Qed.

Lemma In_forM_call {A} (xs : list A) g x :
  In x xs -> In (g x) (calls (forM_ xs (fun x => call (g x)))).
Proof.
  induction xs as [|y xs IH]; intros Hin; [destruct Hin|].
  cbn [forM_]. destruct Hin as [->|H].
  - apply In_calls_bind_l. left. reflexivity.
  - apply In_calls_bind_r with (a := tt); [reflexivity|]. exact (IH H).
Qed.

(** A unit computation built from calls that does not throw. *)
Ltac no_throw :=
  repeat first
    [ reflexivity
    | apply outcome_whenM_call
    | apply outcome_forM_call
    | apply outcome_forM_; intros ?
    | eapply outcome_bind_ok with (a := tt)
    | match goal with
      | |- outcome (if ?c then _ else _) = _ => destruct c
      | |- outcome (match ?x with _ => _ end) = _ => destruct x
      | |- outcome (whenM ?c _) = _ => destruct c; cbn [whenM]
      end ].

(** The delivery task always creates the deliver manager with whatever
    [renderNoteOrRenoteActivity] returned, registers every remote
    mentioned user, and executes. *)
Lemma deliverActivity_runs sv user note data ms :
  In (apDeliverManagerService_createDeliverManager user
        (renderNoteOrRenoteActivity sv data note (MiUser.id user)))
     (calls (deliverActivity sv user note data ms)) /\
  (forall u, In u ms -> isRemoteUser u = true ->
             In (dm_addDirectRecipe u)
                (calls (deliverActivity sv user note data ms))) /\
  In dm_execute (calls (deliverActivity sv user note data ms)).
Proof.
  unfold deliverActivity. cbv zeta. repeat split.
  - apply In_calls_bind_l. left. reflexivity.
  - intros u Hu Hr.
    apply In_calls_bind_r with (a := tt); [reflexivity|].
    apply In_calls_bind_l.
    apply (In_forM_call (filter isRemoteUser ms) dm_addDirectRecipe).
    apply filter_In. auto.
  - do 6 (apply In_calls_bind_r with (a := tt); [no_throw|]).
    left. reflexivity.
Qed.

(** By the visibility of the note, the delivery task registers the
    followers and hands the activity to the relays. *)
Lemma deliverActivity_audience sv user note data ms :
  (In (MiNote.visibility note) ["public"; "home"; "followers"]%string ->
   In dm_addFollowersRecipe
      (calls (deliverActivity sv user note data ms))) /\
  (MiNote.visibility note = "public"%string ->
   In (relayService_deliverToRelays user
         (renderNoteOrRenoteActivity sv data note (MiUser.id user)))
      (calls (deliverActivity sv user note data ms))).
Proof.
  unfold deliverActivity. cbv zeta. split.
  - intros Hv.
    assert (E : includesStr ["public"; "home"; "followers"]%string
                  (MiNote.visibility note) = true).
    { unfold includesStr. apply existsb_exists.
      exists (MiNote.visibility note). split; [exact Hv|].
      apply String.eqb_refl. }
    do 4 (apply In_calls_bind_r with (a := tt); [no_throw|]).
    apply In_calls_bind_l. rewrite E. left. reflexivity.
  - intros Hv.
    do 5 (apply In_calls_bind_r with (a := tt); [no_throw|]).
    apply In_calls_bind_l. rewrite Hv. left. reflexivity.
Qed.

(** Unless the caller asked for silence or the fan-out stopped on a
    missing visible-user list, a local poster's delivery task runs. *)
Lemma postNoteEdited_delivers sv user note data tags ms c :
  isLocalUser user = true ->
  (visibilityIs "specified" data = true -> visibleUsers data <> None) ->
  In c (calls (deliverActivity sv user note data ms)) ->
  In c (calls (postNoteEdited sv user note data false tags ms)).
Proof.
  intros Hl Hv Hin. unfold postNoteEdited. cbv zeta.
  unfold isRemoteUser. rewrite Hl. cbn [negb whenM].
  do 5 (apply In_calls_bind_r with (a := tt); [no_throw|]).
  apply In_calls_bind_l.
  apply In_calls_bind_r with (a := tt); [reflexivity|].
  apply In_calls_bind_r with (a := tt).
  { destruct (visibilityIs "specified" data).
    - destruct (visibleUsers data); [|exfalso; apply Hv; reflexivity].
      no_throw.
    - no_throw. }
  do 3 (apply In_calls_bind_r with (a := tt); [no_throw|]).
  exact Hin.
Qed.

Lemma postNoteEdited_null sv user note data silent tags ms :
  localOnly data = Some true ->
  allCalls (fun c => isNull (activityOf c))
    (postNoteEdited sv user note data silent tags ms).
Proof.
  intros H. unfold postNoteEdited, index, deliverActivity. cbv zeta.
  rewrite (renderNoteOrRenoteActivity_localOnly sv data note _ H).
  all_calls.
Qed.

End FanoutFacts.

(** ** The supplied tags do not steer the edit *)

Section TagIndependence.

Import NoteEditService Option Js.
Local Open Scope string_scope.

Variable sv : Services.
Variable user : MiUser.t.
Variable h : option (list JsString).

Ltac proj_norm :=
  cbn [set_createdAt set_name set_text set_reply set_renote set_files
       set_poll set_localOnly set_reactionAcceptance set_visibility
       set_visibleUsers set_channel set_apMentions set_apHashtags
       createdAt name text reply renote files poll localOnly
       reactionAcceptance cw visibility visibleUsers channel apMentions
       apHashtags apEmojis uri url app fst snd].

(** Case analysis on the innermost conditions first. *)
Ltac commute :=
  unfold when_, visibilityIs, cwOrText, isQuote; proj_norm;
  repeat (match goal with
          | |- context [match ?x with _ => _ end] =>
              lazymatch x with
              | context [match _ with _ => _ end] => fail
              | _ => destruct x eqn:?
              end
          end; proj_norm);
  try reflexivity.

Lemma resolveReplyChannel_tags tn d :
  resolveReplyChannel sv tn (set_apHashtags h d)
  = set_apHashtags h (resolveReplyChannel sv tn d).
Proof.
  unfold resolveReplyChannel, when_.
  commute.
Qed.

Lemma inheritScalars_tags targetId tn d :
  inheritScalars sv targetId tn (set_apHashtags h d)
  = set_apHashtags h (inheritScalars sv targetId tn d).
Proof. rewrite !inheritScalars_shape. reflexivity. Qed.

Lemma inheritRest_tags tn d :
  inheritRest sv tn (set_apHashtags h d)
  = set_apHashtags h (inheritRest sv tn d).
Proof. rewrite !inheritRest_shape. reflexivity. Qed.

Lemma inheritRelations_tags targetId tn d :
  inheritRelations sv targetId tn (set_apHashtags h d)
  = rmap (set_apHashtags h) (inheritRelations sv targetId tn d).
Proof.
  unfold inheritRelations, findNoteOrFail, orFail, rbind, ok, throw, rmap.
  commute.
Qed.

Lemma applyContentPolicy_tags d :
  applyContentPolicy sv user (set_apHashtags h d)
  = rmap (set_apHashtags h) (applyContentPolicy sv user d).
Proof.
  unfold applyContentPolicy, when_, rmap, ok, throw.
  commute.
Qed.

Lemma applyRenoteVisibility_tags d :
  applyRenoteVisibility user (set_apHashtags h d)
  = rmap (set_apHashtags h) (applyRenoteVisibility user d).
Proof.
  unfold applyRenoteVisibility, when_, rmap, ok, throw.
  commute.
Qed.

Lemma checkBlocking_tags d :
  checkBlocking sv user (set_apHashtags h d) = checkBlocking sv user d.
Proof. reflexivity. Qed.

Lemma applyReplyAndLocality_tags d :
  applyReplyAndLocality (set_apHashtags h d)
  = set_apHashtags h (applyReplyAndLocality d).
Proof.
  unfold applyReplyAndLocality, when_.
  commute.
Qed.

Lemma normalizeText_tags d :
  normalizeText sv (set_apHashtags h d)
  = set_apHashtags h (normalizeText sv d).
Proof.
  unfold normalizeText.
  destruct d as [? ? tx ? ? ? ? ? ? ? ? ? ? ? ? ? ? ? ?].
  destruct tx as [[|u t]|]; reflexivity.
Qed.

Lemma analyze_tags d :
  snd (fst (analyze sv user (set_apHashtags h d)))
  = snd (fst (analyze sv user d)) /\
  snd (analyze sv user (set_apHashtags h d)) = snd (analyze sv user d).
Proof.
  unfold analyze.
  destruct d as [? ? ? ? ? ? ? ? ? ? ? ? ? am ah ae ? ? ?]. cbn.
  destruct h, am, ah, ae; split; reflexivity.
Qed.

Lemma analyze_supplied_tags d ts :
  apHashtags d = Some ts -> fst (fst (analyze sv user d)) = ts.
Proof.
  unfold analyze. intros ->.
  destruct (apEmojis d), (apMentions d); reflexivity.
Qed.

Lemma addReplyAuthor_tags d ms :
  addReplyAuthor sv user (set_apHashtags h d) ms
  = addReplyAuthor sv user d ms.
Proof. reflexivity. Qed.

Lemma foldVisibleUsers_tags d ms :
  foldVisibleUsers sv (set_apHashtags h d) ms
  = rmap (fun p => (set_apHashtags h (fst p), snd p))
      (foldVisibleUsers sv d ms).
Proof.
  unfold foldVisibleUsers, findUserOrFail, orFail, rbind, ok, throw, rmap.
  commute.
Qed.

End TagIndependence.

Section TagIndependenceOfEdit.

Import NoteEditService Option Js.

(** Whether [edit] gets as far as the store update does not depend on the
    tags the caller supplies, and any supplied list is stored capped. *)
Lemma resolveEdit_tags sv user ts targetId data :
  match resolveEdit sv user targetId data with
  | inl e =>
      resolveEdit sv user targetId (set_apHashtags (Some ts) data) = inl e
  | inr _ =>
      exists r',
        resolveEdit sv user targetId (set_apHashtags (Some ts) data) = inr r'
        /\ MiNote.tags (res_note r')
           = map (normalizeForSearch sv) (capTags ts)
  end.
Proof.
  unfold resolveEdit.
  destruct (findNoteOrFail sv targetId) as [e|tn]; [reflexivity|].
  cbn [rbind].
  rewrite resolveReplyChannel_tags.
  unfold inheritFromTarget.
  rewrite inheritScalars_tags, inheritRelations_tags.
  destruct (inheritRelations sv targetId tn _) as [e|dr]; [reflexivity|].
  cbn [rmap rbind ok]. rewrite inheritRest_tags, applyContentPolicy_tags.
  destruct (applyContentPolicy sv user _) as [e|d1]; [reflexivity|].
  cbn [rmap rbind]. rewrite applyRenoteVisibility_tags.
  destruct (applyRenoteVisibility user d1) as [e|d2]; [reflexivity|].
  cbn [rmap rbind]. rewrite checkBlocking_tags.
  destruct (checkBlocking sv user d2) as [e|[]]; [reflexivity|].
  cbn [rbind]. cbv zeta.
  rewrite applyReplyAndLocality_tags, normalizeText_tags.
  set (d3 := normalizeText sv (applyReplyAndLocality d2)).
  destruct (analyze_tags sv user (Some ts) d3) as [Ee Em].
  pose proof (@analyze_supplied_tags sv user
                (set_apHashtags (Some ts) d3) ts eq_refl) as Et.
  destruct (analyze sv user (set_apHashtags (Some ts) d3))
    as [[tags' emojis'] ms'].
  destruct (analyze sv user d3) as [[tags emojis] ms].
  cbn in Ee, Em, Et. subst tags' emojis' ms'.
  rewrite addReplyAuthor_tags.
  destruct (addReplyAuthor sv user d3 ms) as [e|ms1]; [reflexivity|].
  cbn [rbind]. rewrite foldVisibleUsers_tags.
  destruct (foldVisibleUsers sv d3 ms1) as [e|[d4 ms2]]; [reflexivity|].
  cbn [rmap rbind fst snd]. eexists. split; reflexivity.
Qed.

End TagIndependenceOfEdit.

(** ** Tags: order, cap and normalisation *)

Section SubseqFacts.
Context {A : Type}.

Lemma Subseq_nil_l (l : list A) : Subseq [] l.
Proof. induction l; constructor; assumption. Qed.

Lemma Subseq_trans (a b c : list A) : Subseq a b -> Subseq b c -> Subseq a c.
Proof.
  intros Hab Hbc. revert a Hab.
  induction Hbc as [|x b c Hbc IH|x b c Hbc IH]; intros a Hab.
  - exact Hab.
  - inversion Hab; subst; constructor; auto.
  - constructor. auto.
Qed.

Lemma Subseq_filter (p : A -> bool) (l : list A) : Subseq (filter p l) l.
Proof.
  induction l as [|x l IH]; simpl; [constructor|].
  destruct (p x); constructor; exact IH.
Qed.

Lemma Subseq_firstn (k : nat) (l : list A) : Subseq (firstn k l) l.
Proof.
  revert l. induction k as [|k IH]; intros l; simpl.
  - apply Subseq_nil_l.
  - destruct l; constructor. apply IH.
Qed.

End SubseqFacts.

Section CapTagsFacts.
Import NoteEditService Js.

Lemma capTags_length tags : List.length (capTags tags) <= 32.
Proof. unfold capTags. apply firstn_le_length. Qed.

Lemma capTags_Subseq tags : Subseq (capTags tags) tags.
Proof.
  unfold capTags.
  eapply Subseq_trans; [apply Subseq_firstn | apply Subseq_filter].
Qed.

Lemma firstn_In {A} (k : nat) (l : list A) x : In x (firstn k l) -> In x l.
Proof.
  revert l. induction k as [|k IH]; intros l; simpl; [tauto|].
  destruct l; simpl; [tauto|]. intros [H|H]; auto.
Qed.

Lemma capTags_codePoints tags t :
  In t (capTags tags) -> codePointLength t <= 128.
Proof.
  unfold capTags. intros H. apply firstn_In in H.
  apply filter_In in H as [_ H]. apply Nat.leb_le in H. exact H.
Qed.

(** The whole of the list is kept when nothing in it is oversize. *)
Lemma capTags_fits tags :
  List.length tags <= 32 ->
  (forall t, In t tags -> codePointLength t <= 128) ->
  capTags tags = tags.
Proof.
  intros Hl Ht. unfold capTags.
  assert (E : filter (fun tag => List.length (Array_from tag) <=? 128) tags
              = tags).
  { clear Hl. induction tags as [|x l IH]; simpl; [reflexivity|].
    assert (Hx : (List.length (Array_from x) <=? 128) = true)
      by (apply Nat.leb_le; apply Ht; left; reflexivity).
    rewrite Hx. f_equal. apply IH. intros t H. apply Ht. right. exact H. }
  rewrite E. apply firstn_all2. exact Hl.
Qed.

End CapTagsFacts.

(** ** edit: what each block of lines throws *)

Section PhaseFailures.
Import NoteEditService Option Js.
Local Open Scope string_scope.
Local Open Scope list_scope.

Variable sv : Services.
Variable user : MiUser.t.

Lemma rbind_inl {A B} (m : Result A) (f : A -> Result B) e :
  rbind m f = inl e -> m = inl e \/ exists a, m = inr a /\ f a = inl e.
Proof.
  destruct m as [e'|a]; cbn; intros H; [left; congruence|eauto].
Qed.

Lemma inheritFromTarget_fail targetId tn d e :
  inheritFromTarget sv targetId tn d = inl e ->
  exists entity key, e = EntityNotFoundError entity key.
Proof.
  unfold inheritFromTarget, inheritRelations, findNoteOrFail, orFail, throw.
  intros H.
  repeat match type of H with
         | rbind _ _ = inl _ =>
             apply rbind_inl in H as [H|(? & ? & H)]
         | ok _ = inl _ => discriminate H
         | inl _ = inl _ => injection H as <-; eauto
         | match ?x with _ => _ end = inl _ => destruct x
         end.
Qed.

Lemma applyContentPolicy_fail d e :
  applyContentPolicy sv user d = inl e -> e = ContainsProhibitedWordsError.
Proof.
  unfold applyContentPolicy. cbv zeta.
  destruct (utilityService_isKeyWordIncluded sv _
              (MiMeta.prohibitedWords (metaService_fetch sv)));
    [intros [= <-]; reflexivity|discriminate].
Qed.

Lemma applyRenoteVisibility_fail d e :
  applyRenoteVisibility user d = inl e ->
  e = newError "Renote target is not public or home".
Proof.
  unfold applyRenoteVisibility, throw. intros H.
  repeat match type of H with
         | ok _ = inl _ => discriminate H
         | inl _ = inl _ => injection H as <-; reflexivity
         | match ?x with _ => _ end = inl _ => destruct x
         | (let _ := _ in _) = inl _ => cbv zeta in H
         end.
Qed.

(** Lines 323-333: who is refused as blocked. *)
Lemma checkBlocking_fail d e :
  checkBlocking sv user d = inl e ->
  e = newError "blocked" /\
  exists rn,
    renote d = Some rn /\ isQuote d = false /\
    MiNote.userHost rn = None /\
    MiNote.userId rn <> MiUser.id user /\
    userBlockingService_checkBlocked sv (MiNote.userId rn) (MiUser.id user)
    = true.
Proof.
  unfold checkBlocking. intros H.
  destruct (renote d) as [rn|] eqn:Ern; [|discriminate H].
  destruct (isQuote d); cbn [negb] in H; [discriminate H|].
  destruct (MiNote.userHost rn) eqn:Eh; cbn [isNull] in H; [discriminate H|].
  destruct (MiNote.userId rn =? MiUser.id user) eqn:Eu; cbn [negb] in H;
    [discriminate H|].
  destruct (userBlockingService_checkBlocked sv _ _) eqn:Eb;
    [|discriminate H].
  injection H as <-. split; [reflexivity|]. exists rn.
  apply String.eqb_neq in Eu. repeat split; assumption || reflexivity.
Qed.

Lemma addReplyAuthor_fail d ms e :
  addReplyAuthor sv user d ms = inl e ->
  exists key, e = EntityNotFoundError "MiUser" key.
Proof.
  unfold addReplyAuthor, findUserOrFail, orFail, throw. intros H.
  repeat match type of H with
         | rbind _ _ = inl _ =>
             apply rbind_inl in H as [H|(? & ? & H)]
         | ok _ = inl _ => discriminate H
         | inl _ = inl _ => injection H as <-; eauto
         | match ?x with _ => _ end = inl _ => destruct x
         end.
Qed.

Lemma foldVisibleUsers_fail d ms e :
  visibleUsers d <> None ->
  foldVisibleUsers sv d ms = inl e ->
  exists key, e = EntityNotFoundError "MiUser" key.
Proof.
  unfold foldVisibleUsers, findUserOrFail, orFail, throw. intros Hv H.
  destruct (visibilityIs "specified" d); [|discriminate H].
  destruct (visibleUsers d) as [vus|]; [|congruence].
  repeat match type of H with
         | rbind _ _ = inl _ =>
             apply rbind_inl in H as [H|(? & ? & H)]
         | ok _ = inl _ => discriminate H
         | inl _ = inl _ => injection H as <-; eauto
         | match ?x with _ => _ end = inl _ => destruct x
         | (let _ := _ in _) = inl _ => cbv zeta in H
         end.
Qed.

(** Past the renote rule of lines 297-321, [resolveEdit] fails only as
    blocked or for a missing user row. *)
Lemma resolveEdit_past_renote_rule targetId data tn d0 d1 d2 :
  notesRepository_findOneBy sv targetId = Some tn ->
  inheritFromTarget sv targetId tn (resolveReplyChannel sv tn data)
  = inr d0 ->
  applyContentPolicy sv user d0 = inr d1 ->
  applyRenoteVisibility user d1 = inr d2 ->
  (exists r, resolveEdit sv user targetId data = inr r) \/
  (exists e,
     resolveEdit sv user targetId data = inl e /\
     ((e = newError "blocked" /\ checkBlocking sv user d2 = inl e) \/
      exists key, e = EntityNotFoundError "MiUser" key)).
Proof.
  intros Htn Hd0 Hd1 Hd2. unfold resolveEdit, findNoteOrFail.
  rewrite Htn. cbn [orFail rbind ok]. rewrite Hd0. cbn [rbind].
  rewrite Hd1. cbn [rbind]. rewrite Hd2. cbn [rbind].
  destruct (checkBlocking sv user d2) as [e|[]] eqn:Hb; cbn [rbind].
  { right. exists e. split; [reflexivity|]. left.
    split; [exact (proj1 (checkBlocking_fail _ Hb)) | reflexivity]. }
  cbv zeta.
  destruct (analyze sv user (normalizeText sv (applyReplyAndLocality d2)))
    as [[tags emojis] ms].
  destruct (addReplyAuthor sv user _ ms) as [e|ms1] eqn:Ha; cbn [rbind].
  { right. exists e. split; [reflexivity|]. right.
    exact (addReplyAuthor_fail _ _ Ha). }
  destruct (foldVisibleUsers sv _ ms1) as [e|[d4 ms2]] eqn:Hf; cbn [rbind].
  - right. exists e. split; [reflexivity|]. right.
    apply foldVisibleUsers_fail in Hf; [exact Hf|].
    rewrite normalizeText_shape, applyReplyAndLocality_shape.
    apply applyContentPolicy_shape in Hd1 as (v1 & -> & _).
    apply applyRenoteVisibility_shape in Hd2 as (v2 & -> & _).
    cbn [set_createdAt set_name set_text set_reply set_renote set_files
         set_poll set_localOnly set_reactionAcceptance set_visibility
         set_visibleUsers set_channel set_apMentions set_apHashtags
         createdAt name text reply renote files poll localOnly
         reactionAcceptance cw visibility visibleUsers channel apMentions
         apHashtags apEmojis uri url app fst snd].
    destruct (inheritFromTarget_ok _ _ _ _ Hd0)
      as (_ & _ & _ & _ & _ & _ & ->).
    unfold inherited.
    destruct (notNull _); [discriminate|].
    destruct (visibleUsers _); discriminate.
  - left. eexists. reflexivity.
Qed.

End PhaseFailures.

(* ===================================================================== *)
(** * Specification statements *)
(* ===================================================================== *)

(** Closed statements about the sample instance are settled by
    evaluation, one conjunct at a time. *)
Ltac conjuncts :=
  repeat match goal with |- _ /\ _ => split end.

Ltac evaluate := vm_compute; first [reflexivity | discriminate].

Section NotificationManagerClaims.

Import NotificationManager.
Local Open Scope string_scope.

(** C5 (amended). After any sequence of [push] calls on a fresh manager,
    the queue holds no entry for the notifier and, for every other
    target, exactly one entry when a reason was pushed for it and none
    otherwise. The stored reason is the last pushed reason that is not
    'mention', or 'mention' when only mentions arrived: 'mention' then
    'reply' and 'reply' then 'mention' both end as 'reply'. *)
Theorem push_leaves_last_non_mention_reason :
  forall notifier0 note0 ps t,
    entriesFor t (pushAll (new notifier0 note0) ps)
    = (if (notifier0 =? t) then []
       else match storedReason (reasonsFor t ps) with
            | Some r => [ {| target := t; reason := r |} ]
            | None => []
            end) /\
    List.length (entriesFor t (pushAll (new notifier0 note0) ps))
    = (if (notifier0 =? t) then 0
       else match reasonsFor t ps with [] => 0 | _ :: _ => 1 end) /\
    storedReason [mention; reply] = Some reply /\
    storedReason [reply; mention] = Some reply.
Proof.
  intros notifier0 note0 ps t.
  rewrite entriesFor_pushAll, merge_fold_storedReason.
  split; [reflexivity|]. split; [|split; reflexivity].
  destruct (notifier0 =? t); [reflexivity|].
  unfold storedReason.
  destruct (reasonsFor t ps) as [|r rs]; [reflexivity|].
  destruct (find _ (rev (r :: rs))); reflexivity.
Qed.

(** C5, counterexample: 'reply' followed by 'renote' for the same target
    leaves 'renote', not the first-seen 'reply'. *)
Lemma push_does_not_keep_first_reason :
  ~ (forall r1 r2,
        (r1, r2) <> (mention, reply) ->
        map reason
          (queue (pushAll (new "alice" Sample.target)
                    [("bob", r1); ("bob", r2)]))
        = [r1]).
Proof.
  intros H. specialize (H reply renote). cbn in H.
  assert (E : [renote] = [reply]) by (apply H; discriminate).
  discriminate E.
Qed.

End NotificationManagerClaims.

Section EditClaims.

Import NoteEditService Option Js.
Local Open Scope string_scope.

(** C1 (amended). When the target note and the rows inherited from it are
    found, and the string [cw ?? text ?? ''] (the content warning if one
    is given, else the body text) contains a prohibited keyword, [edit]
    throws [ContainsProhibitedWordsError] and has made no call at all, so
    no store update, whatever the visibility and channel inputs. *)
Theorem prohibited_word_rejected_before_update :
  forall sv user targetId data silent editor tn d0,
    notesRepository_findOneBy sv targetId = Some tn ->
    inheritFromTarget sv targetId tn (resolveReplyChannel sv tn data)
      = inr d0 ->
    utilityService_isKeyWordIncluded sv (cwOrText data)
      (MiMeta.prohibitedWords (metaService_fetch sv)) = true ->
    edit sv user targetId data silent editor
    = ([], inl ContainsProhibitedWordsError).
Proof.
  intros sv user targetId data silent editor tn d0 Htn Hd0 Hw.
  rewrite edit_cases.
  assert (E : resolveEdit sv user targetId data
              = inl ContainsProhibitedWordsError).
  { unfold resolveEdit, findNoteOrFail. rewrite Htn. cbn [orFail rbind ok].
    rewrite Hd0. cbn [rbind].
    rewrite (@applyContentPolicy_prohibited sv user d0); [reflexivity|].
    apply inheritFromTarget_ok in Hd0 as (Ecw & Etext & _).
    unfold cwOrText in *. rewrite Ecw, Etext.
    exact (eq_trans
             (f_equal (fun x => utilityService_isKeyWordIncluded sv x _)
                (@cwOrText_resolveReplyChannel sv tn data)) Hw). }
  rewrite E. reflexivity.
Qed.

Lemma prohibited_word_rejected_before_update_witness :
  edit Sample.services Sample.alice "n1" Sample.prohibited false None
  = ([], inl ContainsProhibitedWordsError).
Proof.
  apply (@prohibited_word_rejected_before_update Sample.services
           Sample.alice "n1" Sample.prohibited false None Sample.target
           (Sample.inheritedOf Sample.prohibited)).
  - vm_compute. reflexivity.
  - vm_compute. reflexivity.
  - vm_compute. reflexivity.
Defined.

(** C1, counterexample: a body text with a prohibited keyword behind a
    harmless content warning is stored; and with a missing target note
    the error is the store's not-found error. *)
Lemma prohibited_word_behind_cw_is_stored :
  utilityService_isKeyWordIncluded Sample.services
    (lit "this is forbidden")
    (MiMeta.prohibitedWords (metaService_fetch Sample.services)) = true /\
  text Sample.maskedProhibited = Some (lit "this is forbidden") /\
  existsb isStoreUpdate (calls (Sample.run Sample.maskedProhibited)) = true /\
  (exists n, outcome (Sample.run Sample.maskedProhibited) = ok n) /\
  edit Sample.services Sample.alice "nx" Sample.prohibited false None
  = ([], inl (EntityNotFoundError "MiNote" "nx")).
Proof.
  conjuncts; try evaluate.
  eexists. vm_compute. reflexivity.
Qed.

(** C2 (amended). When the resolved channel is non-null, the record
    passed to the store update has [localOnly] true, an empty visible-user
    list and a visibility among 'public', 'home' and 'followers'; it is
    'public' unless a later step narrows it: the poster is a remote user
    of a silenced host, the renote target is not public, or the reply
    target is not public. *)
Theorem channel_edit_is_local_without_visible_users :
  forall sv user targetId data silent editor id n r,
    In (notesRepository_update id n)
       (calls (edit sv user targetId data silent editor)) ->
    resolveEdit sv user targetId data = inr r ->
    MiNote.channelId n <> None ->
    MiNote.localOnly n = true /\
    MiNote.visibleUserIds n = [] /\
    In (MiNote.visibility n) ["public"; "home"; "followers"] /\
    (utilityService_isSilencedHost sv
       (MiMeta.silencedHosts (metaService_fetch sv)) (MiUser.host user)
     && notNull (MiUser.host user) = false ->
     (forall rn, renote (res_data r) = Some rn ->
                 MiNote.visibility rn = "public") ->
     (forall rp, reply (res_data r) = Some rp ->
                 MiNote.visibility rp = "public") ->
     MiNote.visibility n = "public").
Proof.
  intros sv user targetId data silent editor id n r Hin Hr Hch.
  apply edit_update_inv in Hin as (r' & Hr' & ->).
  rewrite Hr in Hr'. injection Hr' as <-.
  apply resolveEdit_fields in Hr
    as (tn & d0 & d1 & d2 & d4 & _ & Hd0 & Hd1 & Hd2 & H).
  cbv zeta in H.
  destruct H as ((ms1 & ms2 & Hf) & _ & Ev & El & Ec & Erp & Ern & Evu
                 & Ev3 & _ & _ & Hn).
  rewrite Hn in *. cbn in Hch |- *.
  rewrite Ec in Hch.
  assert (Hc0 : channel d0 <> None)
    by (destruct (channel d0);
        [discriminate | exfalso; apply Hch; reflexivity]).
  apply inheritFromTarget_ok in Hd0 as (_ & _ & Ech & _ & Ev0 & El0 & _).
  rewrite <- Ech in Ev0, El0.
  destruct (channel d0) eqn:Ec0; [|contradiction]. cbn in Ev0, El0.
  (* visibility *)
  assert (Hvis : visibility (res_data r) = Some "public" \/
                 visibility (res_data r) = Some "home" \/
                 visibility (res_data r) = Some "followers").
  { rewrite Ev.
    destruct (@visibility_narrowing sv user d0 d1 d2 Hd1 Hd2) as [E|E];
      [rewrite E, Ev0; auto | auto]. }
  assert (Hns : visibilityIs "specified" (res_data r) = false).
  { apply visibilityIs_false.
    destruct Hvis as [E|[E|E]]; rewrite E; discriminate. }
  rewrite Hns.
  (* locality *)
  assert (Hl : localOnly (res_data r) = Some true).
  { rewrite El.
    destruct (applyReplyAndLocality_localOnly d2) as [E|E]; [|exact E].
    rewrite E.
    apply applyContentPolicy_shape in Hd1 as (v1 & -> & _).
    apply applyRenoteVisibility_shape in Hd2 as (v2 & -> & _).
    exact El0. }
  rewrite Hl.
  split; [reflexivity|]. split; [reflexivity|]. split.
  - destruct Hvis as [E|[E|E]]; rewrite E; cbn; auto.
  - intros Hs Hrn Hrp.
    rewrite Ern in Hrn. rewrite Erp in Hrp.
    apply applyContentPolicy_channel in Hd1; [|rewrite Ec0; discriminate].
    rewrite <- andb_assoc, Hs, andb_false_r in Hd1. cbn in Hd1. subst d1.
    rewrite applyRenoteVisibility_public in Hd2 by exact Hrn.
    injection Hd2 as <-.
    rewrite Ev, applyReplyAndLocality_public_reply by exact Hrp.
    rewrite Ev0. reflexivity.
Qed.

Lemma channel_edit_is_local_without_visible_users_witness :
  MiNote.localOnly (Sample.stored Sample.channelOnly) = true /\
  MiNote.visibleUserIds (Sample.stored Sample.channelOnly) = [] /\
  MiNote.visibility (Sample.stored Sample.channelOnly) = "public".
Proof.
  destruct (@channel_edit_is_local_without_visible_users Sample.services
              Sample.alice "n1" Sample.channelOnly false None "n1"
              (Sample.stored Sample.channelOnly)
              (Sample.resolvedOf Sample.channelOnly))
    as (Hl & Hvu & _ & Hpub).
  - vm_compute. left. reflexivity.
  - vm_compute. reflexivity.
  - vm_compute. discriminate.
  - split; [exact Hl|]. split; [exact Hvu|]. apply Hpub.
    + vm_compute. reflexivity.
    + vm_compute. intros rn E. discriminate E.
    + vm_compute. intros rp E. discriminate E.
Defined.

(** C2, counterexample: a channel post that renotes a home note is stored
    with visibility 'home'. *)
Lemma channel_renote_of_home_is_home :
  map (fun n => (MiNote.channelId n, MiNote.visibility n))
    (Sample.storedNotes (calls (Sample.run Sample.channelRenoteHome)))
  = [(Some "c1", "home")].
Proof. vm_compute. reflexivity. Qed.

(** C3 (amended). Neither [edit] nor the deferred fan-out it schedules
    makes a call to the notification sink: [postNoteEdited] does not use
    [NotificationManager], so an edit notifies no reply, renote, quote or
    mention target. *)
Theorem fanout_creates_no_notification :
  forall sv user targetId data silent editor,
    allCalls (fun c => negb (isCreateNotification c))
      (edit sv user targetId data silent editor) /\
    forall job aborted reloaded,
      allCalls (fun c => negb (isCreateNotification c))
        (postUpdated sv job aborted reloaded).
Proof.
  intros. split; [apply edit_quiet|].
  intros job aborted reloaded. unfold postUpdated.
  destruct aborted; [reflexivity|].
  apply allCalls_bind; [reflexivity|]. intros note.
  apply postNoteEdited_quiet.
Qed.

(** C3, counterexample: an edit that replies to bob's note mentions bob,
    is stored and schedules its fan-out, and the fan-out runs without a
    notification for bob or anybody else. *)
Lemma reply_author_is_not_notified :
  MiNote.userId Sample.bobPublic <> MiUser.id Sample.alice /\
  map (fun job => map MiUser.id (PostUpdated.mentionedUsers job))
    (Sample.scheduled (calls (Sample.run Sample.replyToBob)))
  = [["bob"]] /\
  existsb isStoreUpdate (calls (Sample.run Sample.replyToBob)) = true /\
  Sample.fanout Sample.replyToBob <> [] /\
  existsb isCreateNotification (Sample.fanout Sample.replyToBob) = false.
Proof. conjuncts; evaluate. Qed.

Lemma edit_calls_update sv user targetId data silent editor r :
  resolveEdit sv user targetId data = inr r ->
  In (notesRepository_update (MiNote.id (res_note r)) (res_note r))
     (calls (edit sv user targetId data silent editor)).
Proof.
  intros Hr. rewrite edit_cases, Hr. cbv zeta.
  destruct (notesRepository_update_throws sv _);
    [destruct (isDuplicateKeyValueError sv _); left; reflexivity|].
  destruct editor; [destruct (negb _);
                    [destruct (usersRepository_findOneBy sv _)|]|];
    left; reflexivity.
Qed.

Lemma resolveEdit_rejected sv user targetId data tn d0 d1 e :
  notesRepository_findOneBy sv targetId = Some tn ->
  inheritFromTarget sv targetId tn (resolveReplyChannel sv tn data)
    = inr d0 ->
  applyContentPolicy sv user d0 = inr d1 ->
  applyRenoteVisibility user d1 = inl e ->
  resolveEdit sv user targetId data = inl e.
Proof.
  intros Htn Hd0 Hd1 Hd2. unfold resolveEdit, findNoteOrFail.
  rewrite Htn. cbn [orFail rbind ok]. rewrite Hd0. cbn [rbind].
  rewrite Hd1. cbn [rbind]. rewrite Hd2. reflexivity.
Qed.

Lemma applyRenoteVisibility_rejects user d rn :
  renote d = Some rn ->
  MiNote.visibility rn = "specified" \/
  (MiNote.visibility rn = "followers" /\ MiNote.userId rn <> MiUser.id user) ->
  applyRenoteVisibility user d
  = inl (newError "Renote target is not public or home").
Proof.
  unfold applyRenoteVisibility. intros -> [Hv|[Hv Hu]]; rewrite Hv; cbn.
  - reflexivity.
  - apply String.eqb_neq in Hu. rewrite Hu. reflexivity.
Qed.

(** C4. With a renote target: a 'specified' target, and a 'followers'
    target of another author, make [edit] fail without any call (with the
    renote error, unless the content policy already rejected the edit); a
    'public' target leaves the visibility as the later reply rule decides;
    a 'home' target turns 'public' into 'home' and keeps anything else; a
    stored result with a 'followers' target means the target's author is
    the acting user, and its visibility is 'followers'. A 'public' or
    'home' target, and a 'followers' target of the acting user, pass the
    renote rule: the edit reaches the store update, unless a later block
    throws, without any call, Error('blocked') (never for a target of the
    acting user) or an EntityNotFoundError for a user row. *)
Theorem renote_target_visibility_rules :
  forall sv user targetId data silent editor tn d0 rn,
    notesRepository_findOneBy sv targetId = Some tn ->
    inheritFromTarget sv targetId tn (resolveReplyChannel sv tn data)
      = inr d0 ->
    renote d0 = Some rn ->
    (* rejected targets *)
    (MiNote.visibility rn = "specified" \/
     (MiNote.visibility rn = "followers" /\
      MiNote.userId rn <> MiUser.id user) ->
     calls (edit sv user targetId data silent editor) = [] /\
     exists e, outcome (edit sv user targetId data silent editor) = inl e /\
       (e = newError "Renote target is not public or home" \/
        applyContentPolicy sv user d0 = inl e)) /\
    (* accepted targets: the visibility of the stored record *)
    (forall d1 id n,
       applyContentPolicy sv user d0 = inr d1 ->
       In (notesRepository_update id n)
          (calls (edit sv user targetId data silent editor)) ->
       (MiNote.visibility rn = "public" ->
        MiNote.visibility n = visibilityOf (applyReplyAndLocality d1)) /\
       (MiNote.visibility rn = "home" ->
        MiNote.visibility n
        = if visibilityIs "public" d1 then "home" else visibilityOf d1) /\
       (MiNote.visibility rn = "followers" ->
        MiNote.userId rn = MiUser.id user /\
        MiNote.visibility n = "followers")) /\
    (* accepted targets are let through *)
    (forall d1,
       applyContentPolicy sv user d0 = inr d1 ->
       MiNote.visibility rn = "public" \/
       MiNote.visibility rn = "home" \/
       (MiNote.visibility rn = "followers" /\
        MiNote.userId rn = MiUser.id user) ->
       (exists d2, applyRenoteVisibility user d1 = inr d2) /\
       ((exists n,
           In (notesRepository_update (MiNote.id n) n)
              (calls (edit sv user targetId data silent editor))) \/
        (calls (edit sv user targetId data silent editor) = [] /\
         exists e,
           outcome (edit sv user targetId data silent editor) = inl e /\
           ((e = newError "blocked" /\
             MiNote.userId rn <> MiUser.id user) \/
            exists key, e = EntityNotFoundError "MiUser" key)))).
Proof.
  intros sv user targetId data silent editor tn d0 rn Htn Hd0 Hrn.
  split; [|split].
  - intros Hrej. rewrite edit_cases.
    destruct (applyContentPolicy sv user d0) as [e|d1] eqn:Hd1.
    + assert (E : resolveEdit sv user targetId data = inl e).
      { unfold resolveEdit, findNoteOrFail.
        rewrite Htn. cbn [orFail rbind ok]. rewrite Hd0. cbn [rbind].
        rewrite Hd1. reflexivity. }
      rewrite E. split; [reflexivity|]. exists e. auto.
    + assert (Hrn1 : renote d1 = Some rn).
      { apply applyContentPolicy_shape in Hd1 as (v & -> & _). exact Hrn. }
      rewrite (@resolveEdit_rejected sv user targetId data tn d0 d1 _
                 Htn Hd0 Hd1
                 (@applyRenoteVisibility_rejects user d1 rn Hrn1 Hrej)).
      split; [reflexivity|]. eexists. split; [reflexivity|]. auto.
  - intros d1 id n Hd1 Hin.
    assert (Hrn1 : renote d1 = Some rn).
    { pose proof Hd1 as Hs.
      apply applyContentPolicy_shape in Hs as (v & -> & _). exact Hrn. }
    apply edit_update_inv in Hin as (r & Hr & ->).
    apply resolveEdit_fields in Hr
      as (tn' & d0' & d1' & d2 & d4 & Htn' & Hd0' & Hd1' & Hd2 & H).
    rewrite Htn in Htn'. injection Htn' as <-.
    rewrite Hd0 in Hd0'. injection Hd0' as <-.
    rewrite Hd1 in Hd1'. injection Hd1' as <-.
    cbv zeta in H.
    destruct H as (_ & _ & Ev & _ & _ & _ & _ & _ & _ & _ & _ & Hn).
    rewrite Hn. cbn [newNote MiNote.visibility]. rewrite Ev.
    fold (visibilityOf (applyReplyAndLocality d2)).
    unfold applyRenoteVisibility in Hd2. rewrite Hrn1 in Hd2. cbv zeta in Hd2.
    split; [|split; [|intros Hv0; split; revert Hv0]].
    + intros Hv. rewrite Hv in Hd2. cbn in Hd2. injection Hd2 as <-.
      reflexivity.
    + intros Hv. rewrite Hv in Hd2. cbn in Hd2. injection Hd2 as <-.
      unfold visibilityOf, when_.
      destruct (visibilityIs "public" d1) eqn:Ep.
      * destruct (applyReplyAndLocality_visibility
                    (set_visibility (Some "home") d1)) as [E|[E _]];
          [rewrite E; reflexivity | discriminate E].
      * destruct (applyReplyAndLocality_visibility d1) as [E|[E _]];
          [rewrite E; reflexivity|].
        apply visibilityIs_false in Ep. contradiction.
    + intros Hv. rewrite Hv in Hd2. cbn in Hd2.
      destruct (MiNote.userId rn =? MiUser.id user) eqn:Eu;
        [apply String.eqb_eq in Eu; exact Eu | discriminate].
    + intros Hv. rewrite Hv in Hd2. cbn in Hd2.
      destruct (negb (MiNote.userId rn =? MiUser.id user));
        [discriminate|]. injection Hd2 as <-.
      unfold visibilityOf.
      destruct (applyReplyAndLocality_visibility
                  (set_visibility (Some "followers") d1)) as [E|[E _]];
        [rewrite E; reflexivity | discriminate E].
  - intros d1 Hd1 Hacc.
    assert (Hrn1 : renote d1 = Some rn).
    { pose proof Hd1 as Hs.
      apply applyContentPolicy_shape in Hs as (v & -> & _). exact Hrn. }
    assert (Hd2 : exists d2, applyRenoteVisibility user d1 = inr d2).
    { unfold applyRenoteVisibility. rewrite Hrn1. cbv zeta.
      destruct Hacc as [Hv|[Hv|[Hv Hu]]]; rewrite Hv; cbn.
      - eexists. reflexivity.
      - eexists. reflexivity.
      - apply String.eqb_eq in Hu. rewrite Hu. cbn. eexists. reflexivity. }
    split; [exact Hd2|]. destruct Hd2 as (d2 & Hd2).
    destruct (@resolveEdit_past_renote_rule sv user targetId data tn d0 d1 d2
                Htn Hd0 Hd1 Hd2) as [(r & Hr)|(e & He & Hwhy)].
    + left. exists (res_note r). apply edit_calls_update. exact Hr.
    + right. rewrite edit_cases, He. split; [reflexivity|].
      exists e. split; [reflexivity|].
      destruct Hwhy as [[Hb Hc]|Hk]; [left|right; exact Hk].
      split; [exact Hb|].
      apply checkBlocking_fail in Hc
        as (_ & rn' & Hrn' & _ & _ & Hne & _).
      apply applyRenoteVisibility_shape in Hd2 as (v2 & -> & _).
      cbn in Hrn'. rewrite Hrn1 in Hrn'. injection Hrn' as <-. exact Hne.
Qed.

Lemma renote_target_visibility_rules_witness :
  MiNote.visibility (Sample.stored (Sample.renoteOf Sample.bobHome)) = "home"
  /\ calls (Sample.run (Sample.renoteOf Sample.bobSpecified)) = []
  /\ calls (Sample.run (Sample.renoteOf Sample.bobFollowers)) = []
  /\ exists n,
       In (notesRepository_update (MiNote.id n) n)
          (calls (Sample.run (Sample.renoteOf Sample.aliceFollowers))) /\
       MiNote.visibility n = "followers".
Proof.
  split; [|split; [|split]].
  - destruct (@renote_target_visibility_rules Sample.services Sample.alice
                "n1" (Sample.renoteOf Sample.bobHome) false None
                Sample.target
                (Sample.inheritedOf (Sample.renoteOf Sample.bobHome))
                Sample.bobHome)
      as (_ & Hacc & _).
    + vm_compute. reflexivity.
    + vm_compute. reflexivity.
    + vm_compute. reflexivity.
    + destruct (Hacc (Sample.policedOf (Sample.renoteOf Sample.bobHome))
                  "n1" (Sample.stored (Sample.renoteOf Sample.bobHome)))
        as (_ & Hhome & _).
      * vm_compute. reflexivity.
      * vm_compute. left. reflexivity.
      * rewrite Hhome; vm_compute; reflexivity.
  - destruct (@renote_target_visibility_rules Sample.services Sample.alice
                "n1" (Sample.renoteOf Sample.bobSpecified) false None
                Sample.target
                (Sample.inheritedOf (Sample.renoteOf Sample.bobSpecified))
                Sample.bobSpecified)
      as (Hrej & _).
    + vm_compute. reflexivity.
    + vm_compute. reflexivity.
    + vm_compute. reflexivity.
    + apply Hrej. left. vm_compute. reflexivity.
  - destruct (@renote_target_visibility_rules Sample.services Sample.alice
                "n1" (Sample.renoteOf Sample.bobFollowers) false None
                Sample.target
                (Sample.inheritedOf (Sample.renoteOf Sample.bobFollowers))
                Sample.bobFollowers)
      as (Hrej & _).
    + vm_compute. reflexivity.
    + vm_compute. reflexivity.
    + vm_compute. reflexivity.
    + apply Hrej. right. split.
      * vm_compute. reflexivity.
      * vm_compute. discriminate.
  - destruct (@renote_target_visibility_rules Sample.services Sample.alice
                "n1" (Sample.renoteOf Sample.aliceFollowers) false None
                Sample.target
                (Sample.inheritedOf (Sample.renoteOf Sample.aliceFollowers))
                Sample.aliceFollowers)
      as (_ & Hacc & Hpass).
    + vm_compute. reflexivity.
    + vm_compute. reflexivity.
    + vm_compute. reflexivity.
    + destruct (Hpass (Sample.policedOf
                         (Sample.renoteOf Sample.aliceFollowers)))
        as (_ & [(n & Hin)|(Hnone & _)]).
      * vm_compute. reflexivity.
      * right. right. split; vm_compute; reflexivity.
      * exists n. split; [exact Hin|].
        destruct (Hacc (Sample.policedOf
                          (Sample.renoteOf Sample.aliceFollowers))
                    (MiNote.id n) n) as (_ & _ & Hfol).
        -- vm_compute. reflexivity.
        -- exact Hin.
        -- apply Hfol. vm_compute. reflexivity.
      * vm_compute in Hnone. discriminate Hnone.
Defined.

(** C6. When the store update throws: with a duplicate-key error [edit]
    throws an error named 'duplicated'; with any other error it throws
    that same error; in both cases no fan-out is scheduled. *)
Theorem duplicate_key_reported_as_duplicated :
  forall sv user targetId data silent editor id n e,
    In (notesRepository_update id n)
       (calls (edit sv user targetId data silent editor)) ->
    notesRepository_update_throws sv n = Some e ->
    existsb isFanoutSchedule
      (calls (edit sv user targetId data silent editor)) = false /\
    (isDuplicateKeyValueError sv e = true ->
     outcome (edit sv user targetId data silent editor)
     = inl (JsError "duplicated" "Duplicated note") /\
     forall e', outcome (edit sv user targetId data silent editor) = inl e' ->
                exnName e' = "duplicated") /\
    (isDuplicateKeyValueError sv e = false ->
     outcome (edit sv user targetId data silent editor) = inl e).
Proof.
  intros sv user targetId data silent editor id n e Hin He.
  apply edit_update_inv in Hin as (r & Hr & ->).
  rewrite edit_cases, Hr, He. cbv zeta.
  destruct (isDuplicateKeyValueError sv e); cbn.
  - split; [reflexivity|]. split; [|discriminate].
    intros _. split; [reflexivity|]. intros e' [= <-]. reflexivity.
  - split; [reflexivity|]. split; [discriminate|]. reflexivity.
Qed.

Lemma duplicate_key_reported_as_duplicated_witness :
  outcome (edit Sample.duplicateServices Sample.alice "n1"
             (Sample.textOnly "hi") false None)
  = inl (JsError "duplicated" "Duplicated note")
  /\
  outcome (edit Sample.brokenServices Sample.alice "n1"
             (Sample.textOnly "hi") false None)
  = inl (QueryFailedError "57014").
Proof.
  split.
  - destruct (@duplicate_key_reported_as_duplicated
                Sample.duplicateServices Sample.alice "n1"
                (Sample.textOnly "hi") false None "n1"
                (Sample.stored (Sample.textOnly "hi"))
                (QueryFailedError "23505"))
      as (_ & Hdup & _).
    + vm_compute. left. reflexivity.
    + vm_compute. reflexivity.
    + apply Hdup. vm_compute. reflexivity.
  - destruct (@duplicate_key_reported_as_duplicated
                Sample.brokenServices Sample.alice "n1"
                (Sample.textOnly "hi") false None "n1"
                (Sample.stored (Sample.textOnly "hi"))
                (QueryFailedError "57014"))
      as (_ & _ & Hother).
    + vm_compute. left. reflexivity.
    + vm_compute. reflexivity.
    + apply Hother. vm_compute. reflexivity.
Defined.

Lemma apHashtags_preserved sv user targetId tn data d0 d1 d2 :
  inheritFromTarget sv targetId tn (resolveReplyChannel sv tn data)
    = inr d0 ->
  applyContentPolicy sv user d0 = inr d1 ->
  applyRenoteVisibility user d1 = inr d2 ->
  apHashtags (normalizeText sv (applyReplyAndLocality d2))
  = apHashtags data.
Proof.
  intros Hd0 Hd1 Hd2.
  apply applyContentPolicy_shape in Hd1 as (v1 & -> & _).
  apply applyRenoteVisibility_shape in Hd2 as (v2 & -> & _).
  rewrite normalizeText_shape, applyReplyAndLocality_shape. cbn.
  apply inheritFromTarget_ok in Hd0 as (_ & _ & _ & -> & _).
  destruct (resolveReplyChannel_shape sv tn data) as (rp & ch & ->).
  reflexivity.
Qed.

(** C7 (amended). The tag list of every stored record is the normalised
    image of the first 32 input tags of at most 128 code points, in input
    order (the input being the supplied list, or else the derived one): it
    has at most 32 elements. The limit of 128 code points is applied
    before normalisation: every tag handed to the normaliser has at most
    128 code points, and so has its stored image unless normalisation
    lengthens that tag. Whatever tag list is supplied instead, the edit
    reaches the store update just the same and stores that list capped. *)
Theorem stored_tags_are_capped :
  forall sv user targetId data silent editor id n,
    In (notesRepository_update id n)
       (calls (edit sv user targetId data silent editor)) ->
    exists derived,
      let input := match apHashtags data with
                   | Some ts => ts
                   | None => derived
                   end in
      MiNote.tags n = map (normalizeForSearch sv) (capTags input) /\
      Subseq (capTags input) input /\
      List.length (MiNote.tags n) <= 32 /\
      (forall t, In t (capTags input) -> codePointLength t <= 128) /\
      (forall t, In t (capTags input) ->
                 codePointLength (normalizeForSearch sv t)
                 <= codePointLength t ->
                 codePointLength (normalizeForSearch sv t) <= 128) /\
      ((forall s, codePointLength (normalizeForSearch sv s)
                  <= codePointLength s) ->
       forall t, In t (MiNote.tags n) -> codePointLength t <= 128) /\
      (forall ts, exists id' n',
         In (notesRepository_update id' n')
            (calls (edit sv user targetId (set_apHashtags (Some ts) data)
                      silent editor)) /\
         MiNote.tags n' = map (normalizeForSearch sv) (capTags ts)).
Proof.
  intros sv user targetId data silent editor id n Hin.
  apply edit_update_inv in Hin as (r & Hr & ->).
  pose proof Hr as Hr0.
  apply resolveEdit_fields in Hr
    as (tn & d0 & d1 & d2 & d4 & _ & Hd0 & Hd1 & Hd2 & H).
  cbv zeta in H.
  destruct H as (_ & _ & _ & _ & _ & _ & _ & _ & _ & _ & Et & Hn).
  set (d3 := normalizeText sv (applyReplyAndLocality d2)) in *.
  exists (fst (fst (analyze sv user d3))). cbv zeta.
  assert (Ein : match apHashtags data with
                | Some ts => ts
                | None => fst (fst (analyze sv user d3))
                end = fst (fst (analyze sv user d3))).
  { pose proof (@apHashtags_preserved sv user targetId tn data d0 d1 d2
                  Hd0 Hd1 Hd2) as Ea.
    fold d3 in Ea. destruct (apHashtags data) as [ts|]; [|reflexivity].
    symmetry. apply analyze_supplied_tags. exact Ea. }
  rewrite Ein.
  assert (Etags : MiNote.tags (res_note r)
                  = map (normalizeForSearch sv)
                      (capTags (fst (fst (analyze sv user d3))))).
  { rewrite Hn. cbn [newNote MiNote.tags]. rewrite Et. reflexivity. }
  split; [exact Etags|].
  split; [apply capTags_Subseq|].
  split; [rewrite Etags, length_map; apply capTags_length|].
  split; [apply capTags_codePoints|].
  split.
  { intros t Ht Hle. eapply Nat.le_trans; [exact Hle|].
    apply capTags_codePoints with (tags := fst (fst (analyze sv user d3))).
    exact Ht. }
  split.
  - intros Hnorm t Ht. rewrite Etags in Ht.
    apply in_map_iff in Ht as (t0 & <- & Ht0).
    eapply Nat.le_trans; [apply Hnorm|].
    apply capTags_codePoints with (tags := fst (fst (analyze sv user d3))).
    exact Ht0.
  - intros ts.
    pose proof (resolveEdit_tags sv user ts targetId data) as Hts.
    rewrite Hr0 in Hts. destruct Hts as (r' & Hr' & Etags').
    exists (MiNote.id (res_note r')), (res_note r').
    split; [apply edit_calls_update; exact Hr' | exact Etags'].
Qed.

Lemma stored_tags_are_capped_witness :
  MiNote.tags (Sample.stored Sample.manyTags)
  = map (normalizeForSearch Sample.services)
      (capTags (repeat 97%N 129 :: repeat (lit "Tag") 40)) /\
  List.length (MiNote.tags (Sample.stored Sample.manyTags)) <= 32 /\
  codePointLength (normalizeForSearch Sample.services (lit "Tag")) <= 128.
Proof.
  destruct (@stored_tags_are_capped Sample.services Sample.alice "n1"
              Sample.manyTags false None "n1"
              (Sample.stored Sample.manyTags))
    as (derived & Htags & _ & Hlen & _ & Hcp & _).
  - vm_compute. left. reflexivity.
  - split; [exact Htags|]. split; [exact Hlen|].
    apply Hcp.
    + vm_compute. left. reflexivity.
    + vm_compute. lia.
Defined.

(** C7, counterexample: a supplied tag of 128 ligatures U+FB01 has 128
    code points, passes the limit, and is stored normalised, as a tag of
    256 code points. *)
Lemma normalised_tag_exceeds_the_limit :
  codePointLength (repeat 64257%N 128) = 128 /\
  map (fun n => map codePointLength (MiNote.tags n))
    (Sample.storedNotes (calls (Sample.run Sample.ligatureTag)))
  = [[256]] /\
  ~ 256 <= 128.
Proof.
  conjuncts; try evaluate. lia.
Qed.


(** C8 (amended). The visibility of a stored record is one of the four
    names when the visibility given by the caller (or, when none is
    given, that of the target note) is; and a stored record with
    visibility 'specified' and a reply target has a non-empty visible-user
    list. *)
Theorem stored_visibility_and_specified_reply :
  forall sv user targetId data silent editor tn id n,
    notesRepository_findOneBy sv targetId = Some tn ->
    In (notesRepository_update id n)
       (calls (edit sv user targetId data silent editor)) ->
    (In (match visibility data with
         | Some v => v
         | None => MiNote.visibility tn
         end) visibilityNames ->
     In (MiNote.visibility n) visibilityNames) /\
    (MiNote.visibility n = "specified" ->
     MiNote.replyId n <> None ->
     MiNote.visibleUserIds n <> []).
Proof.
  intros sv user targetId data silent editor tn id n Htn Hin.
  apply edit_update_inv in Hin as (r & Hr & ->).
  apply resolveEdit_fields in Hr
    as (tn' & d0 & d1 & d2 & d4 & Htn' & Hd0 & Hd1 & Hd2 & H).
  rewrite Htn in Htn'. injection Htn' as <-.
  cbv zeta in H.
  destruct H as ((ms1 & ms2 & Hf) & _ & Ev & _ & _ & Erp & _ & Evu
                 & Ev3 & Erp3 & _ & Hn).
  rewrite Hn. cbn [newNote MiNote.visibility MiNote.replyId
                   MiNote.visibleUserIds].
  split.
  - intros Hvalid. rewrite Ev.
    destruct (@visibility_narrowing sv user d0 d1 d2 Hd1 Hd2) as [E|[E|E]];
      rewrite E; [|cbn; auto|cbn; auto].
    apply inheritFromTarget_ok in Hd0 as (_ & _ & _ & _ & Ev0 & _).
    rewrite Ev0.
    destruct (notNull _); [cbn; auto|].
    destruct (resolveReplyChannel_shape sv tn data) as (rp & ch & ->).
    cbn. destruct (visibility data); exact Hvalid.
  - intros Hs Hrp.
    assert (Es : visibilityIs "specified" (res_data r) = true).
    { apply visibilityIs_true.
      destruct (visibility (res_data r)); [cbn in Hs; congruence|].
      discriminate Hs. }
    rewrite Es, Evu.
    apply foldVisibleUsers_shape in Hf as (_ & _ & Hvus).
    destruct Hvus as (vus & Evus & Hne).
    { apply visibilityIs_true. rewrite Ev3, <- Ev.
      apply visibilityIs_true. exact Es. }
    rewrite Evus.
    assert (Hr0 : reply (normalizeText sv (applyReplyAndLocality d2))
                  <> None).
    { rewrite Erp3, <- Erp. destruct (reply (res_data r));
        [discriminate | exfalso; apply Hrp; reflexivity]. }
    specialize (Hne Hr0). destruct vus; [contradiction|discriminate].
Qed.

Lemma stored_visibility_and_specified_reply_witness :
  In (MiNote.visibility (Sample.stored Sample.specifiedReply))
    visibilityNames /\
  MiNote.visibleUserIds (Sample.stored Sample.specifiedReply) <> [].
Proof.
  destruct (@stored_visibility_and_specified_reply Sample.services
              Sample.alice "n1" Sample.specifiedReply false None
              Sample.target "n1" (Sample.stored Sample.specifiedReply))
    as (Hvalid & Hne).
  - vm_compute. reflexivity.
  - vm_compute. left. reflexivity.
  - split.
    + apply Hvalid. vm_compute. auto.
    + apply Hne; [vm_compute; reflexivity | vm_compute; discriminate].
Defined.

(** C8, counterexample: 'specified' with an empty visible-user list and no
    reply target is stored as such; and a visibility that is none of the
    four names is stored unchanged. *)
Lemma specified_without_visible_users_is_stored :
  map (fun n => (MiNote.visibility n, MiNote.visibleUserIds n))
    (Sample.storedNotes (calls (Sample.run Sample.specifiedNobody)))
  = [("specified", [])] /\
  map MiNote.visibility
    (Sample.storedNotes (calls (Sample.run Sample.unknownVisibility)))
  = ["direct"] /\
  ~ In "direct" visibilityNames.
Proof.
  conjuncts; try evaluate.
  intros H. repeat (destruct H as [H|H]; [discriminate H|]). exact H.
Qed.

(** C9 (amended). For a local-only payload [renderNoteOrRenoteActivity]
    returns null, so no federation activity is built, and every call of
    the fan-out to the deliver manager or the relay service carries that
    null activity. The dispatch itself still runs: for a local poster,
    unless silenced by the caller or stopped by a missing visible-user
    list, the deliver manager is created, every remote mentioned user is
    registered as a recipient, the followers are registered when the
    note is 'public', 'home' or 'followers', the relay service is called
    when the note is 'public', and [execute] is called. *)
Theorem local_only_edit_hands_over_null_activity :
  forall sv user note data silent tags ms,
    localOnly data = Some true ->
    renderNoteOrRenoteActivity sv data note (MiUser.id user) = None /\
    allCalls (fun c => isNull (activityOf c))
      (postNoteEdited sv user note data silent tags ms) /\
    (silent = false ->
     isLocalUser user = true ->
     (visibilityIs "specified" data = true -> visibleUsers data <> None) ->
     In (apDeliverManagerService_createDeliverManager user None)
        (calls (postNoteEdited sv user note data silent tags ms)) /\
     (forall u, In u ms -> isRemoteUser u = true ->
        In (dm_addDirectRecipe u)
           (calls (postNoteEdited sv user note data silent tags ms))) /\
     (In (MiNote.visibility note) ["public"; "home"; "followers"] ->
      In dm_addFollowersRecipe
         (calls (postNoteEdited sv user note data silent tags ms))) /\
     (MiNote.visibility note = "public" ->
      In (relayService_deliverToRelays user None)
         (calls (postNoteEdited sv user note data silent tags ms))) /\
     In dm_execute (calls (postNoteEdited sv user note data silent tags ms))).
Proof.
  intros sv user note data silent tags ms H.
  pose proof (@renderNoteOrRenoteActivity_localOnly sv data note
                (MiUser.id user) H) as Hr.
  split; [exact Hr|]. split; [apply postNoteEdited_null; exact H|].
  intros -> Hl Hv.
  destruct (@deliverActivity_runs sv user note data ms) as (H1 & H2 & H3).
  destruct (@deliverActivity_audience sv user note data ms) as (H4 & H5).
  rewrite Hr in H1, H5.
  repeat split; intros; apply postNoteEdited_delivers; auto.
Qed.

Lemma local_only_edit_hands_over_null_activity_witness :
  In (apDeliverManagerService_createDeliverManager Sample.alice None)
     (calls (postNoteEdited Sample.services Sample.alice Sample.target
               Sample.localOnlyPublic false [] [Sample.carol])) /\
  In (dm_addDirectRecipe Sample.carol)
     (calls (postNoteEdited Sample.services Sample.alice Sample.target
               Sample.localOnlyPublic false [] [Sample.carol])) /\
  In dm_addFollowersRecipe
     (calls (postNoteEdited Sample.services Sample.alice Sample.target
               Sample.localOnlyPublic false [] [Sample.carol])) /\
  In (relayService_deliverToRelays Sample.alice None)
     (calls (postNoteEdited Sample.services Sample.alice Sample.target
               Sample.localOnlyPublic false [] [Sample.carol])) /\
  In dm_execute
     (calls (postNoteEdited Sample.services Sample.alice Sample.target
               Sample.localOnlyPublic false [] [Sample.carol])).
Proof.
  destruct (@local_only_edit_hands_over_null_activity Sample.services
              Sample.alice Sample.target Sample.localOnlyPublic false []
              [Sample.carol])
    as (_ & _ & Hrun).
  - vm_compute. reflexivity.
  - destruct Hrun as (Hdm & Hto & Hfol & Hrel & Hex).
    + reflexivity.
    + vm_compute. reflexivity.
    + vm_compute. discriminate.
    + split; [exact Hdm|].
      split; [apply Hto; [left|vm_compute]; reflexivity|].
      split; [apply Hfol; vm_compute; left; reflexivity|].
      split; [apply Hrel; vm_compute; reflexivity|].
      exact Hex.
Defined.

(** C9, counterexample: the record of a local-only edit is stored with
    [localOnly] true, and its fan-out still registers the remote mentioned
    user and the followers as recipients, calls the relay service and
    executes the delivery, all with a null activity. *)
Lemma local_only_edit_still_dispatches :
  map MiNote.localOnly
    (Sample.storedNotes (calls (Sample.run Sample.localOnlyEdit)))
  = [true] /\
  filter isDeliveryCall (Sample.fanout Sample.localOnlyEdit)
  = [apDeliverManagerService_createDeliverManager Sample.alice None;
     dm_addDirectRecipe Sample.carol;
     dm_addFollowersRecipe;
     relayService_deliverToRelays Sample.alice None;
     dm_execute].
Proof. conjuncts; evaluate. Qed.

(** C10. In every record handed to the store update, the visible-user
    list is empty whenever the visibility is not 'specified', whatever
    list the caller supplied or the target note carried. *)
Theorem visibleUserIds_empty_unless_specified :
  forall sv user targetId data silent editor id n,
    In (notesRepository_update id n)
       (calls (edit sv user targetId data silent editor)) ->
    MiNote.visibility n <> "specified" ->
    MiNote.visibleUserIds n = [].
Proof.
  intros sv user targetId data silent editor id n Hin Hvis.
  apply edit_update_inv in Hin as (r & Hr & ->).
  apply resolveEdit_fields in Hr
    as (tn & d0 & d1 & d2 & d4 & _ & _ & _ & _ & H).
  cbv zeta in H.
  destruct H as (_ & _ & _ & _ & _ & _ & _ & _ & _ & _ & _ & Hn).
  rewrite Hn in *. cbn in *.
  destruct (visibilityIs "specified" (res_data r)) eqn:E; [|reflexivity].
  apply visibilityIs_true in E. rewrite E in Hvis. contradiction.
Qed.

Lemma visibleUserIds_empty_unless_specified_witness :
  MiNote.visibleUserIds
    (Sample.stored
       (set_visibleUsers (Some [Sample.bob]) (Sample.textOnly "hi")))
  = [].
Proof.
  apply (@visibleUserIds_empty_unless_specified Sample.services Sample.alice
           "n1"
           (set_visibleUsers (Some [Sample.bob]) (Sample.textOnly "hi"))
           false None "n1").
  - vm_compute. left. reflexivity.
  - vm_compute. discriminate.
Defined.

End EditClaims.

(* ===================================================================== *)
(** * Further properties of the service *)
(* ===================================================================== *)

(** ** NotificationManager: what notify sends *)

Section NotificationManagerMore.
Import NotificationManager.
Local Open Scope string_scope.
Local Open Scope list_scope.

Lemma existsb_eqb_In (t : Id) (l : list Id) :
  existsb (String.eqb t) l = true <-> In t l.
Proof.
  rewrite existsb_exists. split.
  - intros (x & Hx & E). apply String.eqb_eq in E. subst. exact Hx.
  - intros H. exists t. split; [exact H | apply String.eqb_refl].
Qed.

Lemma find_target_In t q :
  find (fun x => target x =? t) q = None <-> ~ In t (map target q).
Proof.
  induction q as [|x q IH]; simpl; [tauto|].
  destruct (target x =? t) eqn:E.
  - apply String.eqb_eq in E. split; [discriminate|]. intros H. tauto.
  - apply String.eqb_neq in E. rewrite IH. tauto.
Qed.

Lemma map_target_setReason t r q :
  map target (setReason t r q) = map target q.
Proof.
  induction q as [|x q IH]; simpl; [reflexivity|].
  destruct (target x =? t); simpl; [reflexivity|]. rewrite IH. reflexivity.
Qed.

(** The targets of the queue after one more [push]. *)
Lemma targets_push nm t r :
  map target (queue (push nm t r))
  = if (notifier nm =? t) || existsb (String.eqb t) (map target (queue nm))
    then map target (queue nm)
    else map target (queue nm) ++ [t].
Proof.
  unfold push. destruct (notifier nm =? t); [reflexivity|]. cbn [orb].
  destruct (find _ (queue nm)) eqn:Ef.
  - assert (Hin : In t (map target (queue nm))).
    { destruct (in_dec string_dec t (map target (queue nm))) as [H|H];
        [exact H|]. apply find_target_In in H. congruence. }
    apply existsb_eqb_In in Hin. rewrite Hin.
    destruct (negb _); [|reflexivity]. cbn. apply map_target_setReason.
  - apply find_target_In in Ef.
    destruct (existsb _ _) eqn:E;
      [apply existsb_eqb_In in E; contradiction|].
    cbn. rewrite map_app. reflexivity.
Qed.

Lemma firstSeen_snoc ts t :
  firstSeen (ts ++ [t])
  = if existsb (String.eqb t) (firstSeen ts)
    then firstSeen ts else firstSeen ts ++ [t].
Proof. unfold firstSeen. rewrite fold_left_app. reflexivity. Qed.

(** The queue lists the targets in the order in which they were first
    pushed, the notifier left out. *)
Lemma targets_pushAll notifier0 note0 ps :
  map target (queue (pushAll (new notifier0 note0) ps))
  = firstSeen (filter (fun t => negb (notifier0 =? t)) (map fst ps)).
Proof.
  induction ps as [|[t r] ps IH] using rev_ind; [reflexivity|].
  rewrite pushAll_snoc, targets_push, notifier_pushAll, IH.
  rewrite map_app, filter_app. cbn [fst snd new notifier map filter].
  destruct (notifier0 =? t); cbn [negb orb].
  - rewrite app_nil_r. reflexivity.
  - rewrite firstSeen_snoc. reflexivity.
Qed.

Lemma queue_entries notifier0 note0 ps x :
  In x (queue (pushAll (new notifier0 note0) ps)) ->
  storedReason (reasonsFor (target x) ps) = Some (reason x).
Proof.
  intros Hin.
  assert (Hf : In x (entriesFor (target x)
                       (pushAll (new notifier0 note0) ps))).
  { unfold entriesFor. apply filter_In. split; [exact Hin|].
    apply String.eqb_refl. }
  rewrite entriesFor_pushAll, merge_fold_storedReason in Hf.
  destruct (notifier0 =? target x); [destruct Hf|].
  destruct (storedReason _) as [r|]; [|destruct Hf].
  destruct Hf as [E|[]]. rewrite <- E. reflexivity.
Qed.

Lemma calls_notify nm :
  calls (notify nm)
  = map (fun x =>
           notificationService_createNotification (target x) (reason x)
             (MiNote.id (note nm))
             (if NotificationType_eqb (reason x) renote
              then Some (MiNote.renoteId (note nm)) else None)
             (notifier nm))
      (queue nm)
  /\ outcome (notify nm) = ok tt.
Proof.
  unfold notify. induction (queue nm) as [|x q [IHc IHo]]; [split; reflexivity|].
  cbn [forM_ map]. rewrite calls_bind, outcome_bind.
  destruct (reason x) eqn:Er; cbn; rewrite ?IHc, ?IHo; split; reflexivity.
Qed.

Lemma note_pushAll nm ps : note (pushAll nm ps) = note nm.
Proof.
  unfold pushAll. revert nm.
  induction ps as [|p ps IH]; intros nm; simpl; [reflexivity|].
  rewrite IH. unfold push.
  destruct (notifier nm =? fst p); [reflexivity|].
  destruct (find _ (queue nm)); [|reflexivity].
  destruct (negb _); reflexivity.
Qed.

(** X1. After any sequence of [push] calls on a fresh manager, [notify]
    creates exactly one notification for each distinct target other than
    the notifier, in the order in which the targets were first pushed.
    Each carries the reason [push] left for the target, the note id and,
    for 'renote' only, the renote id of the note. [notify] does not
    throw. *)
Theorem notify_after_pushes :
  forall notifier0 note0 ps,
    calls (notify (pushAll (new notifier0 note0) ps))
    = map (notificationFor notifier0 note0 ps)
        (firstSeen (filter (fun t => negb (notifier0 =? t)) (map fst ps)))
    /\ outcome (notify (pushAll (new notifier0 note0) ps)) = ok tt.
Proof.
  intros notifier0 note0 ps.
  destruct (calls_notify (pushAll (new notifier0 note0) ps)) as [Hc Ho].
  split; [|exact Ho]. rewrite Hc, <- (targets_pushAll notifier0 note0 ps), map_map.
  rewrite note_pushAll, notifier_pushAll. cbn [new note notifier].
  apply map_ext_in. intros x Hx. unfold notificationFor.
  rewrite (@queue_entries notifier0 note0 ps x Hx). reflexivity.
Qed.

Lemma setReason_idem t r q :
  setReason t r (setReason t r q) = setReason t r q.
Proof.
  induction q as [|x q IH]; simpl; [reflexivity|].
  destruct (target x =? t) eqn:E; simpl; rewrite E; [reflexivity|].
  rewrite IH. reflexivity.
Qed.

Lemma find_setReason t r q :
  find (fun x => target x =? t) (setReason t r q)
  = option_map (fun x => {| target := target x; reason := r |})
      (find (fun x => target x =? t) q).
Proof.
  induction q as [|x q IH]; simpl; [reflexivity|].
  destruct (target x =? t) eqn:E; simpl; rewrite E; [reflexivity|].
  exact IH.
Qed.

Lemma setReason_absent t r q :
  find (fun x => target x =? t) q = None -> setReason t r q = q.
Proof.
  induction q as [|x q IH]; simpl; [reflexivity|].
  destruct (target x =? t); [discriminate|]. intros H. rewrite IH by exact H.
  reflexivity.
Qed.

(** X2. Pushing the same target with the same reason twice leaves the
    manager as pushing it once does. *)
Theorem push_idempotent :
  forall nm t r, push (push nm t r) t r = push nm t r.
Proof.
  intros nm t r.
  destruct (notifier nm =? t) eqn:En.
  { unfold push. rewrite En. cbn. rewrite En. reflexivity. }
  destruct (find (fun x => target x =? t) (queue nm)) eqn:Ef.
  - destruct (negb (NotificationType_eqb r mention)) eqn:Em.
    + assert (Ep : push nm t r
                   = {| notifier := notifier nm; note := note nm;
                        queue := setReason t r (queue nm) |})
        by (unfold push; rewrite En, Ef, Em; reflexivity).
      rewrite Ep. unfold push. cbn [notifier queue note].
      rewrite En, find_setReason, Ef. cbn [option_map]. rewrite Em.
      rewrite setReason_idem. reflexivity.
    + assert (Ep : push nm t r = nm)
        by (unfold push; rewrite En, Ef, Em; reflexivity).
      rewrite Ep. exact Ep.
  - assert (Ep : push nm t r
                 = {| notifier := notifier nm; note := note nm;
                      queue := queue nm
                               ++ [{| target := t; reason := r |}] |})
      by (unfold push; rewrite En, Ef; reflexivity).
    rewrite Ep. unfold push. cbn [notifier queue note]. rewrite En.
    assert (E : forall q, find (fun x => target x =? t) q = None ->
               find (fun x => target x =? t)
                 (q ++ [{| target := t; reason := r |}])
               = Some {| target := t; reason := r |} /\
               setReason t r (q ++ [{| target := t; reason := r |}])
               = q ++ [{| target := t; reason := r |}]).
    { induction q as [|x q IH]; simpl.
      - rewrite String.eqb_refl. auto.
      - destruct (target x =? t); [discriminate|]. intros H.
        destruct (IH H) as [-> ->]. auto. }
    destruct (E (queue nm) Ef) as [-> E2].
    destruct (negb (NotificationType_eqb r mention)); [|reflexivity].
    rewrite E2. reflexivity.
Qed.

End NotificationManagerMore.

(** ** edit: calls, order and failures *)

Section EditEffects.
Import NoteEditService Option Js.
Local Open Scope string_scope.
Local Open Scope list_scope.

Lemma res_note_author sv user targetId data r :
  resolveEdit sv user targetId data = inr r ->
  MiNote.userId (res_note r) = MiUser.id user /\
  MiNote.id (res_note r) = MiNote.id (res_targetNote r).
Proof.
  intros H. apply resolveEdit_inv in H
    as (tn & d0 & d1 & d2 & ms1 & d4 & ms2 & _ & _ & _ & _ & _ & H).
  cbv zeta in H. destruct H as (_ & _ & ->). split; reflexivity.
Qed.

(** X3. The effects of [edit] come in a fixed order. If no store update
    was attempted, no collaborator was called at all; there is at most
    one store update; a scheduled fan-out job is the second call,
    directly after the update of the same note (which did not throw),
    nothing else is scheduled, and the job carries the id of that note,
    the acting user and the [silent] flag of the caller; a returned note
    is the one that was handed to the store, and its author is the
    acting user. *)
Theorem edit_effects_in_order :
  forall sv user targetId data silent editor,
    (existsb isStoreUpdate
       (calls (edit sv user targetId data silent editor)) = false ->
     calls (edit sv user targetId data silent editor) = []) /\
    List.length
      (filter isStoreUpdate
         (calls (edit sv user targetId data silent editor))) <= 1 /\
    (forall job,
       In (setImmediate_postUpdated job)
          (calls (edit sv user targetId data silent editor)) ->
       exists n tail,
         calls (edit sv user targetId data silent editor)
         = notesRepository_update (MiNote.id n) n
           :: setImmediate_postUpdated job :: tail /\
         forallb (fun c => negb (isFanoutSchedule c)) tail = true /\
         notesRepository_update_throws sv n = None /\
         PostUpdated.noteId job = MiNote.id n /\
         PostUpdated.user job = user /\
         PostUpdated.silent job = silent) /\
    (forall n,
       outcome (edit sv user targetId data silent editor) = inr n ->
       exists job tail,
         calls (edit sv user targetId data silent editor)
         = notesRepository_update (MiNote.id n) n
           :: setImmediate_postUpdated job :: tail /\
         MiNote.userId n = MiUser.id user).
Proof.
  intros sv user targetId data silent editor. rewrite edit_cases.
  destruct (resolveEdit sv user targetId data) as [e|r] eqn:Hr.
  { split; [intros _; reflexivity|]. split; [cbn; lia|].
    split; [intros job []|intros n H; discriminate H]. }
  cbv zeta.
  destruct (res_note_author sv user targetId data Hr) as [Hau _].
  destruct (notesRepository_update_throws sv (res_note r)) as [e|] eqn:Et.
  - destruct (isDuplicateKeyValueError sv e); cbn;
      (split; [discriminate|]); (split; [lia|]);
      (split; [|intros n H; discriminate H]);
      intros job H;
      exfalso; repeat (destruct H as [H|H]; [discriminate H|]); exact H.
  - assert (Hjob : forall (tail : list Call) (o : Result MiNote.t),
        forallb (fun c => negb (isFanoutSchedule c)) tail = true ->
        forallb (fun c => negb (isStoreUpdate c)) tail = true ->
        (forall n, o = inr n -> n = res_note r) ->
        let cs := notesRepository_update (MiNote.id (res_note r))
                    (res_note r)
                  :: setImmediate_postUpdated
                       {| PostUpdated.noteId := MiNote.id (res_note r);
                          PostUpdated.user := user;
                          PostUpdated.data := res_data r;
                          PostUpdated.silent := silent;
                          PostUpdated.tags := res_tags r;
                          PostUpdated.mentionedUsers :=
                            res_mentionedUsers r |}
                  :: tail in
        (existsb isStoreUpdate cs = false -> cs = []) /\
        List.length (filter isStoreUpdate cs) <= 1 /\
        (forall job,
           In (setImmediate_postUpdated job) cs ->
           exists n tail',
             cs = notesRepository_update (MiNote.id n) n
                  :: setImmediate_postUpdated job :: tail' /\
             forallb (fun c => negb (isFanoutSchedule c)) tail' = true /\
             notesRepository_update_throws sv n = None /\
             PostUpdated.noteId job = MiNote.id n /\
             PostUpdated.user job = user /\
             PostUpdated.silent job = silent) /\
        (forall n,
           o = inr n ->
           exists job tail',
             cs = notesRepository_update (MiNote.id n) n
                  :: setImmediate_postUpdated job :: tail' /\
             MiNote.userId n = MiUser.id user)).
    { intros tail o Hnf Hnu Ho cs. subst cs.
      split; [cbn; discriminate|]. split.
      - cbn [filter isStoreUpdate isFanoutSchedule List.length].
        assert (E : filter isStoreUpdate tail = []).
        { clear -Hnu. induction tail as [|c tl IH]; [reflexivity|].
          cbn in Hnu |- *. apply andb_true_iff in Hnu as [Hc Htl].
          apply negb_true_iff in Hc. rewrite Hc. exact (IH Htl). }
        rewrite E. cbn. lia.
      - split.
        + intros job [H|[H|H]]; [discriminate H| |].
          * injection H as <-. exists (res_note r), tail.
            repeat (split; [reflexivity || assumption|]). reflexivity.
          * exfalso. rewrite forallb_forall in Hnf.
            specialize (Hnf _ H). discriminate Hnf.
        + intros n Hn. rewrite (Ho n Hn). do 2 eexists.
          split; [reflexivity|exact Hau]. }
    destruct editor as [ed|];
      [destruct (negb _);
         [destruct (usersRepository_findOneBy sv _)|]|];
      apply Hjob; try reflexivity;
      intros n H; first [discriminate H | injection H as <-; reflexivity].
Qed.

Lemma edit_effects_in_order_witness :
  calls (Sample.run Sample.prohibited) = [] /\
  exists job tail,
    calls (Sample.run (Sample.textOnly "hi"))
    = notesRepository_update
        (MiNote.id (Sample.stored (Sample.textOnly "hi")))
        (Sample.stored (Sample.textOnly "hi"))
      :: setImmediate_postUpdated job :: tail /\
    MiNote.userId (Sample.stored (Sample.textOnly "hi"))
    = MiUser.id Sample.alice.
Proof.
  split.
  - destruct (@edit_effects_in_order Sample.services Sample.alice "n1"
                Sample.prohibited false None) as (H & _).
    apply H. vm_compute. reflexivity.
  - destruct (@edit_effects_in_order Sample.services Sample.alice "n1"
                (Sample.textOnly "hi") false None) as (_ & _ & _ & H).
    apply H. vm_compute. reflexivity.
Defined.

(** X4. The moderation log is written only when an editor other than the
    author is given, the user row of the author is found and the edit
    succeeds; the entry holds the stored note and the target note as it
    was found. If the row of the author is missing, [edit] throws
    EntityNotFoundError for the author although the store update and the
    fan-out schedule have been made. *)
Theorem moderation_log_only_for_foreign_editor :
  forall sv user targetId data silent editor,
    (forall ed u n old,
       In (moderationLogService_log ed u n old)
          (calls (edit sv user targetId data silent editor)) ->
       editor = Some ed /\
       MiUser.id ed <> MiUser.id user /\
       usersRepository_findOneBy sv (MiUser.id user) = Some u /\
       outcome (edit sv user targetId data silent editor) = inr n /\
       notesRepository_findOneBy sv targetId = Some old) /\
    (forall ed r,
       editor = Some ed ->
       MiUser.id ed <> MiUser.id user ->
       resolveEdit sv user targetId data = inr r ->
       notesRepository_update_throws sv (res_note r) = None ->
       usersRepository_findOneBy sv (MiUser.id user) = None ->
       outcome (edit sv user targetId data silent editor)
       = inl (EntityNotFoundError "MiUser" (MiUser.id user)) /\
       existsb isStoreUpdate
         (calls (edit sv user targetId data silent editor)) = true /\
       existsb isFanoutSchedule
         (calls (edit sv user targetId data silent editor)) = true).
Proof.
  intros sv user targetId data silent editor. rewrite edit_cases. split.
  - intros ed u n old Hin.
    destruct (resolveEdit sv user targetId data) as [e|r] eqn:Hr;
      [destruct Hin|].
    cbv zeta in Hin |- *.
    destruct (res_note_author sv user targetId data Hr) as [Hau _].
    pose proof Hr as Hf. apply resolveEdit_fields in Hf
      as (tn & d0 & d1 & d2 & d4 & Htn & _ & _ & _ & Hf).
    cbv zeta in Hf. destruct Hf as (_ & Etn & _).
    rewrite Hau in *.
    assert (Hno : forall cs : list Call,
              forallb (fun c => negb (isModerationLog c)) cs = true ->
              ~ In (moderationLogService_log ed u n old) cs).
    { intros cs Hcs H. rewrite forallb_forall in Hcs.
      specialize (Hcs _ H). discriminate Hcs. }
    destruct (notesRepository_update_throws sv (res_note r)) as [e|].
    + exfalso. revert Hin.
      destruct (isDuplicateKeyValueError sv e); apply Hno; reflexivity.
    + destruct editor as [ed'|];
        [|exfalso; revert Hin; apply Hno; reflexivity].
      destruct (negb (MiUser.id user =? MiUser.id ed')) eqn:En;
        [|exfalso; revert Hin; apply Hno; reflexivity].
      destruct (usersRepository_findOneBy sv (MiUser.id user))
        as [u'|] eqn:Eu;
        [|exfalso; revert Hin; apply Hno; reflexivity].
      destruct Hin as [Hin|[Hin|[Hin|[]]]]; try discriminate Hin.
      injection Hin as <- <- <- <-.
      apply negb_true_iff, String.eqb_neq in En.
      split; [reflexivity|]. split; [congruence|].
      split; [reflexivity|]. split; [reflexivity|].
      rewrite Etn. exact Htn.
  - intros ed r -> Hne Hr Ht Hu. rewrite Hr. cbv zeta. rewrite Ht.
    destruct (res_note_author sv user targetId data Hr) as [Hau _].
    rewrite Hau, Hu.
    assert (En : negb (MiUser.id user =? MiUser.id ed) = true).
    { apply negb_true_iff, String.eqb_neq. congruence. }
    rewrite En. split; [reflexivity|]. split; reflexivity.
Qed.

Lemma moderation_log_only_for_foreign_editor_witness :
  outcome (edit Sample.services Scenario.ghost "n1" (Sample.textOnly "hi")
             false (Some Scenario.moderator))
  = inl (EntityNotFoundError "MiUser" "ghost") /\
  existsb isStoreUpdate
    (calls (edit Sample.services Scenario.ghost "n1" (Sample.textOnly "hi")
              false (Some Scenario.moderator))) = true /\
  usersRepository_findOneBy Sample.services (MiUser.id Sample.alice)
  = Some Sample.alice.
Proof.
  destruct (@moderation_log_only_for_foreign_editor Sample.services
              Scenario.ghost "n1" (Sample.textOnly "hi") false
              (Some Scenario.moderator)) as [_ Hfail].
  destruct (Hfail Scenario.moderator
              (Scenario.resolvedAs Sample.services Scenario.ghost "n1"
                 (Sample.textOnly "hi")))
    as (Ho & Hu & _).
  - reflexivity.
  - vm_compute. discriminate.
  - vm_compute. reflexivity.
  - vm_compute. reflexivity.
  - vm_compute. reflexivity.
  - split; [exact Ho|]. split; [exact Hu|].
    destruct (@moderation_log_only_for_foreign_editor Sample.services
                Sample.alice "n1" (Sample.textOnly "hi") false
                (Some Scenario.moderator)) as [Hlog _].
    destruct (Hlog Scenario.moderator Sample.alice
                (Scenario.storedBy Sample.services Sample.alice "n1"
                   (Sample.textOnly "hi") (Some Scenario.moderator))
                Sample.target)
      as (_ & _ & Hfound & _).
    + vm_compute. right. right. left. reflexivity.
    + exact Hfound.
Defined.

(** X5. A missing target note makes [edit] throw EntityNotFoundError for
    the target id without any call; so does a missing renote target that
    the edit takes from the target note (the caller gave no renote and
    the target note names a non-empty renote id). *)
Theorem missing_rows_fail_the_edit :
  forall sv user targetId data silent editor,
    (notesRepository_findOneBy sv targetId = None ->
     edit sv user targetId data silent editor
     = ([], inl (EntityNotFoundError "MiNote" targetId))) /\
    (forall tn rid,
       notesRepository_findOneBy sv targetId = Some tn ->
       renote data = None ->
       MiNote.renoteId tn = Some rid ->
       rid <> EmptyString ->
       notesRepository_findOneBy sv rid = None ->
       edit sv user targetId data silent editor
       = ([], inl (EntityNotFoundError "MiNote" rid))).
Proof.
  intros sv user targetId data silent editor. split.
  - intros H. rewrite edit_cases. unfold resolveEdit, findNoteOrFail.
    rewrite H. reflexivity.
  - intros tn rid Htn Hrn Hrid Hne Hnone. rewrite edit_cases.
    unfold resolveEdit at 1. unfold findNoteOrFail at 1.
    rewrite Htn. cbn [orFail rbind ok].
    unfold inheritFromTarget, inheritRelations. rewrite Hrid.
    rewrite inheritScalars_shape. cbn [renote set_localOnly set_visibility
                                       set_createdAt].
    destruct (resolveReplyChannel_shape sv tn data) as (rp & ch & ->).
    cbn [renote set_channel set_reply]. rewrite Hrn. cbn [isNull andb].
    unfold truthyStr.
    apply String.eqb_neq in Hne. rewrite Hne. cbn [negb].
    unfold findNoteOrFail. rewrite Hnone. reflexivity.
Qed.

Lemma missing_rows_fail_the_edit_witness :
  edit Sample.services Sample.alice "nx" (Sample.textOnly "hi") false None
  = ([], inl (EntityNotFoundError "MiNote" "nx")) /\
  edit (Scenario.servicesFor [Scenario.danglingRenote] false true)
    Sample.alice "n9" (Sample.textOnly "hi") false None
  = ([], inl (EntityNotFoundError "MiNote" "gone")).
Proof.
  split.
  - destruct (@missing_rows_fail_the_edit Sample.services Sample.alice "nx"
                (Sample.textOnly "hi") false None) as [H _].
    apply H. vm_compute. reflexivity.
  - destruct (@missing_rows_fail_the_edit
                (Scenario.servicesFor [Scenario.danglingRenote] false true)
                Sample.alice "n9" (Sample.textOnly "hi") false None)
      as [_ H].
    apply (H Scenario.danglingRenote "gone").
    + vm_compute. reflexivity.
    + vm_compute. reflexivity.
    + vm_compute. reflexivity.
    + discriminate.
    + vm_compute. reflexivity.
Defined.

End EditEffects.

(** ** edit: visibility, locality and rejections *)

Section VisibilityOfEdit.
Import NoteEditService Option Js.
Local Open Scope string_scope.
Local Open Scope list_scope.

Variable sv : Services.
Variable user : MiUser.t.

Ltac fields :=
  cbn [set_createdAt set_name set_text set_reply set_renote set_files
       set_poll set_localOnly set_reactionAcceptance set_visibility
       set_visibleUsers set_channel set_apMentions set_apHashtags
       createdAt name text reply renote files poll localOnly
       reactionAcceptance cw visibility visibleUsers channel apMentions
       apHashtags apEmojis uri url app fst snd].

Ltac fields_in H :=
  cbn [set_createdAt set_name set_text set_reply set_renote set_files
       set_poll set_localOnly set_reactionAcceptance set_visibility
       set_visibleUsers set_channel set_apMentions set_apHashtags
       createdAt name text reply renote files poll localOnly
       reactionAcceptance cw visibility visibleUsers channel apMentions
       apHashtags apEmojis uri url app fst snd] in H.

Ltac keep_renote :=
  match goal with
  | |- ?X = _ =>
      transitivity (set_renote (renote X) X);
      [symmetry; apply set_renote_id | fields]
  end.

Ltac keep_poll :=
  match goal with
  | |- ?X = _ =>
      transitivity (set_poll (poll X) X);
      [symmetry; apply set_poll_id | fields]
  end.

(** The payload after lines 244-275, field by field. *)
Lemma inheritFromTarget_relations targetId tn d d0 :
  inheritFromTarget sv targetId tn d = inr d0 ->
  renote d0
  = match renote d with
    | Some rn => Some rn
    | None =>
        match MiNote.renoteId tn with
        | Some rid =>
            if truthyStr (Some rid) then notesRepository_findOneBy sv rid
            else None
        | None => None
        end
    end /\
  (poll d <> None -> poll d0 = poll d) /\
  files d0
  = inherited (files d) (driveFilesRepository_findBy sv (MiNote.fileIds tn)).
Proof.
  unfold inheritFromTarget. intros H.
  apply rbind_inr in H as (d1 & H1 & H). inversion H; subst; clear H.
  rewrite inheritRest_shape. fields.
  unfold inheritRelations in H1.
  apply rbind_inr in H1 as (da & Ha & H1).
  apply rbind_inr in H1 as (db & Hb & H1).
  assert (Ea : exists rn, da = set_renote rn (inheritScalars sv targetId tn d)
             /\ rn = match renote d with
                     | Some rn => Some rn
                     | None =>
                         match MiNote.renoteId tn with
                         | Some rid =>
                             if truthyStr (Some rid)
                             then notesRepository_findOneBy sv rid
                             else None
                         | None => None
                         end
                     end).
  { rewrite inheritScalars_shape in Ha |- *. fields_in Ha.
    destruct (MiNote.renoteId tn) as [rid|].
    - destruct (renote d) as [rn|] eqn:Ern; cbn [isNull andb] in Ha.
      + inversion Ha; subst. exists (Some rn). split; [|reflexivity].
        keep_renote; rewrite Ern; reflexivity.
      + destruct (truthyStr (Some rid)).
        * unfold findNoteOrFail, orFail in Ha.
          destruct (notesRepository_findOneBy sv rid) as [rn|];
            [|discriminate].
          inversion Ha; subst. exists (Some rn). split; reflexivity.
        * inversion Ha; subst. exists None. split; [|reflexivity].
          keep_renote; rewrite Ern; reflexivity.
    - inversion Ha; subst. exists (renote d). split.
      + keep_renote; reflexivity.
      + destruct (renote d); reflexivity. }
  destruct Ea as (rn & -> & Ern).
  assert (Eb : exists rp, db = set_reply rp
                 (set_renote rn (inheritScalars sv targetId tn d))).
  { destruct (MiNote.replyId tn) as [rid|].
    - destruct (isNull _ && truthyStr _).
      + apply rbind_inr in Hb as (x & _ & Hb). inversion Hb; subst. eauto.
      + inversion Hb; subst. eexists. symmetry. apply set_reply_id.
    - inversion Hb; subst. eexists. symmetry. apply set_reply_id. }
  destruct Eb as (rp & ->).
  rewrite inheritScalars_shape in H1. fields_in H1.
  assert (Ec : exists pl, d1 = set_poll pl
                 (set_reply rp (set_renote rn (inheritScalars sv targetId tn d)))
               /\ (poll d <> None -> pl = poll d)).
  { rewrite inheritScalars_shape.
    destruct (poll d) as [p|] eqn:Ep; cbn [isNull] in H1.
    - inversion H1; subst. exists (Some p). split; [|reflexivity].
      keep_poll; rewrite Ep; reflexivity.
    - destruct (MiNote.hasPoll tn).
      + apply rbind_inr in H1 as (x & _ & H1). inversion H1; subst.
        eexists. split; [reflexivity|]. intros C. congruence.
      + inversion H1; subst. eexists. split; [reflexivity|].
        intros C. congruence. }
  destruct Ec as (pl & -> & Epl).
  rewrite inheritScalars_shape. fields.
  split; [exact Ern|]. split; [exact Epl|reflexivity].
Qed.

Lemma visibilityIs_set v w d :
  visibilityIs v (set_visibility (Some w) d) = (w =? v).
Proof. reflexivity. Qed.

(** Lines 276-295: when the visibility stays public. *)
Lemma applyContentPolicy_public d d' :
  applyContentPolicy sv user d = inr d' ->
  (visibility d' = Some "public" <->
   visibility d = Some "public" /\
   (channel d <> None \/
    (utilityService_isKeyWordIncluded sv (cwOrText d)
       (MiMeta.sensitiveWords (metaService_fetch sv)) = false /\
     RolePolicies.canPublicNote
       (roleService_getUserPolicies sv (MiUser.id user)) = true)) /\
   silencedRemote sv user = false) /\
  (visibility d <> Some "public" -> visibility d' = visibility d).
Proof.
  unfold applyContentPolicy, silencedRemote. cbv zeta. intros H.
  assert (Ecw : forall w, cwOrText (set_visibility w d) = cwOrText d)
    by reflexivity.
  destruct (visibilityIs "public" d) eqn:Ev;
    [pose proof (proj1 (visibilityIs_true _ _) Ev) as Ev'
    |pose proof (proj1 (visibilityIs_false _ _) Ev) as Ev'];
    destruct (channel d) as [c|] eqn:Ec; cbn [isNull andb] in H;
    destruct (utilityService_isKeyWordIncluded sv (cwOrText d)
                (MiMeta.sensitiveWords (metaService_fetch sv))) eqn:Es;
    destruct (RolePolicies.canPublicNote
                (roleService_getUserPolicies sv (MiUser.id user))) eqn:Ep;
    cbn [negb] in H;
    rewrite ?Ecw in H;
    (destruct (utilityService_isKeyWordIncluded sv (cwOrText d)
                 (MiMeta.prohibitedWords (metaService_fetch sv)));
     [discriminate H|]);
    rewrite ?visibilityIs_set, ?Ev in H; unfold when_ in H;
    destruct (utilityService_isSilencedHost sv
                (MiMeta.silencedHosts (metaService_fetch sv))
                (MiUser.host user));
    destruct (notNull (MiUser.host user));
    cbn in H; inversion H; subst; clear H; fields;
    (split; [split; [intros G|intros (G1 & G2 & G3)]|intros G]);
    try congruence; try discriminate;
    try (repeat split; solve [ assumption | reflexivity
                             | left; congruence
                             | right; split; reflexivity ]);
    try (destruct G2 as [G2|[G2 G2']]; congruence).
Qed.

(** Lines 297-321: the visibility the renote switch leaves. *)
Lemma applyRenoteVisibility_exact d d' :
  applyRenoteVisibility user d = inr d' ->
  visibility d'
  = match renote d with
    | Some rn =>
        if MiNote.visibility rn =? "home"
        then (if visibilityIs "public" d then Some "home" else visibility d)
        else if MiNote.visibility rn =? "followers" then Some "followers"
        else visibility d
    | None => visibility d
    end.
Proof.
  unfold applyRenoteVisibility, when_. intros H.
  destruct (renote d) as [rn|]; [|inversion H; reflexivity].
  cbv zeta in H.
  destruct (MiNote.visibility rn =? "public") eqn:E1.
  { apply String.eqb_eq in E1. rewrite E1. inversion H; reflexivity. }
  destruct (MiNote.visibility rn =? "home") eqn:E2.
  { destruct (visibilityIs "public" d); inversion H; reflexivity. }
  destruct (MiNote.visibility rn =? "followers") eqn:E3.
  { destruct (negb _); [discriminate H|]. inversion H; reflexivity. }
  destruct (MiNote.visibility rn =? "specified"); [discriminate H|].
  inversion H; reflexivity.
Qed.

(** Lines 335-348: the visibility and the locality they leave. *)
Lemma applyReplyAndLocality_exact d :
  visibility (applyReplyAndLocality d)
  = (if visibilityIs "public" d
        && match reply d with
           | Some rp => negb (MiNote.visibility rp =? "public")
           | None => false
           end
     then Some "home" else visibility d) /\
  localOnly (applyReplyAndLocality d)
  = (if isNull (channel d)
        && (match renote d with
            | Some rn => MiNote.localOnly rn
            | None => false
            end
            || match reply d with
               | Some rp => MiNote.localOnly rp
               | None => false
               end)
     then Some true else localOnly d).
Proof.
  unfold applyReplyAndLocality, when_, visibilityIs.
  destruct d as [? ? ? rp rn ? ? lo ? ? vi ? ch ? ? ? ? ? ?]. cbn.
  destruct rp as [rp|], rn as [rn|], ch;
    repeat (cbn;
            match goal with
            | |- context [MiNote.localOnly ?r && _] =>
                destruct (MiNote.localOnly r)
            | |- context [negb (?a =? ?b)] => destruct (a =? b)
            | |- context [optStrEqb vi ?x] => destruct (optStrEqb vi x)
            end);
    cbn; split; reflexivity.
Qed.

(** The visibility, the locality and the relations of the payload an
    edit resolves to, in terms of the arguments of [edit]. *)
Lemma resolved_visibility targetId data r tn :
  resolveEdit sv user targetId data = inr r ->
  notesRepository_findOneBy sv targetId = Some tn ->
  exists d0 d1 d2,
    applyContentPolicy sv user d0 = inr d1 /\
    applyRenoteVisibility user d1 = inr d2 /\
    cwOrText d0 = cwOrText data /\
    channel d0 = channel (res_data r) /\
    reply d2 = reply (res_data r) /\ reply d1 = reply (res_data r) /\
    renote d2 = renote (res_data r) /\ renote d1 = renote (res_data r) /\
    channel d2 = channel (res_data r) /\
    visibility d0
    = (if notNull (channel (res_data r)) then Some "public"
       else Some (requestedVisibility data tn)) /\
    localOnly d2
    = (if notNull (channel (res_data r)) then Some true
       else Some (requestedLocalOnly data tn)) /\
    MiNote.visibility (res_note r)
    = visibilityOf (applyReplyAndLocality d2) /\
    localOnly (res_data r) = localOnly (applyReplyAndLocality d2) /\
    MiNote.localOnly (res_note r)
    = match localOnly (res_data r) with Some b => b | None => false end /\
    MiNote.channelId (res_note r)
    = option_map MiChannel.id (channel (res_data r)).
Proof.
  intros H Htn.
  apply resolveEdit_fields in H
    as (tn' & d0 & d1 & d2 & d4 & Htn' & Hd0 & Hd1 & Hd2 & H).
  rewrite Htn in Htn'. injection Htn' as <-.
  cbv zeta in H.
  destruct H as (_ & _ & Ev & El & Ec & Erp & Ern & _ & _ & _ & _ & En).
  exists d0, d1, d2.
  split; [exact Hd1|]. split; [exact Hd2|].
  pose proof (inheritFromTarget_ok _ _ _ _ Hd0)
    as (Ecw & Etx & Ech & _ & Evi & Elo & _).
  destruct (resolveReplyChannel_shape sv tn data) as (rp & ch & Eshape).
  rewrite Eshape in Ecw, Etx, Evi, Elo, Ech.
  fields_in Ecw; fields_in Etx; fields_in Evi; fields_in Elo; fields_in Ech.
  pose proof (applyContentPolicy_shape _ _ _ Hd1) as (v1 & E1 & _).
  pose proof (applyRenoteVisibility_shape _ _ Hd2) as (v2 & E2 & _).
  rewrite Ec.
  split; [unfold cwOrText; rewrite Ecw, Etx; reflexivity|].
  split; [reflexivity|].
  split; [rewrite E2, E1; symmetry; exact Erp|].
  split; [rewrite E1; symmetry; exact Erp|].
  split; [rewrite E2, E1; symmetry; exact Ern|].
  split; [rewrite E1; symmetry; exact Ern|].
  split; [rewrite E2, E1; reflexivity|].
  split; [rewrite Evi, Ech; unfold requestedVisibility, inherited;
          destruct ch, (visibility data); reflexivity|].
  split; [rewrite E2, E1; fields; rewrite Elo, Ech;
          unfold requestedLocalOnly, inherited;
          destruct ch, (localOnly data); reflexivity|].
  split; [rewrite En; cbn [newNote MiNote.visibility]; rewrite Ev;
          reflexivity|].
  split; [exact El|].
  rewrite En. split; [reflexivity|].
  cbn [newNote MiNote.channelId]. rewrite Ec. reflexivity.
Qed.

Lemma renote_rule_public d d' :
  applyRenoteVisibility user d = inr d' ->
  (visibility d' = Some "public" <->
   visibility d = Some "public" /\
   forall rn, renote d = Some rn ->
              MiNote.visibility rn <> "home" /\
              MiNote.visibility rn <> "followers").
Proof.
  intros H. rewrite (applyRenoteVisibility_exact _ H).
  destruct (renote d) as [rn|].
  - destruct (MiNote.visibility rn =? "home") eqn:E1;
      [apply String.eqb_eq in E1|apply String.eqb_neq in E1].
    + split.
      * destruct (visibilityIs "public" d) eqn:Ev; [discriminate|].
        apply visibilityIs_false in Ev. intros C. contradiction.
      * intros [_ C]. destruct (C rn eq_refl) as [C1 _]. contradiction.
    + destruct (MiNote.visibility rn =? "followers") eqn:E2;
        [apply String.eqb_eq in E2|apply String.eqb_neq in E2].
      * split; [discriminate|].
        intros [_ C]. destruct (C rn eq_refl) as [_ C2]. contradiction.
      * split; [intros G; split; [exact G|]|intros [G _]; exact G].
        intros rn' [= <-]. split; assumption.
  - split; [intros G; split; [exact G|discriminate]|intros [G _]; exact G].
Qed.

Lemma reply_rule_public d :
  visibilityOf (applyReplyAndLocality d) = "public" <->
  visibility d = Some "public" /\
  forall rp, reply d = Some rp -> MiNote.visibility rp = "public".
Proof.
  unfold visibilityOf. destruct (applyReplyAndLocality_exact d) as [-> _].
  destruct (visibilityIs "public" d) eqn:Ev;
    [apply visibilityIs_true in Ev|apply visibilityIs_false in Ev].
  - destruct (reply d) as [rp|]; cbn [andb].
    + destruct (MiNote.visibility rp =? "public") eqn:E; cbn [negb].
      * rewrite Ev. apply String.eqb_eq in E.
        split; [intros _; split; [reflexivity|]|reflexivity].
        intros rp' [= <-]. exact E.
      * apply String.eqb_neq in E. split; [discriminate|].
        intros [_ C]. specialize (C rp eq_refl). contradiction.
    + rewrite Ev.
      split; [intros _; split; [reflexivity|discriminate]|reflexivity].
  - cbn [andb]. destruct (visibility d) as [v|].
    + split; [intros ->; contradiction|intros [C _]; contradiction].
    + split; [discriminate|intros [C _]; discriminate].
Qed.

(** X6. The record handed to the store is 'public' exactly when: it is
    posted to a channel, or the visibility asked for (that of the
    caller, else that of the target note) is 'public', [cw ?? text ??
    ''] holds no sensitive word and the role policy of the poster allows
    public notes; and the poster is not a remote user of a silenced
    host; and the renote target, if any, is neither 'home' nor
    'followers'; and the reply target, if any, is 'public'. *)
Theorem public_visibility_is_earned :
  forall targetId data silent editor id n r tn,
    In (notesRepository_update id n)
       (calls (edit sv user targetId data silent editor)) ->
    resolveEdit sv user targetId data = inr r ->
    notesRepository_findOneBy sv targetId = Some tn ->
    (MiNote.visibility n = "public" <->
     (MiNote.channelId n <> None \/
      (requestedVisibility data tn = "public" /\
       utilityService_isKeyWordIncluded sv (cwOrText data)
         (MiMeta.sensitiveWords (metaService_fetch sv)) = false /\
       RolePolicies.canPublicNote
         (roleService_getUserPolicies sv (MiUser.id user)) = true)) /\
     silencedRemote sv user = false /\
     (forall rn, renote (res_data r) = Some rn ->
                 MiNote.visibility rn <> "home" /\
                 MiNote.visibility rn <> "followers") /\
     (forall rp, reply (res_data r) = Some rp ->
                 MiNote.visibility rp = "public")).
Proof.
  intros targetId data silent editor id n r tn Hin Hr Htn.
  apply edit_update_inv in Hin as (r' & Hr' & ->).
  rewrite Hr in Hr'. injection Hr' as <-.
  destruct (resolved_visibility _ _ Hr Htn)
    as (d0 & d1 & d2 & H1 & H2 & Ecw & Ech & Erp2 & _ & _ & Ern1 & _
        & Ev0 & _ & Evn & _ & _ & Eci).
  rewrite Evn, reply_rule_public, (renote_rule_public _ H2).
  destruct (applyContentPolicy_public _ H1) as [-> _].
  rewrite Ecw, Ech, Erp2, Ern1, Ev0, Eci.
  destruct (channel (res_data r)) as [c|]; cbn [notNull isNull negb option_map].
  - split.
    + intros (((_ & _ & G3) & G4) & G5).
      split; [left; discriminate|].
      split; [exact G3|]. split; [exact G4|exact G5].
    + intros (_ & G3 & G4 & G5).
      split; [|exact G5]. split; [|exact G4].
      split; [reflexivity|]. split; [left; discriminate|exact G3].
  - split.
    + intros ((([= G1] & [G2|G2] & G3) & G4) & G5); [congruence|].
      split; [right; split; assumption|].
      split; [exact G3|]. split; [exact G4|exact G5].
    + intros ([G|(G1 & G2)] & G3 & G4 & G5); [congruence|].
      split; [|exact G5]. split; [|exact G4].
      split; [congruence|]. split; [right; exact G2|exact G3].
Qed.

(** X7. Outside a channel, a visibility other than 'public' (that of the
    caller, else that of the target note) is stored unchanged, except
    that a renote of a 'followers' note is stored as 'followers'
    whatever was asked for. *)
Theorem restricted_visibility_is_kept :
  forall targetId data silent editor id n r tn,
    In (notesRepository_update id n)
       (calls (edit sv user targetId data silent editor)) ->
    resolveEdit sv user targetId data = inr r ->
    notesRepository_findOneBy sv targetId = Some tn ->
    MiNote.channelId n = None ->
    requestedVisibility data tn <> "public" ->
    MiNote.visibility n
    = match renote (res_data r) with
      | Some rn =>
          if MiNote.visibility rn =? "followers" then "followers"
          else requestedVisibility data tn
      | None => requestedVisibility data tn
      end.
Proof.
  intros targetId data silent editor id n r tn Hin Hr Htn Hc Hv.
  apply edit_update_inv in Hin as (r' & Hr' & ->).
  rewrite Hr in Hr'. injection Hr' as <-.
  destruct (resolved_visibility _ _ Hr Htn)
    as (d0 & d1 & d2 & H1 & H2 & _ & _ & _ & _ & _ & Ern1 & _
        & Ev0 & _ & Evn & _ & _ & Eci).
  rewrite Eci in Hc.
  destruct (channel (res_data r)) as [c|]; [discriminate Hc|].
  cbn [notNull isNull negb] in Ev0.
  destruct (applyContentPolicy_public _ H1) as [_ E1].
  assert (N0 : visibility d0 <> Some "public") by (rewrite Ev0; congruence).
  specialize (E1 N0).
  pose proof (applyRenoteVisibility_exact _ H2) as E2.
  rewrite Ern1 in E2.
  assert (N1 : visibilityIs "public" d1 = false)
    by (apply visibilityIs_false; rewrite E1; exact N0).
  rewrite N1, E1, Ev0 in E2.
  rewrite Evn. unfold visibilityOf.
  destruct (applyReplyAndLocality_exact d2) as [-> _].
  assert (N2 : visibilityIs "public" d2 = false).
  { apply visibilityIs_false. rewrite E2.
    destruct (renote (res_data r)) as [rn|]; [|congruence].
    destruct (MiNote.visibility rn =? "home"); [congruence|].
    destruct (MiNote.visibility rn =? "followers"); congruence. }
  rewrite N2. cbn [andb]. rewrite E2.
  destruct (renote (res_data r)) as [rn|]; [|reflexivity].
  destruct (MiNote.visibility rn =? "home") eqn:Eh;
    destruct (MiNote.visibility rn =? "followers") eqn:Ef;
    try reflexivity.
  apply String.eqb_eq in Eh, Ef. congruence.
Qed.

(** X8. The stored record is local-only exactly when it is posted to a
    channel, or the locality asked for (that of the caller, else that of
    the target note) is true, or the renote target is local-only, or the
    reply target is local-only. *)
Theorem stored_localOnly_characterised :
  forall targetId data silent editor id n r tn,
    In (notesRepository_update id n)
       (calls (edit sv user targetId data silent editor)) ->
    resolveEdit sv user targetId data = inr r ->
    notesRepository_findOneBy sv targetId = Some tn ->
    (MiNote.localOnly n = true <->
     MiNote.channelId n <> None \/
     requestedLocalOnly data tn = true \/
     (exists rn, renote (res_data r) = Some rn /\
                 MiNote.localOnly rn = true) \/
     (exists rp, reply (res_data r) = Some rp /\
                 MiNote.localOnly rp = true)).
Proof.
  intros targetId data silent editor id n r tn Hin Hr Htn.
  apply edit_update_inv in Hin as (r' & Hr' & ->).
  rewrite Hr in Hr'. injection Hr' as <-.
  destruct (resolved_visibility _ _ Hr Htn)
    as (d0 & d1 & d2 & _ & _ & _ & _ & Erp2 & _ & Ern2 & _ & Ech2
        & _ & El2 & _ & El & Eln & Eci).
  rewrite Eln, El, Eci.
  destruct (applyReplyAndLocality_exact d2) as [_ ->].
  rewrite Ech2, Erp2, Ern2, El2.
  destruct (channel (res_data r)) as [c|];
    cbn [notNull isNull negb andb option_map].
  - split; [intros _; left; discriminate|reflexivity].
  - destruct (renote (res_data r)) as [rn|], (reply (res_data r)) as [rp|];
      try destruct (MiNote.localOnly rn) eqn:Ern;
      try destruct (MiNote.localOnly rp) eqn:Erp;
      cbn [orb];
      (split;
       [intros G; first
          [ right; right; left; eexists; split; [reflexivity|assumption]
          | right; right; right; eexists; split; [reflexivity|assumption]
          | right; left; exact G ]
       |intros [G|[G|[(x & G1 & G2)|(x & G1 & G2)]]];
        try reflexivity; try exact G; try congruence;
        try (exfalso; apply G; reflexivity)]).
Qed.

(** What [edit] can throw before it reaches the store. *)
Lemma resolveEdit_fail targetId data e :
  resolveEdit sv user targetId data = inl e ->
  (exists entity key, e = EntityNotFoundError entity key) \/
  e = ContainsProhibitedWordsError \/
  e = newError "Renote target is not public or home" \/
  (e = newError "blocked" /\
   exists tn d0 d1 d2,
     notesRepository_findOneBy sv targetId = Some tn /\
     inheritFromTarget sv targetId tn (resolveReplyChannel sv tn data)
     = inr d0 /\
     applyContentPolicy sv user d0 = inr d1 /\
     applyRenoteVisibility user d1 = inr d2 /\
     checkBlocking sv user d2 = inl e).
Proof.
  unfold resolveEdit. intros H.
  apply rbind_inl in H as [H|(tn & Htn & H)].
  { left. unfold findNoteOrFail, orFail in H.
    destruct (notesRepository_findOneBy sv targetId); [discriminate H|].
    injection H as <-. eauto. }
  assert (Htn' : notesRepository_findOneBy sv targetId = Some tn).
  { unfold findNoteOrFail, orFail in Htn.
    destruct (notesRepository_findOneBy sv targetId); [|discriminate Htn].
    injection Htn as <-. reflexivity. }
  apply rbind_inl in H as [H|(d0 & Hd0 & H)].
  { left. exact (inheritFromTarget_fail _ _ _ _ H). }
  apply rbind_inl in H as [H|(d1 & Hd1 & H)].
  { right. left. exact (applyContentPolicy_fail _ _ _ H). }
  apply rbind_inl in H as [H|(d2 & Hd2 & H)].
  { right. right. left. exact (applyRenoteVisibility_fail _ _ H). }
  apply rbind_inl in H as [H|([] & Hb & H)].
  { right. right. right. split; [exact (proj1 (checkBlocking_fail _ _ _ H))|].
    exists tn, d0, d1, d2. repeat split; assumption. }
  left. cbv zeta in H.
  destruct (analyze sv user (normalizeText sv (applyReplyAndLocality d2)))
    as [[tags emojis] ms].
  apply rbind_inl in H as [H|(ms1 & _ & H)].
  { destruct (addReplyAuthor_fail _ _ _ _ H) as (k & ->). eauto. }
  apply rbind_inl in H as [H|([d4 ms2] & _ & H)]; [|discriminate H].
  apply foldVisibleUsers_fail in H as (k & ->); [eauto|].
  rewrite normalizeText_shape, applyReplyAndLocality_shape.
  apply applyContentPolicy_shape in Hd1 as (v1 & -> & _).
  apply applyRenoteVisibility_shape in Hd2 as (v2 & -> & _).
  fields.
  destruct (inheritFromTarget_ok _ _ _ _ Hd0) as (_ & _ & _ & _ & _ & _ & ->).
  unfold inherited.
  destruct (notNull _); [discriminate|].
  destruct (visibleUsers _); discriminate.
Qed.

(** X9. What [edit] throws. Before any call: an EntityNotFoundError,
    ContainsProhibitedWordsError, Error('Renote target is not public or
    home') or Error('blocked'); the Error('invalid param') of line 387
    is never thrown. After the store update alone: the error
    'duplicated', or, once logged, the error the store threw. After the
    update and the schedule: EntityNotFoundError for the author, when
    the log entry of a foreign editor needs the missing row of the
    author. *)
Theorem edit_throws_only :
  forall targetId data silent editor e,
    outcome (edit sv user targetId data silent editor) = inl e ->
    (calls (edit sv user targetId data silent editor) = [] /\
     ((exists entity key, e = EntityNotFoundError entity key) \/
      e = ContainsProhibitedWordsError \/
      e = newError "Renote target is not public or home" \/
      e = newError "blocked")) \/
    (exists n e',
       calls (edit sv user targetId data silent editor)
       = [notesRepository_update (MiNote.id n) n] /\
       notesRepository_update_throws sv n = Some e' /\
       isDuplicateKeyValueError sv e' = true /\
       e = JsError "duplicated" "Duplicated note") \/
    (exists n,
       calls (edit sv user targetId data silent editor)
       = [notesRepository_update (MiNote.id n) n; console_error e] /\
       notesRepository_update_throws sv n = Some e /\
       isDuplicateKeyValueError sv e = false) \/
    (exists ed n job,
       calls (edit sv user targetId data silent editor)
       = [notesRepository_update (MiNote.id n) n;
          setImmediate_postUpdated job] /\
       editor = Some ed /\
       MiUser.id ed <> MiUser.id user /\
       usersRepository_findOneBy sv (MiUser.id user) = None /\
       e = EntityNotFoundError "MiUser" (MiUser.id user)).
Proof.
  intros targetId data silent editor e. rewrite edit_cases.
  destruct (resolveEdit sv user targetId data) as [e0|r] eqn:Hr.
  { cbn. intros [= <-]. left. split; [reflexivity|].
    destruct (resolveEdit_fail _ _ Hr) as [H|[H|[H|[H _]]]]; auto. }
  cbv zeta.
  destruct (res_note_author _ _ _ _ Hr) as [Hau _].
  destruct (notesRepository_update_throws sv (res_note r)) as [e0|] eqn:Et.
  - destruct (isDuplicateKeyValueError sv e0) eqn:Ed; cbn; intros [= <-].
    + right. left. exists (res_note r), e0. repeat split; assumption.
    + right. right. left. exists (res_note r). repeat split; assumption.
  - destruct editor as [ed|]; [|discriminate].
    destruct (negb (MiNote.userId (res_note r) =? MiUser.id ed)) eqn:En;
      [|discriminate].
    rewrite Hau in *.
    destruct (usersRepository_findOneBy sv (MiUser.id user)) eqn:Eu;
      [discriminate|].
    cbn. intros [= <-]. right. right. right.
    apply negb_true_iff, String.eqb_neq in En.
    do 3 eexists. split; [reflexivity|].
    split; [reflexivity|]. split; [congruence|]. split; reflexivity.
Qed.

(** X10. When [edit] throws Error('blocked'), either the store update
    threw that very error, or no call was made and the edit is a renote
    of a local user other than the poster for whom [checkBlocked]
    answered true, and it is no quote: the payload has no non-empty
    text, no non-empty content warning, no poll and no files. The renote
    target is that of the caller, or the one the target note names. *)
Theorem blocked_only_for_pure_renote :
  forall targetId data silent editor,
    outcome (edit sv user targetId data silent editor)
    = inl (newError "blocked") ->
    (exists n,
       In (notesRepository_update (MiNote.id n) n)
          (calls (edit sv user targetId data silent editor)) /\
       notesRepository_update_throws sv n = Some (newError "blocked")) \/
    (calls (edit sv user targetId data silent editor) = [] /\
     exists tn rn,
       notesRepository_findOneBy sv targetId = Some tn /\
       (renote data = Some rn \/
        (renote data = None /\
         exists rid, MiNote.renoteId tn = Some rid /\
                     notesRepository_findOneBy sv rid = Some rn)) /\
       MiNote.userHost rn = None /\
       MiNote.userId rn <> MiUser.id user /\
       userBlockingService_checkBlocked sv (MiNote.userId rn)
         (MiUser.id user) = true /\
       truthy (text data) = false /\
       truthy (cw data) = false /\
       poll data = None /\
       (forall fs, files data = Some fs -> fs = [])).
Proof.
  intros targetId data silent editor H.
  rewrite edit_cases in H |- *.
  destruct (resolveEdit sv user targetId data) as [e0|r] eqn:Hr.
  2:{ left. cbv zeta in H |- *.
      destruct (notesRepository_update_throws sv (res_note r)) as [e0|]
        eqn:Et.
      - destruct (isDuplicateKeyValueError sv e0); cbn in H;
          [discriminate H|].
        injection H as ->. exists (res_note r).
        split; [left; reflexivity|exact Et].
      - exfalso.
        destruct editor; [destruct (negb _);
                          [destruct (usersRepository_findOneBy sv _)|]|];
          discriminate H. }
  - right. split; [reflexivity|].
    cbn in H. injection H as ->.
    destruct (resolveEdit_fail _ _ Hr)
      as [(? & ? & C)|[C|[C|(_ & tn & d0 & d1 & d2 & Htn & Hd0 & Hd1 & Hd2
                               & Hb)]]];
      try discriminate C.
    apply checkBlocking_fail in Hb
      as (_ & rn & Ern & Eq & Eh & Eu & Eb).
    exists tn, rn. split; [exact Htn|].
    pose proof (applyContentPolicy_shape _ _ _ Hd1) as (v1 & E1 & _).
    pose proof (applyRenoteVisibility_shape _ _ Hd2) as (v2 & E2 & _).
    rewrite E2, E1 in Ern, Eq.
    unfold isQuote in Eq. fields_in Ern. fields_in Eq.
    rewrite Ern in Eq. cbn [notNull isNull negb andb] in Eq.
    apply orb_false_iff in Eq as [Eq Epoll].
    apply orb_false_iff in Eq as [Eq Efiles].
    apply orb_false_iff in Eq as [Etext Ecw].
    pose proof (inheritFromTarget_ok _ _ _ _ Hd0) as (Ecw0 & Etx0 & _).
    pose proof (inheritFromTarget_relations _ _ _ Hd0)
      as (Ern0 & Epoll0 & Efiles0).
    destruct (resolveReplyChannel_shape sv tn data) as (rp & ch & Eshape).
    rewrite Eshape in Ecw0, Etx0, Ern0, Epoll0, Efiles0.
    fields_in Ecw0. fields_in Etx0. fields_in Ern0. fields_in Epoll0.
    fields_in Efiles0.
    rewrite Etx0 in Etext. rewrite Ecw0 in Ecw.
    split.
    { rewrite Ern in Ern0.
      destruct (renote data) as [rn'|].
      - left. congruence.
      - right. split; [reflexivity|].
        destruct (MiNote.renoteId tn) as [rid|]; [|discriminate Ern0].
        exists rid. split; [reflexivity|].
        destruct (truthyStr (Some rid)); [congruence|discriminate Ern0]. }
    repeat (split; [assumption|]).
    split.
    { destruct (poll data) as [p|] eqn:Ep; [|reflexivity].
      rewrite Epoll0 in Epoll by discriminate. discriminate Epoll. }
    intros fs Hfs. rewrite Efiles0, Hfs in Efiles. cbn [inherited] in Efiles.
    apply negb_false_iff, Nat.eqb_eq in Efiles.
    destruct fs; [reflexivity|discriminate Efiles].
Qed.

End VisibilityOfEdit.

Section VisibilityOfEditInstances.
Import NoteEditService Option Js.
Local Open Scope string_scope.
Local Open Scope list_scope.

Lemma public_visibility_is_earned_witness :
  MiNote.visibility (Sample.stored (Sample.textOnly "hi")) = "public".
Proof.
  destruct (@public_visibility_is_earned Sample.services Sample.alice
              "n1" (Sample.textOnly "hi") false None
              "n1" (Sample.stored (Sample.textOnly "hi"))
              (Sample.resolvedOf (Sample.textOnly "hi")) Sample.target)
    as [_ Hback].
  - vm_compute. left. reflexivity.
  - vm_compute. reflexivity.
  - vm_compute. reflexivity.
  - apply Hback. split; [|split; [|split]].
    + right. split; [vm_compute; reflexivity|].
      split; vm_compute; reflexivity.
    + vm_compute. reflexivity.
    + intros rn H. vm_compute in H. discriminate H.
    + intros rp H. vm_compute in H. discriminate H.
Defined.

Lemma restricted_visibility_is_kept_witness :
  MiNote.visibility (Sample.stored Payload.directRenoteOfOwnFollowers)
  = "followers".
Proof.
  transitivity
    (match renote (res_data
                     (Sample.resolvedOf Payload.directRenoteOfOwnFollowers))
     with
     | Some rn =>
         if MiNote.visibility rn =? "followers" then "followers"
         else requestedVisibility Payload.directRenoteOfOwnFollowers
                Sample.target
     | None =>
         requestedVisibility Payload.directRenoteOfOwnFollowers Sample.target
     end).
  - apply (@restricted_visibility_is_kept Sample.services Sample.alice "n1"
             Payload.directRenoteOfOwnFollowers false None "n1").
    + vm_compute. left. reflexivity.
    + vm_compute. reflexivity.
    + vm_compute. reflexivity.
    + vm_compute. reflexivity.
    + vm_compute. discriminate.
  - vm_compute. reflexivity.
Defined.

Lemma stored_localOnly_characterised_witness :
  MiNote.localOnly (Sample.stored Sample.localOnlyEdit) = true.
Proof.
  destruct (@stored_localOnly_characterised Sample.services Sample.alice
              "n1" Sample.localOnlyEdit false None "n1"
              (Sample.stored Sample.localOnlyEdit)
              (Sample.resolvedOf Sample.localOnlyEdit) Sample.target)
    as [_ Hback].
  - vm_compute. left. reflexivity.
  - vm_compute. reflexivity.
  - vm_compute. reflexivity.
  - apply Hback. right. left. vm_compute. reflexivity.
Defined.

Lemma edit_throws_only_witness :
  calls (Sample.run (Sample.renoteOf Sample.bobSpecified)) = [] /\
  ((exists entity key,
      newError "Renote target is not public or home"
      = EntityNotFoundError entity key) \/
   newError "Renote target is not public or home"
   = ContainsProhibitedWordsError \/
   newError "Renote target is not public or home"
   = newError "Renote target is not public or home" \/
   newError "Renote target is not public or home" = newError "blocked").
Proof.
  destruct (@edit_throws_only Sample.services Sample.alice "n1"
              (Sample.renoteOf Sample.bobSpecified) false None
              (newError "Renote target is not public or home"))
    as [H|[(n & e' & _ & _ & _ & C)|[(n & C & _)|(ed & n & job & C & _)]]].
  - vm_compute. reflexivity.
  - exact H.
  - discriminate C.
  - vm_compute in C. discriminate C.
  - vm_compute in C. discriminate C.
Defined.

Lemma blocked_only_for_pure_renote_witness :
  calls (edit (Scenario.servicesFor Sample.notes true true) Sample.alice
           "n1" (Payload.pureRenoteOf Sample.bobPublic) false None) = [] /\
  userBlockingService_checkBlocked
    (Scenario.servicesFor Sample.notes true true)
    (MiNote.userId Sample.bobPublic) (MiUser.id Sample.alice) = true.
Proof.
  destruct (@blocked_only_for_pure_renote
              (Scenario.servicesFor Sample.notes true true) Sample.alice
              "n1" (Payload.pureRenoteOf Sample.bobPublic) false None)
    as [(n & Hin & _)|(Hc & tn & rn & _ & Hrn & _ & _ & Hb & _)].
  - vm_compute. reflexivity.
  - vm_compute in Hin. destruct Hin.
  - split; [exact Hc|].
    destruct Hrn as [Hrn|(Hrn & _)]; [|vm_compute in Hrn; discriminate Hrn].
    injection Hrn as <-. exact Hb.
Defined.

End VisibilityOfEditInstances.

(** ** edit: text and mentions *)

Section TextOfEdit.
Import NoteEditService Option Js.
Local Open Scope string_scope.
Local Open Scope list_scope.

Lemma trimStart_suffix s : exists ws, s = ws ++ trimStart s /\
  forallb isWhiteSpace ws = true.
Proof.
  induction s as [|u s IH]; [exists []; split; reflexivity|].
  cbn [trimStart]. destruct (isWhiteSpace u) eqn:E.
  - destruct IH as (ws & Hs & Hw). exists (u :: ws). split.
    + cbn. rewrite <- Hs. reflexivity.
    + cbn. rewrite E, Hw. reflexivity.
  - exists []. split; reflexivity.
Qed.

Lemma trimStart_head s u :
  hd_error (trimStart s) = Some u -> isWhiteSpace u = false.
Proof.
  induction s as [|v s IH]; [discriminate|].
  cbn [trimStart]. destruct (isWhiteSpace v) eqn:E; [exact IH|].
  intros [= <-]. exact E.
Qed.

Lemma trimStart_length s : List.length (trimStart s) <= List.length s.
Proof.
  destruct (trimStart_suffix s) as (ws & Hs & _).
  rewrite Hs at 2. rewrite length_app. lia.
Qed.

Lemma trimEnd_prefix s : exists ws, s = trimEnd s ++ ws /\
  forallb isWhiteSpace ws = true.
Proof.
  unfold trimEnd. destruct (trimStart_suffix (rev s)) as (ws & Hs & Hw).
  exists (rev ws). split.
  - rewrite <- rev_app_distr, <- Hs, rev_involutive. reflexivity.
  - rewrite forallb_forall in Hw |- *. intros x Hx. apply Hw.
    apply in_rev. exact Hx.
Qed.

Lemma trimEnd_length s : List.length (trimEnd s) <= List.length s.
Proof.
  unfold trimEnd. rewrite length_rev.
  rewrite <- (length_rev s). apply trimStart_length.
Qed.

(** [trim] leaves a substring with no white space at either end. *)
Lemma trim_spec s :
  (exists front back,
     s = front ++ trim s ++ back /\
     forallb isWhiteSpace front = true /\
     forallb isWhiteSpace back = true) /\
  (forall u, hd_error (trim s) = Some u -> isWhiteSpace u = false) /\
  (forall u, lastUnit (trim s) = Some u -> isWhiteSpace u = false) /\
  List.length (trim s) <= List.length s.
Proof.
  unfold trim. split; [|split; [|split]].
  - destruct (trimStart_suffix s) as (front & Hs & Hf).
    destruct (trimEnd_prefix (trimStart s)) as (back & Hb & Hbw).
    exists front, back. split; [|split; assumption].
    rewrite <- Hb. exact Hs.
  - intros u Hu.
    destruct (trimEnd_prefix (trimStart s)) as (back & Hb & _).
    apply (@trimStart_head s u). rewrite Hb.
    destruct (trimEnd (trimStart s)); [discriminate Hu|exact Hu].
  - intros u. unfold lastUnit, trimEnd. rewrite rev_involutive.
    apply trimStart_head.
  - etransitivity; [apply trimEnd_length|apply trimStart_length].
Qed.

Variable sv : Services.
Variable user : MiUser.t.

(** The text and the content warning of the stored note come from the
    payload alone. *)
Lemma resolved_text targetId data r :
  resolveEdit sv user targetId data = inr r ->
  MiNote.text (res_note r) = text (normalizeText sv data) /\
  MiNote.cw (res_note r) = cw data.
Proof.
  intros H. apply resolveEdit_inv in H
    as (tn & d0 & d1 & d2 & ms1 & d4 & ms2 & _ & Hd0 & Hd1 & Hd2 & _ & H).
  cbv zeta in H. destruct H as (_ & Hf & ->).
  cbn [res_note newNote MiNote.text MiNote.cw].
  apply foldVisibleUsers_shape in Hf as (E4 & _).
  apply applyContentPolicy_shape in Hd1 as (v1 & E1 & _).
  apply applyRenoteVisibility_shape in Hd2 as (v2 & E2 & _).
  destruct (inheritFromTarget_ok _ _ _ _ Hd0) as (Ecw & Etx & _).
  destruct (resolveReplyChannel_shape sv tn data) as (rp & ch & Eshape).
  rewrite Eshape in Ecw, Etx. cbn [cw text set_channel set_reply] in Ecw, Etx.
  assert (E3 : text (applyReplyAndLocality d2) = text data /\
               cw (applyReplyAndLocality d2) = cw data).
  { rewrite applyReplyAndLocality_shape, E2, E1. cbn. split; assumption. }
  destruct E3 as [E3t E3c].
  assert (En : text (normalizeText sv (applyReplyAndLocality d2))
               = text (normalizeText sv data)).
  { unfold normalizeText. rewrite E3t.
    destruct (text data) as [[|u t]|]; reflexivity. }
  assert (Ec : cw (normalizeText sv (applyReplyAndLocality d2)) = cw data).
  { rewrite normalizeText_shape. cbn. exact E3c. }
  unfold when_. destruct (notNull (apMentions d4));
    cbn [text cw set_apMentions]; rewrite E4; cbn [text cw set_visibleUsers];
    split; assumption.
Qed.

(** X11. The content warning is stored as given. A null or empty text is
    stored as null, whatever text the target note has. A non-empty text
    is cut to DB_MAX_NOTE_TEXT_LENGTH code units and trimmed: the stored
    text is the cut text without a prefix and a suffix of white space,
    it neither starts nor ends with white space, and it has at most
    DB_MAX_NOTE_TEXT_LENGTH code units. *)
Theorem stored_text_is_cut_and_trimmed :
  forall targetId data silent editor id n,
    In (notesRepository_update id n)
       (calls (edit sv user targetId data silent editor)) ->
    MiNote.cw n = cw data /\
    (truthy (text data) = false -> MiNote.text n = None) /\
    (forall t,
       text data = Some t -> t <> [] ->
       exists stored front back,
         MiNote.text n = Some stored /\
         firstn (DB_MAX_NOTE_TEXT_LENGTH sv) t = front ++ stored ++ back /\
         forallb isWhiteSpace front = true /\
         forallb isWhiteSpace back = true /\
         (forall u, hd_error stored = Some u -> isWhiteSpace u = false) /\
         (forall u, lastUnit stored = Some u -> isWhiteSpace u = false) /\
         List.length stored <= DB_MAX_NOTE_TEXT_LENGTH sv).
Proof.
  intros targetId data silent editor id n Hin.
  apply edit_update_inv in Hin as (r & Hr & ->).
  destruct (resolved_text _ _ Hr) as [-> ->].
  split; [reflexivity|]. unfold normalizeText. split.
  - destruct (text data) as [[|u t]|]; [reflexivity|discriminate|reflexivity].
  - intros t -> Ht. destruct t as [|u t]; [congruence|].
    cbn [text set_text].
    assert (Ecut : (if (DB_MAX_NOTE_TEXT_LENGTH sv <? List.length (u :: t))%nat
                    then slice0 (DB_MAX_NOTE_TEXT_LENGTH sv) (u :: t)
                    else u :: t)
                   = firstn (DB_MAX_NOTE_TEXT_LENGTH sv) (u :: t)).
    { destruct (Nat.ltb_spec (DB_MAX_NOTE_TEXT_LENGTH sv)
                  (List.length (u :: t))) as [L|L]; [reflexivity|].
      symmetry. apply firstn_all2. exact L. }
    rewrite Ecut.
    destruct (trim_spec (firstn (DB_MAX_NOTE_TEXT_LENGTH sv) (u :: t)))
      as ((front & back & Hs & Hf & Hb) & Hh & Hl & Hlen).
    exists (trim (firstn (DB_MAX_NOTE_TEXT_LENGTH sv) (u :: t))), front, back.
    split; [reflexivity|]. split; [exact Hs|].
    split; [exact Hf|]. split; [exact Hb|].
    split; [exact Hh|]. split; [exact Hl|].
    etransitivity; [exact Hlen|]. rewrite length_firstn. lia.
Qed.

End TextOfEdit.

Section MentionsOfEdit.
Import NoteEditService Option Js.
Local Open Scope string_scope.
Local Open Scope list_scope.

Variable sv : Services.
Variable user : MiUser.t.

Lemma existsb_eqb_id (k : Id) (seen : list Id) :
  existsb (String.eqb k) seen = true <-> In k seen.
Proof.
  rewrite existsb_exists. split.
  - intros (x & Hx & E). apply String.eqb_eq in E. subst. exact Hx.
  - intros H. exists k. split; [exact H|apply String.eqb_refl].
Qed.

(** The duplicate filter keeps, for every identifier that is not in
    [seen], the first user that carries it. *)
Lemma dropDuplicateUsers_spec us : forall seen,
  NoDup (map MiUser.id (dropDuplicateUsers seen us)) /\
  (forall u, In u (dropDuplicateUsers seen us) ->
             ~ In (MiUser.id u) seen /\
             find (fun x => MiUser.id x =? MiUser.id u) us = Some u) /\
  (forall u, In u us ->
             In (MiUser.id u) seen \/
             In (MiUser.id u) (map MiUser.id (dropDuplicateUsers seen us))).
Proof.
  induction us as [|u us IH]; intros seen.
  { split; [constructor|]. split; [intros ? []|intros ? []]. }
  cbn [dropDuplicateUsers].
  destruct (existsb (String.eqb (MiUser.id u)) seen) eqn:E.
  - apply existsb_eqb_id in E.
    destruct (IH seen) as (Hnd & Hin & Hall).
    split; [exact Hnd|]. split.
    + intros v Hv. destruct (Hin v Hv) as [Hns Hf]. split; [exact Hns|].
      cbn [find]. destruct (MiUser.id u =? MiUser.id v) eqn:Euv; [|exact Hf].
      apply String.eqb_eq in Euv. rewrite Euv in E. contradiction.
    + intros v [<-|Hv]; [left; exact E|apply Hall; exact Hv].
  - assert (Hns : ~ In (MiUser.id u) seen).
    { intros C. apply existsb_eqb_id in C. congruence. }
    destruct (IH (MiUser.id u :: seen)) as (Hnd & Hin & Hall).
    split; [|split].
    + cbn [map]. constructor; [|exact Hnd].
      intros C. apply in_map_iff in C as (v & Ev & Hv).
      destruct (Hin v Hv) as [Hv' _]. apply Hv'. left. symmetry. exact Ev.
    + intros v [<-|Hv].
      * split; [exact Hns|]. cbn [find]. rewrite String.eqb_refl. reflexivity.
      * destruct (Hin v Hv) as [Hv' Hf]. split.
        { intros C. apply Hv'. right. exact C. }
        cbn [find].
        destruct (MiUser.id u =? MiUser.id v) eqn:Euv; [|exact Hf].
        apply String.eqb_eq in Euv. exfalso. apply Hv'. left. exact Euv.
    + intros v [<-|Hv]; [right; left; reflexivity|].
      destruct (Hall v Hv) as [[C|C]|C].
      * right. left. exact C.
      * left. exact C.
      * right. right. exact C.
Qed.

(** X12. [extractMentionedUsers] returns users with pairwise distinct
    ids; each of them was resolved from one of the extracted mentions,
    on the host of the mention or, when it names none, on the host of
    the poster; and every mention that resolves is represented by a
    returned user with the same id. *)
Theorem extractMentionedUsers_distinct :
  forall tokens,
    let hostOf (m : string * Host) :=
        match snd m with Some h => Some h | None => MiUser.host user end in
    NoDup (map MiUser.id (extractMentionedUsers sv user tokens)) /\
    (forall u,
       In u (extractMentionedUsers sv user tokens) ->
       exists m,
         In m (extractMentions sv tokens) /\
         remoteUserResolveService_resolveUser sv (fst m) (hostOf m)
         = Some u) /\
    (forall m u,
       In m (extractMentions sv tokens) ->
       remoteUserResolveService_resolveUser sv (fst m) (hostOf m) = Some u ->
       exists u',
         In u' (extractMentionedUsers sv user tokens) /\
         MiUser.id u' = MiUser.id u).
Proof.
  intros tokens hostOf. unfold extractMentionedUsers.
  set (resolved := flat_map _ (extractMentions sv tokens)).
  assert (Hres : forall u, In u resolved <->
            exists m, In m (extractMentions sv tokens) /\
              remoteUserResolveService_resolveUser sv (fst m) (hostOf m)
              = Some u).
  { intros u. unfold resolved. rewrite in_flat_map. split.
    - intros (m & Hm & Hu). exists m. split; [exact Hm|].
      unfold hostOf.
      destruct (remoteUserResolveService_resolveUser sv (fst m) _)
        as [u'|]; [|destruct Hu].
      destruct Hu as [<-|[]]. reflexivity.
    - intros (m & Hm & Hu). exists m. split; [exact Hm|].
      unfold hostOf in Hu. rewrite Hu. left. reflexivity. }
  destruct (dropDuplicateUsers_spec resolved []) as (Hnd & Hin & Hall).
  split; [exact Hnd|]. split.
  - intros u Hu. apply Hres. destruct (Hin u Hu) as [_ Hf].
    apply find_some in Hf as [Hf _]. exact Hf.
  - intros m u Hm Hu.
    assert (Hr : In u resolved) by (apply Hres; eauto).
    destruct (Hall u Hr) as [[]|C].
    apply in_map_iff in C as (u' & E & Hu'). eauto.
Qed.

Lemma someId_In k us :
  someId k us = true <-> In k (map MiUser.id us).
Proof.
  unfold someId. rewrite existsb_exists, in_map_iff. split.
  - intros (x & Hx & E). apply String.eqb_eq in E. eauto.
  - intros (x & E & Hx). exists x. split; [exact Hx|].
    apply String.eqb_eq. exact E.
Qed.

Lemma pushMissing_spec vus : forall ms,
  let ms' := fold_left
               (fun ms u =>
                  if negb (someId (MiUser.id u) ms) then ms ++ [u] else ms)
               vus ms in
  (forall x, In x ms -> In x ms') /\
  (forall u, In u vus -> In (MiUser.id u) (map MiUser.id ms')).
Proof.
  induction vus as [|v vus IH]; intros ms; cbn [fold_left].
  { split; [auto|intros ? []]. }
  destruct (IH (if negb (someId (MiUser.id v) ms) then ms ++ [v] else ms))
    as [Hkeep Hall].
  split.
  - intros x Hx. apply Hkeep.
    destruct (negb _); [apply in_or_app; left; exact Hx|exact Hx].
  - intros u [->|Hu]; [|apply Hall; exact Hu].
    destruct (someId (MiUser.id u) ms) eqn:E; cbn [negb] in Hkeep |- *.
    + apply someId_In in E. apply in_map_iff in E as (x & Ex & Hx).
      rewrite <- Ex. apply in_map. apply Hkeep. exact Hx.
    + apply in_map. apply Hkeep. apply in_or_app. right. left. reflexivity.
Qed.

(** Lines 382-398 on the two arrays. *)
Lemma mentions_and_visible_users d ms0 ms1 d4 ms2 :
  (forall k u, usersRepository_findOneBy sv k = Some u -> MiUser.id u = k) ->
  addReplyAuthor sv user d ms0 = inr ms1 ->
  foldVisibleUsers sv d ms1 = inr (d4, ms2) ->
  (forall rp, reply d = Some rp -> MiNote.userId rp <> MiUser.id user ->
              In (MiNote.userId rp) (map MiUser.id ms2)) /\
  (forall x, In x ms0 -> In x ms2) /\
  (visibilityIs "specified" d = true ->
   forall vus k,
     visibleUsers d4 = Some vus -> In k (map MiUser.id vus) ->
     In k (map MiUser.id ms2) \/
     (k = MiUser.id user /\
      exists rp, reply d = Some rp /\ MiNote.userId rp = k)).
Proof.
  intros Hkey Ha Hf.
  assert (H1 : (forall x, In x ms0 -> In x ms1) /\
               forall rp, reply d = Some rp ->
                 MiNote.userId rp <> MiUser.id user ->
                 In (MiNote.userId rp) (map MiUser.id ms1)).
  { unfold addReplyAuthor, findUserOrFail, orFail in Ha.
    destruct (reply d) as [rp|].
    - destruct (negb (MiUser.id user =? MiNote.userId rp)) eqn:E1.
      + destruct (someId (MiNote.userId rp) ms0) eqn:E2; cbn [negb andb] in Ha.
        * injection Ha as <-. split; [auto|].
          intros rp' [= <-] _. apply someId_In. exact E2.
        * destruct (usersRepository_findOneBy sv (MiNote.userId rp))
            as [u|] eqn:Eu; [|discriminate Ha].
          cbn in Ha. injection Ha as <-. split.
          { intros x Hx. apply in_or_app. left. exact Hx. }
          intros rp' [= <-] _. rewrite map_app. apply in_or_app. right.
          left. apply Hkey. exact Eu.
      + cbn [andb] in Ha. injection Ha as <-. split; [auto|].
        intros rp' [= <-] C. exfalso. apply C.
        apply negb_false_iff, String.eqb_eq in E1. congruence.
    - injection Ha as <-. split; [auto|discriminate]. }
  destruct H1 as [H1a H1b].
  unfold foldVisibleUsers, findUserOrFail, orFail in Hf.
  destruct (visibilityIs "specified" d) eqn:Ev.
  2:{ injection Hf as <- <-. split; [exact H1b|]. split; [exact H1a|].
      discriminate. }
  destruct (visibleUsers d) as [vus|] eqn:Evu; [|discriminate Hf].
  destruct (pushMissing_spec vus ms1) as [Hkeep Hall]. cbv zeta in Hkeep, Hall.
  assert (G : ms2 = fold_left
               (fun ms u =>
                  if negb (someId (MiUser.id u) ms) then ms ++ [u] else ms)
               vus ms1 ->
             (forall rp, reply d = Some rp ->
                MiNote.userId rp <> MiUser.id user ->
                In (MiNote.userId rp) (map MiUser.id ms2)) /\
             (forall x, In x ms0 -> In x ms2)).
  { intros ->. split.
    - intros rp Hrp Hne. specialize (H1b rp Hrp Hne).
      apply in_map_iff in H1b as (x & Ex & Hx). rewrite <- Ex.
      apply in_map. apply Hkeep. exact Hx.
    - intros x Hx. apply Hkeep. apply H1a. exact Hx. }
  destruct (reply d) as [rp|] eqn:Erp.
  - destruct (negb (someId (MiNote.userId rp) vus)) eqn:Es.
    + destruct (usersRepository_findOneBy sv (MiNote.userId rp))
        as [u|] eqn:Eu; [|discriminate Hf].
      cbn in Hf. injection Hf as <- <-.
      destruct (G eq_refl) as [G1 G2].
      split; [exact G1|]. split; [exact G2|].
      intros _ vus' k [= <-] Hk. rewrite map_app in Hk.
      apply in_app_or in Hk as [Hk|[Hk|[]]].
      * left. apply in_map_iff in Hk as (x & <- & Hx). apply Hall. exact Hx.
      * apply Hkey in Eu. rewrite Eu in Hk. subst k.
        destruct (String.eqb_spec (MiNote.userId rp) (MiUser.id user))
          as [E|E].
        { right. split; [exact E|]. exists rp. split; reflexivity. }
        left. apply G1; [reflexivity|exact E].
    + injection Hf as <- <-.
      destruct (G eq_refl) as [G1 G2].
      split; [exact G1|]. split; [exact G2|].
      intros _ vus' k Hv Hk. rewrite Evu in Hv. injection Hv as <-.
      left. apply in_map_iff in Hk as (x & <- & Hx). apply Hall. exact Hx.
  - injection Hf as <- <-.
    destruct (G eq_refl) as [G1 G2].
    split; [exact G1|]. split; [exact G2|].
    intros _ vus' k Hv Hk. rewrite Evu in Hv. injection Hv as <-.
    left. apply in_map_iff in Hk as (x & <- & Hx). apply Hall. exact Hx.
Qed.

Lemma resolved_mentions targetId data r :
  (forall k u, usersRepository_findOneBy sv k = Some u -> MiUser.id u = k) ->
  resolveEdit sv user targetId data = inr r ->
  MiNote.mentions (res_note r)
  = match res_mentionedUsers r with
    | [] => None
    | _ :: _ => Some (map MiUser.id (res_mentionedUsers r))
    end /\
  (forall k, MiNote.replyUserId (res_note r) = Some k ->
             k <> MiUser.id user ->
             In k (map MiUser.id (res_mentionedUsers r))) /\
  (MiNote.visibility (res_note r) = "specified" ->
   forall k, In k (MiNote.visibleUserIds (res_note r)) ->
             In k (map MiUser.id (res_mentionedUsers r)) \/
             (k = MiUser.id user /\
              MiNote.replyUserId (res_note r) = Some k)).
Proof.
  intros Hkey H. apply resolveEdit_inv in H
    as (tn & d0 & d1 & d2 & ms1 & d4 & ms2 & _ & _ & _ & _ & _ & H).
  cbv zeta in H. destruct H as (Ha & Hf & ->).
  set (d3 := normalizeText sv (applyReplyAndLocality d2)) in *.
  destruct (@mentions_and_visible_users d3 _ ms1 d4 ms2 Hkey Ha Hf)
    as (M1 & _ & M3).
  pose proof (@foldVisibleUsers_shape sv d3 ms1 d4 ms2 Hf) as (E4 & E4n & _).
  cbn [res_note res_mentionedUsers newNote MiNote.mentions
       MiNote.replyUserId MiNote.visibility MiNote.visibleUserIds].
  assert (Erp : reply (when_ (notNull (apMentions d4))
                         (set_apMentions (Some ms2)) d4) = reply d3)
    by (unfold when_; destruct (notNull _); cbn [reply set_apMentions];
        rewrite E4; reflexivity).
  assert (Evi : visibility (when_ (notNull (apMentions d4))
                              (set_apMentions (Some ms2)) d4)
                = visibility d3)
    by (unfold when_; destruct (notNull _); cbn [visibility set_apMentions];
        rewrite E4; reflexivity).
  assert (Evu : visibleUsers (when_ (notNull (apMentions d4))
                                (set_apMentions (Some ms2)) d4)
                = visibleUsers d4)
    by (unfold when_; destruct (notNull _); reflexivity).
  unfold visibilityIs. rewrite Erp, Evi, Evu.
  split; [destruct ms2; reflexivity|]. split.
  - intros k Hk Hne. destruct (reply d3) as [rp|]; [|discriminate Hk].
    injection Hk as <-. apply (M1 rp eq_refl Hne).
  - intros Hs k Hk.
    assert (Es : visibility d3 = Some "specified").
    { destruct (visibility d3) as [v|]; [congruence|discriminate Hs]. }
    rewrite Es in Hk. cbn [optStrEqb String.eqb Ascii.eqb Bool.eqb] in Hk.
    destruct (visibleUsers d4) as [vus|] eqn:Ev4; [|destruct Hk].
    destruct (M3 (proj2 (visibilityIs_true _ _) Es) vus k eq_refl Hk)
      as [G|(G1 & rp & G2 & G3)]; [left; exact G|].
    right. split; [exact G1|]. rewrite G2. cbn. congruence.
Qed.

(** X13. If user rows are keyed by their id, the mentions of a stored
    reply to a note of another user contain the author of the reply
    target. *)
Theorem reply_author_is_mentioned :
  forall targetId data silent editor id n k,
    (forall k' u, usersRepository_findOneBy sv k' = Some u ->
                  MiUser.id u = k') ->
    In (notesRepository_update id n)
       (calls (edit sv user targetId data silent editor)) ->
    MiNote.replyUserId n = Some k ->
    k <> MiUser.id user ->
    exists ms, MiNote.mentions n = Some ms /\ In k ms.
Proof.
  intros targetId data silent editor id n k Hkey Hin Hk Hne.
  apply edit_update_inv in Hin as (r & Hr & ->).
  destruct (@resolved_mentions targetId data r Hkey Hr) as (Em & Hrp & _).
  specialize (Hrp k Hk Hne). rewrite Em.
  destruct (res_mentionedUsers r); [destruct Hrp|].
  eexists. split; [reflexivity|exact Hrp].
Qed.

(** X14. If user rows are keyed by their id, every visible user of a
    stored 'specified' note is among its mentions; the one exception is
    the poster, who is a visible user without being mentioned when the
    note replies to a note of the poster. *)
Theorem direct_note_visible_users_are_mentioned :
  forall targetId data silent editor id n k,
    (forall k' u, usersRepository_findOneBy sv k' = Some u ->
                  MiUser.id u = k') ->
    In (notesRepository_update id n)
       (calls (edit sv user targetId data silent editor)) ->
    MiNote.visibility n = "specified" ->
    In k (MiNote.visibleUserIds n) ->
    (exists ms, MiNote.mentions n = Some ms /\ In k ms) \/
    (k = MiUser.id user /\ MiNote.replyUserId n = Some k).
Proof.
  intros targetId data silent editor id n k Hkey Hin Hs Hk.
  apply edit_update_inv in Hin as (r & Hr & ->).
  destruct (@resolved_mentions targetId data r Hkey Hr) as (Em & _ & Hvu).
  destruct (Hvu Hs k Hk) as [G|G]; [left|right; exact G].
  rewrite Em. destruct (res_mentionedUsers r); [destruct G|].
  eexists. split; [reflexivity|exact G].
Qed.

End MentionsOfEdit.

Section TextOfEditInstances.
Import NoteEditService Option Js.
Local Open Scope string_scope.
Local Open Scope list_scope.

Lemma stored_text_is_cut_and_trimmed_witness :
  (exists stored front back,
     MiNote.text (Sample.stored Texts.padded) = Some stored /\
     firstn (DB_MAX_NOTE_TEXT_LENGTH Sample.services) (lit "  hi there ")
     = front ++ stored ++ back /\
     (forall u, hd_error stored = Some u -> isWhiteSpace u = false) /\
     (forall u, lastUnit stored = Some u -> isWhiteSpace u = false)) /\
  MiNote.text (Sample.stored Texts.cwOnly) = None.
Proof.
  split.
  - destruct (@stored_text_is_cut_and_trimmed Sample.services Sample.alice
                "n1" Texts.padded false None "n1"
                (Sample.stored Texts.padded)) as (_ & _ & H).
    + vm_compute. left. reflexivity.
    + destruct (H (lit "  hi there "))
        as (stored & front & back & E1 & E2 & _ & _ & E3 & E4 & _).
      * reflexivity.
      * discriminate.
      * exists stored, front, back.
        split; [exact E1|]. split; [exact E2|]. split; [exact E3|exact E4].
  - destruct (@stored_text_is_cut_and_trimmed Sample.services Sample.alice
                "n1" Texts.cwOnly false None "n1"
                (Sample.stored Texts.cwOnly)) as (_ & H & _).
    + vm_compute. left. reflexivity.
    + apply H. reflexivity.
Defined.

Lemma sample_users_keyed k u :
  usersRepository_findOneBy Sample.services k = Some u -> MiUser.id u = k.
Proof.
  intros H. apply find_some in H as [_ H]. apply String.eqb_eq. exact H.
Qed.

Lemma reply_author_is_mentioned_witness :
  exists ms,
    MiNote.mentions (Sample.stored Sample.replyToBob) = Some ms /\
    In "bob" ms.
Proof.
  apply (@reply_author_is_mentioned Sample.services Sample.alice "n1"
           Sample.replyToBob false None "n1"
           (Sample.stored Sample.replyToBob) "bob").
  - exact sample_users_keyed.
  - vm_compute. left. reflexivity.
  - vm_compute. reflexivity.
  - discriminate.
Defined.

Lemma direct_note_visible_users_are_mentioned_witness :
  (exists ms,
     MiNote.mentions (Sample.stored Sample.specifiedReply) = Some ms /\
     In "bob" ms) \/
  ("bob" = MiUser.id Sample.alice /\
   MiNote.replyUserId (Sample.stored Sample.specifiedReply) = Some "bob").
Proof.
  apply (@direct_note_visible_users_are_mentioned Sample.services
           Sample.alice "n1" Sample.specifiedReply false None "n1"
           (Sample.stored Sample.specifiedReply) "bob").
  - exact sample_users_keyed.
  - vm_compute. left. reflexivity.
  - vm_compute. reflexivity.
  - vm_compute. left. reflexivity.
Defined.

End TextOfEditInstances.

(** ** The fan-out: who is told *)

Section FanoutMore.
Import NoteEditService Option Js.
Local Open Scope string_scope.
Local Open Scope list_scope.

Lemma each_bind {A B} (P : Call -> Prop) (m : M A) (f : A -> M B) :
  Forall P (calls m) -> (forall a, Forall P (calls (f a))) ->
  Forall P (calls (bind m f)).
Proof.
  intros Hm Hf. rewrite calls_bind. destruct (outcome m); [exact Hm|].
  apply Forall_app. split; [exact Hm|apply Hf].
Qed.

Lemma each_ret {A} (P : Call -> Prop) (a : A) : Forall P (calls (ret a)).
Proof. constructor. Qed.

Lemma each_raise {A} (P : Call -> Prop) e : Forall P (calls (@raise A e)).
Proof. constructor. Qed.

Lemma each_lift {A} (P : Call -> Prop) (r : Result A) :
  Forall P (calls (lift r)).
Proof. constructor. Qed.

Lemma each_call (P : Call -> Prop) c : P c -> Forall P (calls (call c)).
Proof. intros H. constructor; [exact H|constructor]. Qed.

Lemma each_whenM (P : Call -> Prop) c m :
  (c = true -> Forall P (calls m)) -> Forall P (calls (whenM c m)).
Proof. destruct c; intros H; [apply H; reflexivity|constructor]. Qed.

Lemma each_forM_ {A} (P : Call -> Prop) (xs : list A) body :
  (forall x, In x xs -> Forall P (calls (body x))) ->
  Forall P (calls (forM_ xs body)).
Proof.
  induction xs as [|x xs IH]; intros H; [constructor|].
  cbn [forM_]. apply each_bind.
  - apply H. left. reflexivity.
  - intros _. apply IH. intros y Hy. apply H. right. exact Hy.
Qed.

Ltac each_call_step :=
  first
    [ apply each_ret | apply each_raise | apply each_lift
    | apply each_whenM; intros ?
    | apply each_forM_; intros ? ?
    | apply each_bind; [|intros ?]
    | match goal with
      | |- Forall _ (calls (if ?c then _ else _)) => destruct c eqn:?
      | |- Forall _ (calls (match ?x with _ => _ end)) => destruct x eqn:?
      | |- Forall _ (calls (let _ := _ in _)) => cbv zeta
      end ].

Lemma includesStr_In vs v : includesStr vs v = true <-> In v vs.
Proof.
  unfold includesStr. rewrite existsb_exists. split.
  - intros (x & Hx & E). apply String.eqb_eq in E. subst. exact Hx.
  - intros H. exists v. split; [exact H|apply String.eqb_refl].
Qed.

(** X15. Every call of the fan-out to the deliver manager or the relays
    is made for a local poster and for an edit that is not silent. The
    manager is created for the poster with the rendered activity; a
    direct recipient is a remote user who is mentioned, or the looked-up
    author of a remote reply or renote target; the followers are added
    only for a note that is 'public', 'home' or 'followers'; the relays
    get the activity only for a 'public' note. *)
Theorem delivery_recipients :
  forall sv user note data silent tags ms c,
    In c (calls (postNoteEdited sv user note data silent tags ms)) ->
    isDeliveryCall c = true ->
    silent = false /\
    isLocalUser user = true /\
    match c with
    | apDeliverManagerService_createDeliverManager u a =>
        u = user /\
        a = renderNoteOrRenoteActivity sv data note (MiUser.id user)
    | dm_addDirectRecipe u =>
        isRemoteUser u = true /\
        (In u ms \/
         (exists rp, reply data = Some rp /\ MiNote.userHost rp <> None /\
            usersRepository_findOneBy sv (MiNote.userId rp) = Some u) \/
         (exists rn, renote data = Some rn /\ MiNote.userHost rn <> None /\
            usersRepository_findOneBy sv (MiNote.userId rn) = Some u))
    | dm_addFollowersRecipe =>
        In (MiNote.visibility note) ["public"; "home"; "followers"]
    | relayService_deliverToRelays u a =>
        MiNote.visibility note = "public" /\
        u = user /\
        a = renderNoteOrRenoteActivity sv data note (MiUser.id user)
    | _ => True
    end.
Proof.
  intros sv user note data silent tags ms c Hin. revert c Hin.
  refine (proj1 (Forall_forall (fun c => _ -> _) _) _).
  unfold postNoteEdited, index, deliverActivity. cbv zeta.
  repeat each_call_step;
    apply each_call; intros Hd; try discriminate Hd;
    repeat match goal with
           | H : negb ?b = true |- _ => apply negb_true_iff in H
           | H : notNull _ = true |- _ =>
               apply negb_true_iff in H
           end;
    (split; [assumption|]); (split; [assumption|]).
  - split; reflexivity.
  - match goal with H : In _ (filter _ _) |- _ =>
      apply filter_In in H as [? ?] end.
    split; [assumption|]. left. assumption.
  - split; [assumption|]. right. left. eexists.
    split; [reflexivity|]. split; [|assumption].
    match goal with H : isNull ?x = false |- ?x <> None =>
      destruct x; [discriminate|discriminate H] end.
  - split; [assumption|]. right. right. eexists.
    split; [reflexivity|]. split; [|assumption].
    match goal with H : isNull ?x = false |- ?x <> None =>
      destruct x; [discriminate|discriminate H] end.
  - apply includesStr_In. assumption.
  - match goal with H : includesStr _ _ = true |- _ =>
      apply includesStr_In in H as [H|[]] end.
    split; [symmetry; assumption|]. split; reflexivity.
  - exact I.
Qed.

Ltac runs_ok :=
  repeat first
    [ reflexivity
    | apply outcome_whenM_call
    | apply outcome_forM_call
    | apply outcome_forM_; intros ?
    | eapply outcome_bind_ok with (a := tt)
    | match goal with
      | |- outcome (if ?c then _ else _) = _ => destruct c
      | |- outcome (match ?x with _ => _ end) = _ => destruct x
      | |- outcome (whenM ?c _) = _ => destruct c; cbn [whenM]
      end ].

(** [postNoteEdited] throws only at line 535. *)
Lemma postNoteEdited_outcome sv user note data silent tags ms :
  outcome (postNoteEdited sv user note data silent tags ms)
  = if negb silent && visibilityIs "specified" data
       && isNull (visibleUsers data)
    then inl (newError "invalid param") else ok tt.
Proof.
  unfold postNoteEdited, index, deliverActivity. cbv zeta.
  destruct silent; cbn [negb andb].
  - runs_ok.
  - destruct (visibilityIs "specified" data); cbn [andb].
    + destruct (visibleUsers data) as [vus|]; cbn [isNull].
      * runs_ok.
      * rewrite !outcome_bind.
        repeat match goal with
               | |- context [outcome (call ?c)] =>
                   change (outcome (call c)) with (@inr Exn unit tt)
               | |- context [outcome (whenM ?c (call ?x))] =>
                   rewrite (outcome_whenM_call c x)
               end.
        cbn [ok].
        repeat match goal with
               | |- context [outcome ?m] =>
                   lazymatch m with
                   | raise _ => fail
                   | _ => let E := fresh in
                          assert (E : outcome m = ok tt) by runs_ok;
                          rewrite E; clear E; cbn [ok]
                   end
               end.
        reflexivity.
    + runs_ok.
Qed.

(** The job [edit] schedules carries what [edit] resolved. *)
Lemma job_of_edit sv user targetId data silent editor job :
  In (setImmediate_postUpdated job)
     (calls (edit sv user targetId data silent editor)) ->
  exists r,
    resolveEdit sv user targetId data = inr r /\
    notesRepository_update_throws sv (res_note r) = None /\
    job = {| PostUpdated.noteId := MiNote.id (res_note r);
             PostUpdated.user := user;
             PostUpdated.data := res_data r;
             PostUpdated.silent := silent;
             PostUpdated.tags := res_tags r;
             PostUpdated.mentionedUsers := res_mentionedUsers r |}.
Proof.
  rewrite edit_cases.
  destruct (resolveEdit sv user targetId data) as [e|r]; [intros []|].
  cbv zeta. intros H. exists r. split; [reflexivity|].
  destruct (notesRepository_update_throws sv (res_note r)) as [e|].
  - exfalso. destruct (isDuplicateKeyValueError sv e); cbn in H;
      repeat (destruct H as [H|H]; [discriminate H|]); exact H.
  - split; [reflexivity|].
    destruct editor as [ed|];
      [destruct (negb _); [destruct (usersRepository_findOneBy sv _)|]|];
      cbn in H;
      repeat (destruct H as [H|H];
              [first [injection H as <-; reflexivity | discriminate H]|]);
      destruct H.
Qed.

(** Line 271 leaves a list of visible users in every resolved payload. *)
Lemma resolved_visibleUsers sv user targetId data r :
  resolveEdit sv user targetId data = inr r ->
  visibleUsers (res_data r) <> None.
Proof.
  intros H. apply resolveEdit_fields in H
    as (tn & d0 & d1 & d2 & d4 & _ & Hd0 & Hd1 & Hd2 & H).
  cbv zeta in H. destruct H as ((ms1 & ms2 & Hf) & _ & _ & _ & _ & _ & _
                                & -> & _).
  pose proof (foldVisibleUsers_shape _ _ _ Hf) as (_ & Hn & Hs).
  destruct (visibilityIs "specified"
              (normalizeText sv (applyReplyAndLocality d2))) eqn:Ev.
  - destruct (Hs eq_refl) as (vus & -> & _). discriminate.
  - rewrite (Hn eq_refl).
    rewrite normalizeText_shape, applyReplyAndLocality_shape.
    apply applyContentPolicy_shape in Hd1 as (v1 & -> & _).
    apply applyRenoteVisibility_shape in Hd2 as (v2 & -> & _).
    cbn [visibleUsers set_text set_localOnly set_visibility].
    destruct (inheritFromTarget_ok _ _ _ _ Hd0)
      as (_ & _ & _ & _ & _ & _ & ->).
    unfold inherited. intros C.
    destruct (channel (resolveReplyChannel sv tn data)); cbn in C;
      [discriminate C|].
    destruct (visibleUsers (resolveReplyChannel sv tn data)); discriminate C.
Qed.

(** X16. The fan-out job scheduled by [edit] does not throw when the
    timer fires and the note is read back: the Error('invalid param') of
    line 535 cannot occur for a payload that [edit] prepared. If the
    note is no longer in the store, the job throws EntityNotFoundError
    before any call; if the timer was aborted, nothing runs. *)
Theorem fanout_after_edit_never_throws :
  forall sv user targetId data silent editor job,
    In (setImmediate_postUpdated job)
       (calls (edit sv user targetId data silent editor)) ->
    (forall note, outcome (postUpdated sv job false (Some note)) = ok tt) /\
    postUpdated sv job false None
    = ([], inl (EntityNotFoundError "MiNote" (PostUpdated.noteId job))) /\
    (forall reloaded, postUpdated sv job true reloaded = ([], ok tt)).
Proof.
  intros sv user targetId data silent editor job Hin.
  apply job_of_edit in Hin as (r & Hr & _ & ->).
  split; [|split; reflexivity].
  intros note. unfold postUpdated. cbn [PostUpdated.noteId orFail].
  rewrite outcome_bind. cbn [outcome lift snd ok].
  cbn [PostUpdated.user PostUpdated.data PostUpdated.silent
       PostUpdated.tags PostUpdated.mentionedUsers].
  rewrite postNoteEdited_outcome.
  destruct (visibleUsers (res_data r)) eqn:Ev;
    [|exfalso; exact (resolved_visibleUsers _ _ _ _ Hr Ev)].
  cbn [isNull]. rewrite andb_false_r. reflexivity.
Qed.

(** X17. A silent fan-out makes no announcement (no entry in the active-
    users chart, unread marker, stream event, role-timeline entry,
    webhook or delivery call) and does not throw; every other call of
    the loud fan-out is made by the silent one too. *)
Theorem silent_fanout_announces_nothing :
  forall sv user note data tags ms,
    allCalls (fun c => negb (isAnnouncement c))
      (postNoteEdited sv user note data true tags ms) /\
    outcome (postNoteEdited sv user note data true tags ms) = ok tt /\
    (forall c,
       In c (calls (postNoteEdited sv user note data false tags ms)) ->
       isAnnouncement c = false ->
       In c (calls (postNoteEdited sv user note data true tags ms))).
Proof.
  intros sv user note data tags ms. split; [|split].
  - unfold postNoteEdited, index. cbv zeta. cbn [negb]. all_calls.
  - rewrite postNoteEdited_outcome. reflexivity.
  - intros c Hin Hq. revert Hin.
    unfold postNoteEdited. cbv zeta. cbn [negb].
    set (tailOf := fun _ : unit =>
           bind (match channel data with
                 | Some c0 =>
                     call (channelsRepository_update (MiChannel.id c0)
                             (Date_now sv))
                 | None => ret tt
                 end) (fun _ => index note)).
    assert (Hsplit : forall (A : Type) (m : M A) (f : A -> M unit),
              In c (calls (bind m f)) ->
              In c (calls m) \/
              exists a, outcome m = ok a /\ In c (calls (f a))).
    { intros A m f. rewrite calls_bind.
      destruct (outcome m) as [e|a]; [auto|].
      intros H. apply in_app_or in H as [H|H]; [auto|]. right. eauto. }
    assert (Hquiet : forall m : M unit,
              allCalls isAnnouncement m -> ~ In c (calls m)).
    { intros m Hm Hc. unfold allCalls in Hm. rewrite forallb_forall in Hm.
      specialize (Hm c Hc). congruence. }
    intros Hin.
    repeat match type of Hin with
           | _ => progress cbv beta in Hin |- *
           | In c (calls (bind ?m _)) =>
               lazymatch m with
               | bind _ _ => fail
               | _ =>
                   let x := fresh "x" in
                   let Hx := fresh "Hx" in
                   apply Hsplit in Hin as [Hin|(x & Hx & Hin)];
                   [apply In_calls_bind_l; exact Hin
                   |apply In_calls_bind_r with (a := x); [exact Hx|]]
               end
           end.
    apply Hsplit in Hin as [Hin|([] & Hblock & Hin)].
    + exfalso. revert Hin. apply Hquiet.
      unfold deliverActivity. cbv zeta. all_calls.
    + apply In_calls_bind_r with (a := tt); [reflexivity|]. exact Hin.
Qed.

(** X18. Unread markers are created only by a fan-out that is not
    silent, for the note at hand and for local users of the audience:
    the visible users of a 'specified' payload (marked isSpecified),
    otherwise the mentioned users (marked isMentioned), never with both
    marks. Every local user of the audience gets one, unless the
    visible-user list of a 'specified' payload is null. *)
Theorem unread_markers_for_local_audience :
  forall sv user note data silent tags ms,
    (forall uid nt sp me,
       In (noteReadService_insertNoteUnread uid nt sp me)
          (calls (postNoteEdited sv user note data silent tags ms)) ->
       silent = false /\ nt = note /\
       sp = visibilityIs "specified" data /\ me = negb sp /\
       exists u, In u (unreadAudience data ms) /\
                 isLocalUser u = true /\ MiUser.id u = uid) /\
    (silent = false ->
     (visibilityIs "specified" data = true -> visibleUsers data <> None) ->
     forall u,
       In u (unreadAudience data ms) -> isLocalUser u = true ->
       In (noteReadService_insertNoteUnread (MiUser.id u) note
             (visibilityIs "specified" data)
             (negb (visibilityIs "specified" data)))
          (calls (postNoteEdited sv user note data silent tags ms))).
Proof.
  intros sv user note data silent tags ms. split.
  - intros uid nt sp me Hin.
    assert (Hall : Forall
              (fun c =>
                 match c with
                 | noteReadService_insertNoteUnread uid nt sp me =>
                     silent = false /\ nt = note /\
                     sp = visibilityIs "specified" data /\ me = negb sp /\
                     exists u, In u (unreadAudience data ms) /\
                               isLocalUser u = true /\ MiUser.id u = uid
                 | _ => True
                 end)
              (calls (postNoteEdited sv user note data silent tags ms))).
    { unfold postNoteEdited, index, deliverActivity, unreadAudience.
      cbv zeta.
      repeat each_call_step; apply each_call; try exact I;
        repeat match goal with
               | H : negb ?b = true |- _ => apply negb_true_iff in H
               | H : negb ?b = false |- _ => apply negb_false_iff in H
               end;
        (split; [assumption|]); (split; [reflexivity|]);
        (split; [reflexivity|]); (split; [reflexivity|]);
        eexists; (split; [eassumption|]); (split; [assumption|reflexivity]). }
    rewrite Forall_forall in Hall. exact (Hall _ Hin).
  - intros -> Hv u Hu Hl.
    unfold postNoteEdited. cbv zeta. cbn [negb].
    do 5 (apply In_calls_bind_r with (a := tt); [runs_ok|]).
    apply In_calls_bind_l.
    apply In_calls_bind_r with (a := tt); [runs_ok|].
    apply In_calls_bind_l.
    unfold unreadAudience in Hu.
    assert (Hone : forall (xs : list MiUser.t) sp me,
              In u xs ->
              In (noteReadService_insertNoteUnread (MiUser.id u) note sp me)
                 (calls (forM_ xs (fun u0 =>
                    if negb (isLocalUser u0) then ret tt
                    else call (noteReadService_insertNoteUnread
                                 (MiUser.id u0) note sp me))))).
    { intros xs sp me. induction xs as [|x xs IH]; intros Hx; [destruct Hx|].
      cbn [forM_]. destruct Hx as [->|Hx].
      - apply In_calls_bind_l. rewrite Hl. left. reflexivity.
      - apply In_calls_bind_r with (a := tt); [|exact (IH Hx)].
        destruct (negb (isLocalUser x)); reflexivity. }
    destruct (visibilityIs "specified" data); cbn [negb].
    + destruct (visibleUsers data) as [vus|];
        [|exfalso; apply Hv; reflexivity].
      apply Hone. exact Hu.
    + apply Hone. exact Hu.
Qed.

Lemma update_of_resolved sv user targetId data silent editor r :
  resolveEdit sv user targetId data = inr r ->
  In (notesRepository_update (MiNote.id (res_note r)) (res_note r))
     (calls (edit sv user targetId data silent editor)).
Proof.
  intros Hr. rewrite edit_cases, Hr. cbv zeta.
  destruct (notesRepository_update_throws sv (res_note r)) as [e|];
    [destruct (isDuplicateKeyValueError sv e)|
     destruct editor as [ed|];
       [destruct (negb _); [destruct (usersRepository_findOneBy sv _)|]|]];
    left; reflexivity.
Qed.

(** X19. When the fan-out of an edit updates hashtags, it does so for
    the poster and with the capped tag list of the edit, at most 32 tags
    of at most 128 code points: the stored note carries exactly these
    tags, normalised, and its visibility is 'public' or 'home'. *)
Theorem hashtags_follow_the_stored_note :
  forall sv user targetId data silent editor job aborted reloaded u ts,
    In (setImmediate_postUpdated job)
       (calls (edit sv user targetId data silent editor)) ->
    In (hashtagService_updateHashtags u ts)
       (calls (postUpdated sv job aborted reloaded)) ->
    u = user /\
    List.length ts <= 32 /\
    (forall t, In t ts -> codePointLength t <= 128) /\
    exists id n,
      In (notesRepository_update id n)
         (calls (edit sv user targetId data silent editor)) /\
      MiNote.tags n = map (normalizeForSearch sv) ts /\
      (MiNote.visibility n = "public" \/ MiNote.visibility n = "home").
Proof.
  intros sv user targetId data silent editor job aborted reloaded u ts
    Hjob Hin.
  apply job_of_edit in Hjob as (r & Hr & _ & ->).
  unfold postUpdated in Hin.
  destruct aborted; [destruct Hin|].
  destruct reloaded as [note|]; [|destruct Hin].
  cbn [PostUpdated.noteId PostUpdated.user PostUpdated.data
       PostUpdated.silent PostUpdated.tags PostUpdated.mentionedUsers
       orFail] in Hin.
  rewrite calls_bind in Hin. cbn [outcome lift ok snd calls fst app] in Hin.
  assert (Hall : Forall
            (fun c =>
               match c with
               | hashtagService_updateHashtags u ts =>
                   u = user /\ ts = res_tags r /\
                   visibilityIs "public" (res_data r)
                   || visibilityIs "home" (res_data r) = true
               | _ => True
               end)
            (calls (postNoteEdited sv user note (res_data r) silent
                      (res_tags r) (res_mentionedUsers r)))).
  { unfold postNoteEdited, index, deliverActivity. cbv zeta.
    repeat each_call_step; apply each_call; try exact I.
    split; [reflexivity|]. split; [reflexivity|assumption]. }
  rewrite Forall_forall in Hall. specialize (Hall _ Hin).
  cbv beta iota in Hall. destruct Hall as (-> & -> & Hv).
  pose proof (resolveEdit_fields _ _ _ _ Hr)
    as (tn & d0 & d1 & d2 & d4 & _ & _ & _ & _ & H).
  cbv zeta in H.
  destruct H as (_ & _ & _ & _ & _ & _ & _ & _ & _ & _ & Et & En).
  split; [reflexivity|].
  split; [rewrite Et; apply capTags_length|].
  split; [intros t; rewrite Et; apply capTags_codePoints|].
  exists (MiNote.id (res_note r)), (res_note r).
  split; [apply update_of_resolved; exact Hr|].
  rewrite En. cbn [newNote MiNote.tags MiNote.visibility].
  split; [reflexivity|].
  apply orb_true_iff in Hv as [Hv|Hv]; apply visibilityIs_true in Hv;
    rewrite Hv; [left|right]; reflexivity.
Qed.

End FanoutMore.

Section FanoutInstances.
Import NoteEditService Option Js.
Local Open Scope string_scope.
Local Open Scope list_scope.

Lemma delivery_recipients_witness :
  In (MiNote.visibility Sample.target) ["public"; "home"; "followers"].
Proof.
  destruct (@delivery_recipients Sample.services Sample.alice Sample.target
              Sample.localOnlyPublic false [] [] dm_addFollowersRecipe)
    as (_ & _ & H).
  - vm_compute. do 7 right. left. reflexivity.
  - reflexivity.
  - exact H.
Defined.

Lemma fanout_after_edit_never_throws_witness :
  outcome (postUpdated Sample.services (jobOf (Sample.textOnly "hi")) false
             (Some (Sample.stored (Sample.textOnly "hi")))) = ok tt.
Proof.
  destruct (@fanout_after_edit_never_throws Sample.services Sample.alice
              "n1" (Sample.textOnly "hi") false None
              (jobOf (Sample.textOnly "hi"))) as (H & _).
  - vm_compute. right. left. reflexivity.
  - apply H.
Defined.

Lemma hashtags_follow_the_stored_note_witness :
  List.length (res_tags (Sample.resolvedOf Sample.manyTags)) <= 32 /\
  exists id n,
    In (notesRepository_update id n) (calls (Sample.run Sample.manyTags)) /\
    MiNote.tags n
    = map (normalizeForSearch Sample.services)
        (res_tags (Sample.resolvedOf Sample.manyTags)) /\
    (MiNote.visibility n = "public" \/ MiNote.visibility n = "home").
Proof.
  destruct (@hashtags_follow_the_stored_note Sample.services Sample.alice
              "n1" Sample.manyTags false None (jobOf Sample.manyTags) false
              (Some (Sample.stored Sample.manyTags)) Sample.alice
              (res_tags (Sample.resolvedOf Sample.manyTags)))
    as (_ & Hlen & _ & Hn).
  - vm_compute. right. left. reflexivity.
  - vm_compute. do 2 right. left. reflexivity.
  - split; [exact Hlen|exact Hn].
Defined.

End FanoutInstances.

(** ** edit: the channel of a reply *)

Section ReplyChannel.
Import NoteEditService Option Js.
Local Open Scope string_scope.
Local Open Scope list_scope.

Variable sv : Services.
Variable user : MiUser.t.

(** Lines 244-261: the reply and the channel they leave. *)
Lemma resolveReplyChannel_exact tn d :
  reply (resolveReplyChannel sv tn d) = requestedReply d tn /\
  channel (resolveReplyChannel sv tn d)
  = let ch := match channel d with
              | Some c => Some c
              | None => MiNote.channel tn
              end in
    match requestedReply d tn with
    | None => ch
    | Some r =>
        match ch with
        | Some c =>
            if optStrEqb (MiNote.channelId r) (Some (MiChannel.id c))
            then Some c
            else if truthyStr (MiNote.channelId r)
                 then findReplyChannel sv r else None
        | None =>
            if truthyStr (MiNote.channelId r)
            then findReplyChannel sv r else None
        end
    end.
Proof.
  unfold resolveReplyChannel, when_, requestedReply.
  destruct d as [? ? ? rp ? ? ? ? ? ? ? ? ch ? ? ? ? ? ?].
  cbn [reply channel set_reply set_channel isNull].
  destruct rp as [r|]; [|destruct (MiNote.reply tn) as [r|]];
    (destruct ch as [c|]; [|destruct (MiNote.channel tn) as [c|]]);
    cbn [reply channel set_reply set_channel isNull negb andb];
    repeat (match goal with
            | H : ?x = _ |- context [?x] => rewrite H
            | |- context [optStrEqb ?a ?b] => destruct (optStrEqb a b) eqn:?
            | |- context [truthyStr ?a] => destruct (truthyStr a) eqn:?
            | |- context [findReplyChannel sv ?a] =>
                destruct (findReplyChannel sv a) eqn:?
            end;
            cbn [reply channel set_reply set_channel isNull negb andb]);
    split; reflexivity.
Qed.

(** A reply that is present before line 267 is kept by lines 263-275. *)
Lemma inheritFromTarget_reply targetId tn d d0 rp :
  inheritFromTarget sv targetId tn d = inr d0 ->
  reply d = Some rp -> reply d0 = Some rp.
Proof.
  unfold inheritFromTarget. intros H Hrp.
  apply rbind_inr in H as (d1 & H1 & H). inversion H; subst; clear H.
  rewrite inheritRest_shape.
  cbn [reply set_localOnly set_visibleUsers set_visibility
       set_reactionAcceptance set_name set_files].
  unfold inheritRelations in H1.
  apply rbind_inr in H1 as (da & Ha & H1).
  apply rbind_inr in H1 as (db & Hb & H1).
  assert (Ea : reply da = Some rp).
  { rewrite inheritScalars_shape in Ha.
    destruct (MiNote.renoteId tn) as [rid|];
      [destruct (isNull _ && truthyStr _);
         [apply rbind_inr in Ha as (x & _ & Ha)|]|];
      inversion Ha; subst; exact Hrp. }
  assert (Eb : reply db = Some rp).
  { destruct (MiNote.replyId tn) as [rid|]; [|inversion Hb; subst; exact Ea].
    rewrite Ea in Hb. cbn [isNull andb] in Hb.
    inversion Hb; subst; exact Ea. }
  destruct (isNull (poll db));
    [destruct (MiNote.hasPoll tn);
       [apply rbind_inr in H1 as (x & _ & H1)|]|];
    inversion H1; subst; exact Eb.
Qed.

(** A reply that is absent before line 267 is read there from the store,
    by the [replyId] of the target note. *)
Lemma inheritFromTarget_loads_reply targetId tn d d0 :
  inheritFromTarget sv targetId tn d = inr d0 ->
  reply d = None ->
  reply d0
  = match MiNote.replyId tn with
    | Some rid =>
        if truthyStr (Some rid) then notesRepository_findOneBy sv rid
        else None
    | None => None
    end.
Proof.
  unfold inheritFromTarget. intros H Hrp.
  apply rbind_inr in H as (d1 & H1 & H). inversion H; subst; clear H.
  rewrite inheritRest_shape.
  cbn [reply set_localOnly set_visibleUsers set_visibility
       set_reactionAcceptance set_name set_files].
  unfold inheritRelations in H1.
  apply rbind_inr in H1 as (da & Ha & H1).
  apply rbind_inr in H1 as (db & Hb & H1).
  assert (Ea : reply da = None).
  { rewrite inheritScalars_shape in Ha.
    destruct (MiNote.renoteId tn) as [rid|];
      [destruct (isNull _ && truthyStr _);
         [apply rbind_inr in Ha as (x & _ & Ha)|]|];
      inversion Ha; subst; exact Hrp. }
  assert (Eb : reply db
               = match MiNote.replyId tn with
                 | Some rid =>
                     if truthyStr (Some rid)
                     then notesRepository_findOneBy sv rid
                     else None
                 | None => None
                 end).
  { destruct (MiNote.replyId tn) as [rid|]; [|inversion Hb; subst; exact Ea].
    rewrite Ea in Hb. cbn [isNull andb] in Hb.
    destruct (truthyStr (Some rid)).
    - unfold findNoteOrFail, orFail in Hb.
      destruct (notesRepository_findOneBy sv rid) as [r|];
        [|discriminate Hb].
      cbn [rbind ok] in Hb. inversion Hb; subst. reflexivity.
    - inversion Hb; subst; exact Ea. }
  destruct (isNull (poll db));
    [destruct (MiNote.hasPoll tn);
       [apply rbind_inr in H1 as (x & _ & H1)|]|];
    inversion H1; subst; exact Eb.
Qed.

(** X20. If channel rows are keyed by their id: an edit with a reply
    target at line 244 (that of the caller, else the one attached to the
    target note) is stored as a reply to it, in the channel of the reply
    target or in none, and outside channels when the reply target is. An
    edit without one is stored in the channel of the caller, else in that
    of the target note; the reply it is stored with is the note read at
    line 267 by the [replyId] of the target note, if any, and that note
    does not steer the channel: such a reply can be stored in a channel
    other than that of its reply target. *)
Theorem reply_and_channel_of_edit :
  forall targetId data silent editor id n tn,
    (forall cid c, channelsRepository_findOneBy sv cid = Some c ->
                   MiChannel.id c = cid) ->
    In (notesRepository_update id n)
       (calls (edit sv user targetId data silent editor)) ->
    notesRepository_findOneBy sv targetId = Some tn ->
    (forall rp,
       requestedReply data tn = Some rp ->
       MiNote.replyId n = Some (MiNote.id rp) /\
       (MiNote.channelId n = None \/
        MiNote.channelId n = MiNote.channelId rp) /\
       (MiNote.channelId rp = None -> MiNote.channelId n = None)) /\
    (requestedReply data tn = None ->
     MiNote.channelId n
     = option_map MiChannel.id
         match channel data with
         | Some c => Some c
         | None => MiNote.channel tn
         end /\
     MiNote.replyId n
     = option_map MiNote.id
         match MiNote.replyId tn with
         | Some rid =>
             if truthyStr (Some rid) then notesRepository_findOneBy sv rid
             else None
         | None => None
         end).
Proof.
  intros targetId data silent editor id n tn Hkey Hin Htn.
  apply edit_update_inv in Hin as (r & Hr & ->).
  pose proof (resolveEdit_fields _ _ _ _ Hr)
    as (tn' & d0 & d1 & d2 & d4 & Htn' & Hd0 & Hd1 & Hd2 & H).
  rewrite Htn in Htn'. injection Htn' as <-.
  cbv zeta in H.
  destruct H as ((ms1 & ms2 & Hf) & _ & Ev & El & Ec & Erp & _ & Evu & Evn
                 & _ & _ & En).
  destruct (resolveReplyChannel_exact tn data) as [Er Ech].
  pose proof (inheritFromTarget_ok _ _ _ _ Hd0)
    as (_ & _ & Ec0 & _ & _ & El0 & Evu0).
  rewrite En.
  cbn [newNote MiNote.replyId MiNote.channelId].
  split.
  - intros rp Hrp. rewrite Hrp in Er, Ech. cbv zeta in Ech.
    pose proof (inheritFromTarget_reply _ _ _ Hd0 Er) as Er0.
    rewrite Erp, Er0, Ec, Ec0, Ech. cbn [option_map].
    split; [reflexivity|].
    assert (Hfind : forall c, findReplyChannel sv rp = Some c ->
                      MiNote.channelId rp = Some (MiChannel.id c)).
    { unfold findReplyChannel. intros c Hc.
      destruct (MiNote.channelId rp) as [cid|]; [|discriminate Hc].
      rewrite (Hkey _ _ Hc). reflexivity. }
    assert (Hch : forall c, channel d0 = Some c ->
                    MiNote.channelId rp = Some (MiChannel.id c)).
    { intros c Hc. rewrite Ec0, Ech in Hc.
      destruct (match channel data with
                | Some c0 => Some c0
                | None => MiNote.channel tn
                end) as [c0|].
      - destruct (optStrEqb (MiNote.channelId rp) (Some (MiChannel.id c0)))
          eqn:Eo.
        + injection Hc as <-. apply optStrEqb_true. exact Eo.
        + destruct (truthyStr (MiNote.channelId rp)); [|discriminate Hc].
          apply Hfind. exact Hc.
      - destruct (truthyStr (MiNote.channelId rp)); [|discriminate Hc].
        apply Hfind. exact Hc. }
    rewrite <- Ech, <- Ec0.
    destruct (channel d0) as [c|] eqn:Ecd.
    + specialize (Hch c eq_refl). cbn [option_map].
      split; [right; symmetry; exact Hch|].
      intros C. congruence.
    + cbn [option_map]. split; [left; reflexivity|]. reflexivity.
  - intros Hrp. rewrite Hrp in Er, Ech. cbv zeta in Ech.
    pose proof (inheritFromTarget_loads_reply _ _ _ Hd0 Er) as Er0.
    rewrite Erp, Er0, Ec, Ec0, Ech. split; reflexivity.
Qed.

End ReplyChannel.

Section ReplyChannelInstances.
Import NoteEditService Option Js.
Local Open Scope string_scope.
Local Open Scope list_scope.

Lemma sample_channels_keyed cid c :
  channelsRepository_findOneBy Sample.services cid = Some c ->
  MiChannel.id c = cid.
Proof.
  cbn. destruct (cid =? "c1") eqn:E; [|discriminate].
  intros [= <-]. apply String.eqb_eq in E. symmetry. exact E.
Qed.

Lemma reply_and_channel_of_edit_witness :
  (MiNote.channelId (Sample.stored Channels.replyIntoChannel) = None \/
   MiNote.channelId (Sample.stored Channels.replyIntoChannel)
   = MiNote.channelId Channels.bobInChannel) /\
  MiNote.channelId (Sample.stored Channels.replyOutOfChannel) = None /\
  (MiNote.channelId
     (Scenario.storedBy Channels.services Sample.alice "n8"
        Channels.intoOtherChannel None) = Some "c2" /\
   MiNote.replyId
     (Scenario.storedBy Channels.services Sample.alice "n8"
        Channels.intoOtherChannel None) = Some "n7" /\
   MiNote.channelId Channels.bobInChannel = Some "c1").
Proof.
  split; [|split].
  - destruct (@reply_and_channel_of_edit Sample.services Sample.alice "n1"
                Channels.replyIntoChannel false None "n1"
                (Sample.stored Channels.replyIntoChannel) Sample.target)
      as (Hsome & _).
    + exact sample_channels_keyed.
    + vm_compute. left. reflexivity.
    + vm_compute. reflexivity.
    + destruct (Hsome Channels.bobInChannel) as (_ & H & _).
      * vm_compute. reflexivity.
      * exact H.
  - destruct (@reply_and_channel_of_edit Sample.services Sample.alice "n1"
                Channels.replyOutOfChannel false None "n1"
                (Sample.stored Channels.replyOutOfChannel) Sample.target)
      as (Hsome & _).
    + exact sample_channels_keyed.
    + vm_compute. left. reflexivity.
    + vm_compute. reflexivity.
    + destruct (Hsome Sample.bobPublic) as (_ & _ & H).
      * vm_compute. reflexivity.
      * apply H. reflexivity.
  - destruct (@reply_and_channel_of_edit Channels.services Sample.alice "n8"
                Channels.intoOtherChannel false None "n8"
                (Scenario.storedBy Channels.services Sample.alice "n8"
                   Channels.intoOtherChannel None) Channels.replyById)
      as (_ & Hnone).
    + exact sample_channels_keyed.
    + vm_compute. left. reflexivity.
    + vm_compute. reflexivity.
    + destruct Hnone as (Hc & Hr).
      * vm_compute. reflexivity.
      * split; [rewrite Hc; vm_compute; reflexivity|].
        split; [rewrite Hr; vm_compute; reflexivity|].
        reflexivity.
Defined.

End ReplyChannelInstances.

(** ** checkHibernation *)

Section HibernationFacts.
Import Hibernation.
Local Open Scope string_scope.
Local Open Scope list_scope.

Lemma length_setNth {A} i (v : A) l : List.length (setNth i v l) = List.length l.
Proof.
  revert i. induction l as [|h t IH]; intros [|i]; cbn; try reflexivity.
  rewrite IH. reflexivity.
Qed.

Lemma nth_error_setNth {A} i j (v : A) l :
  nth_error (setNth j v l) i
  = if (i =? j)%nat
    then match nth_error l j with Some _ => Some v | None => None end
    else nth_error l i.
Proof.
  revert i j. induction l as [|h t IH]; intros i j.
  - cbn. destruct (i =? j)%nat; destruct i, j; reflexivity.
  - destruct j as [|j]; destruct i as [|i]; cbn; try reflexivity.
    apply IH.
Qed.

Lemma setNth_perm {A} i (x y : A) l :
  nth_error l i = Some x -> Permutation (y :: l) (x :: setNth i y l).
Proof.
  revert i. induction l as [|h t IH]; intros [|i] H; try discriminate H.
  - cbn in H. injection H as ->. cbn. apply perm_swap.
  - cbn in H. cbn [setNth].
    apply perm_trans with (h :: y :: t); [apply perm_swap|].
    apply perm_trans with (h :: x :: setNth i y t);
      [apply perm_skip; apply IH; exact H|apply perm_swap].
Qed.

Lemma swap_perm {A} i j (l : list A) : Permutation (swap i j l) l.
Proof.
  unfold swap.
  destruct (nth_error l i) as [x|] eqn:Ei; [|reflexivity].
  destruct (nth_error l j) as [y|] eqn:Ej; [|reflexivity].
  apply Permutation_cons_inv with (a := y).
  apply perm_trans with (x :: setNth i y l).
  - symmetry. apply setNth_perm.
    rewrite nth_error_setNth, Ei.
    destruct (j =? i)%nat eqn:E; [|exact Ej].
    apply Nat.eqb_eq in E. subst. congruence.
  - symmetry. apply setNth_perm. exact Ei.
Qed.

Lemma shuffle_perm {A} draw (l : list A) : Permutation (shuffle draw l) l.
Proof.
  unfold shuffle. generalize (List.length l - 1) as i. intros i. revert l.
  induction i as [|i IH]; intros l; cbn [shuffleFrom]; [reflexivity|].
  apply perm_trans with (swap (S i) (draw (S i)) l);
    [apply IH|apply swap_perm].
Qed.

(** X21. For draws of the random source that are in range,
    [checkHibernation] leaves the array of the caller a permutation of
    what it was; the sample, the first min(n, 1000) elements of that
    array, has min(n, 1000) elements, all of them among the followings
    given, and is a permutation of them when there are at most 1000. No
    call is made for an empty array. For any other array the calls are
    exactly these, in this order: the user rows are asked for the
    follower ids of the sample and a last activity more than fifty days
    (4320000000 ms) ago; then, only when a row was found, the users found
    are marked as hibernated and the followings of the users found are
    marked as followings of a hibernated follower. *)
Theorem checkHibernation_samples_and_marks :
  forall src followings,
    (forall i, Math_random_index src i <= i) ->
    let shuffled := fst (checkHibernation src followings) in
    let samples :=
      firstn (Nat.min (List.length followings) 1000) shuffled in
    let asked := map MiFollowing.followerId samples in
    let before := (Date_now src - 4320000000)%Z in
    let found := usersRepository_find src asked before in
    Permutation shuffled followings /\
    List.length samples = Nat.min (List.length followings) 1000 /\
    (forall f, In f samples -> In f followings) /\
    (List.length followings <= 1000 -> Permutation samples followings) /\
    (followings = [] -> snd (checkHibernation src followings) = []) /\
    (followings <> [] ->
     snd (checkHibernation src followings)
     = usersRepository_find_call asked before
       :: match found with
          | [] => []
          | _ :: _ =>
              [usersRepository_update_isHibernated found;
               followingsRepository_update_isFollowerHibernated found]
          end).
Proof.
  intros src followings _ shuffled samples asked before found.
  pose proof (shuffle_perm (Math_random_index src) followings) as Hp.
  assert (Hs : Permutation shuffled followings).
  { subst shuffled. destruct followings; [constructor|exact Hp]. }
  assert (Hlen : List.length samples
                 = Nat.min (List.length followings) 1000).
  { subst samples. rewrite length_firstn, (Permutation_length Hs). lia. }
  split; [exact Hs|].
  split; [exact Hlen|]. split.
  { intros f Hf. apply (Permutation_in _ Hs).
    subst samples. apply firstn_In in Hf. exact Hf. }
  split.
  { intros Hle. subst samples.
    rewrite firstn_all2; [exact Hs|].
    rewrite (Permutation_length Hs). lia. }
  split; [intros ->; reflexivity|].
  intros Hne. destruct followings as [|f fs]; [congruence|].
  subst found asked samples shuffled before.
  cbn [checkHibernation fst snd]. unfold samplesOf.
  change fiftyDays with 4320000000%Z.
  f_equal.
  destruct (usersRepository_find src _ _); reflexivity.
Qed.

End HibernationFacts.

Section HibernationInstances.
Import Hibernation.
Local Open Scope string_scope.
Local Open Scope list_scope.

Lemma checkHibernation_samples_and_marks_witness :
  Permutation (fst (checkHibernation sources threeFollowings))
    threeFollowings /\
  fst (checkHibernation sources threeFollowings)
  = [follow "f2" "carol"; follow "f3" "dave"; follow "f1" "bob"] /\
  snd (checkHibernation sources threeFollowings)
  = [usersRepository_find_call ["carol"; "dave"; "bob"] 1695680000000%Z;
     usersRepository_update_isHibernated ["dave"; "bob"];
     followingsRepository_update_isFollowerHibernated ["dave"; "bob"]].
Proof.
  destruct (@checkHibernation_samples_and_marks sources threeFollowings)
    as (Hp & _ & _ & _ & _ & Hcalls).
  - intros i. cbn. lia.
  - split; [exact Hp|]. split; [vm_compute; reflexivity|].
    rewrite Hcalls; [vm_compute; reflexivity | discriminate].
Defined.

End HibernationInstances.

(** ** The fan-out: what is federated *)

Section FederatedActivity.
Import NoteEditService Option Js.
Local Open Scope string_scope.
Local Open Scope list_scope.

(** The payload [edit] hands to the fan-out and the record it stores agree
    on what makes a quote and on the locality. *)
Lemma resolved_quote sv user targetId data r :
  resolveEdit sv user targetId data = inr r ->
  isQuote (res_data r) = isStoredQuote (res_note r) /\
  notNull (renote (res_data r)) = notNull (MiNote.renoteId (res_note r)) /\
  localOnly (res_data r) <> None /\
  MiNote.localOnly (res_note r)
  = match localOnly (res_data r) with Some b => b | None => false end.
Proof.
  intros Hr.
  pose proof (resolveEdit_inv _ _ _ _ Hr)
    as (tn & d0 & d1 & d2 & ms1 & d4 & ms2 & _ & Hd0 & Hd1 & Hd2 & _ & H).
  cbv zeta in H. destruct H as (_ & Hf & ->).
  cbn [res_data res_note].
  set (d5 := when_ (notNull (apMentions d4)) (set_apMentions (Some ms2)) d4).
  assert (Hl : localOnly d5 <> None).
  { pose proof (foldVisibleUsers_shape _ _ _ Hf) as (E4 & _).
    assert (E5 : localOnly d5 = localOnly d4)
      by (unfold d5, when_; destruct (notNull _); reflexivity).
    rewrite E5, E4. cbn [localOnly set_visibleUsers].
    rewrite normalizeText_shape. cbn [localOnly set_text].
    destruct (applyReplyAndLocality_localOnly d2) as [E|E]; rewrite E;
      [|discriminate].
    apply applyContentPolicy_shape in Hd1 as (v1 & -> & _).
    apply applyRenoteVisibility_shape in Hd2 as (v2 & -> & _).
    cbn [localOnly set_visibility].
    destruct (inheritFromTarget_ok _ _ _ _ Hd0)
      as (_ & _ & _ & _ & _ & -> & _).
    unfold inherited. intros C.
    destruct (channel (resolveReplyChannel sv tn data)); cbn in C;
      [discriminate C|].
    destruct (localOnly (resolveReplyChannel sv tn data)); discriminate C. }
  split; [|split; [|split; [exact Hl|reflexivity]]].
  - unfold isQuote, isStoredQuote.
    cbn [newNote MiNote.renoteId MiNote.text MiNote.cw MiNote.fileIds
         MiNote.hasPoll].
    destruct (renote d5); cbn [option_map notNull isNull negb andb];
      [|reflexivity].
    destruct (files d5) as [fs|]; [rewrite length_map|]; reflexivity.
  - cbn [newNote MiNote.renoteId]. destruct (renote d5); reflexivity.
Qed.

(** Every deliver manager of the fan-out is created for the poster with
    what [renderNoteOrRenoteActivity] returns. *)
Lemma deliverManager_activity sv user note data silent tags ms u a :
  In (apDeliverManagerService_createDeliverManager u a)
     (calls (postNoteEdited sv user note data silent tags ms)) ->
  u = user /\ a = renderNoteOrRenoteActivity sv data note (MiUser.id user).
Proof.
  intros Hin.
  assert (Hall : Forall
            (fun c =>
               match c with
               | apDeliverManagerService_createDeliverManager u a =>
                   u = user /\
                   a = renderNoteOrRenoteActivity sv data note
                         (MiUser.id user)
               | _ => True
               end)
            (calls (postNoteEdited sv user note data silent tags ms))).
  { unfold postNoteEdited, index, deliverActivity. cbv zeta.
    repeat first
      [ apply each_ret | apply each_raise | apply each_lift
      | apply each_whenM; intros ?
      | apply each_forM_; intros ? ?
      | apply each_bind; [|intros ?]
      | match goal with
        | |- Forall _ (calls (if ?c then _ else _)) => destruct c
        | |- Forall _ (calls (match ?x with _ => _ end)) => destruct x
        end ];
      apply each_call; try exact I.
    split; reflexivity. }
  rewrite Forall_forall in Hall. exact (Hall _ Hin).
Qed.

(** X22. What the fan-out of an edit hands to the deliver manager is
    decided by the stored note: no activity exactly when the stored note
    is local-only; an Announce only when it is a renote without text,
    content warning, files and poll; an Update of the rendered note in
    the name of the poster only when it is no renote, or a quote. *)
Theorem federated_activity_matches_stored_note :
  forall sv user targetId data silent editor job id n note u a,
    In (setImmediate_postUpdated job)
       (calls (edit sv user targetId data silent editor)) ->
    In (notesRepository_update id n)
       (calls (edit sv user targetId data silent editor)) ->
    In (apDeliverManagerService_createDeliverManager u a)
       (calls (postUpdated sv job false (Some note))) ->
    u = user /\
    (a = None <-> MiNote.localOnly n = true) /\
    (forall target nt,
       a = Some (addContext (renderAnnounce target nt)) ->
       nt = note /\ MiNote.renoteId n <> None /\ isStoredQuote n = false) /\
    (forall object nt userId,
       a = Some (addContext (renderNoteUpdate object nt userId)) ->
       nt = note /\ userId = MiUser.id user /\
       object = renderNote note false true /\
       (MiNote.renoteId n = None \/ isStoredQuote n = true)).
Proof.
  intros sv user targetId data silent editor job id n note u a
    Hjob Hupd Hin.
  apply job_of_edit in Hjob as (r & Hr & _ & ->).
  apply edit_update_inv in Hupd as (r' & Hr' & ->).
  rewrite Hr in Hr'. injection Hr' as <-.
  unfold postUpdated in Hin.
  cbn [PostUpdated.noteId PostUpdated.user PostUpdated.data
       PostUpdated.silent PostUpdated.tags PostUpdated.mentionedUsers
       orFail] in Hin.
  rewrite calls_bind in Hin. cbn [outcome lift ok snd calls fst app] in Hin.
  apply deliverManager_activity in Hin as [-> ->].
  destruct (resolved_quote _ _ _ _ Hr) as (Eq & Ern & Hl & El).
  split; [reflexivity|].
  unfold renderNoteOrRenoteActivity. rewrite El, Eq.
  destruct (localOnly (res_data r)) as [[|]|] eqn:Elo; [| |congruence].
  - split; [split; reflexivity|]. split; intros; discriminate.
  - split; [split; discriminate|].
    destruct (renote (res_data r)) as [rn|] eqn:Ernd;
      cbn [notNull isNull negb] in Ern.
    + assert (Hrn : MiNote.renoteId (res_note r) <> None).
      { destruct (MiNote.renoteId (res_note r)); [discriminate|].
        discriminate Ern. }
      destruct (isStoredQuote (res_note r)) eqn:Esq; cbn [negb]; split.
      * intros target nt C. discriminate C.
      * intros object nt userId [= <- <- <-].
        repeat split; try reflexivity. right. reflexivity.
      * intros target nt [= _ <-]. repeat split; assumption || reflexivity.
      * intros object nt userId C. discriminate C.
    + assert (Hrn : MiNote.renoteId (res_note r) = None).
      { destruct (MiNote.renoteId (res_note r)); [discriminate Ern|].
        reflexivity. }
      split.
      * intros target nt C. discriminate C.
      * intros object nt userId [= <- <- <-].
        repeat split; try reflexivity. left. exact Hrn.
Qed.

End FederatedActivity.

Section FederatedActivityInstances.
Import NoteEditService Option Js.
Local Open Scope string_scope.
Local Open Scope list_scope.

Lemma federated_activity_matches_stored_note_witness :
  MiNote.renoteId (Sample.stored Renotes.blankRenote) <> None /\
  isStoredQuote (Sample.stored Renotes.blankRenote) = false.
Proof.
  destruct (@federated_activity_matches_stored_note Sample.services
              Sample.alice "n1" Renotes.blankRenote false None
              (jobOf Renotes.blankRenote) "n1"
              (Sample.stored Renotes.blankRenote)
              (Sample.stored Renotes.blankRenote) Sample.alice
              (Some (addContext
                       (renderAnnounce "https://misskey.example/notes/n2"
                          (Sample.stored Renotes.blankRenote)))))
    as (_ & _ & H & _).
  - vm_compute. right. left. reflexivity.
  - vm_compute. left. reflexivity.
  - vm_compute. do 6 right. left. reflexivity.
  - destruct (H "https://misskey.example/notes/n2"
                (Sample.stored Renotes.blankRenote) eq_refl)
      as (_ & H1 & H2).
    split; [exact H1|exact H2].
Defined.

End FederatedActivityInstances.
